(** * Level-up Estimator: the camera-relative measurement module

    A shallow embedding of [ARMeasurement.tsx] (capture state machine,
    calibration, polygon statistics, auto-scan stability detector) and of the
    dimension logic of [addRoom] in [EstimateBuilder.tsx], followed by the
    properties of the module's written specification.

    Conventions.
    - A JavaScript [number] is idealised as a real number of [R]: rounding,
      [NaN] and the infinities are outside the model.  Where the source can
      read [NaN] from a text field ([parseFloat]), the reading is an
      [option R] and [None] stands for [NaN].
    - Instants ([Date.now()]) are integers of [Z], in milliseconds.
    - A React event handler reads the state of the render that created it
      (its closure) and queues updates; updater functions see the queued
      state.  A handler is therefore a function of the rendered snapshot into
      a small state-and-exception monad over the queued state.  An exception
      leaves the updates queued before it in place. *)

From Stdlib Require Import Reals Lra Lia ZArith List Bool Arith.
From Stdlib Require String Ascii DecimalString.
Import ListNotations.

Local Open Scope R_scope.

(** ** JavaScript comparisons and truthiness on idealised numbers *)

Module JS.

Definition gtb (a b : R) : bool := if Rgt_dec a b then true else false.
Definition geb (a b : R) : bool := if Rge_dec a b then true else false.
Definition ltb (a b : R) : bool := if Rlt_dec a b then true else false.

(** A [number?] argument: [None] is [undefined]. [truthy] is the test that
    [if (v)] and [v && w] perform: [undefined] and [0] are falsy. *)
Definition truthy (v : option R) : bool :=
  match v with
  | None => false
  | Some a => if Req_dec_T a 0 then false else true
  end.

(** [v || 0] for a [parseFloat] reading: [NaN] and [0] both give [0]. *)
Definition orZero (v : option R) : R :=
  match v with
  | None => 0
  | Some a => a
  end.

(** [for (let i = 0; i < n; i++) acc = body i acc] *)
Definition for_loop {A : Type} (n : nat) (body : nat -> A -> A) (init : A) : A :=
  fold_left (fun acc i => body i acc) (seq 0 n) init.

(** [arr.slice(0, -1)]: the end index is [max (length - 1) 0]. *)
Definition slice_0_m1 {A : Type} (arr : list A) : list A :=
  firstn (length arr - 1) arr.

End JS.

(** ** Points and distances *)

Record Point : Type := mkPoint { px : R; py : R }.

Record Rect : Type := mkRect { width : R; height : R }.

Record Viewport : Type := mkViewport { vw : R; vh : R }.

(** [{ x: viewport.w/2, y: viewport.h/2 }], the reticle position. *)
Definition viewportCenter (v : Viewport) : Point :=
  mkPoint (vw v / 2) (vh v / 2).

(** [calculatePixelDistance] *)
Definition calculatePixelDistance (p1 p2 : Point) : R :=
  let dx := px p1 - px p2 in
  let dy := py p1 - py p2 in
  sqrt (dx * dx + dy * dy).

(** ** The measurement session ([ARMeasurement]) *)

Module ARMeasurement.

(** The component's [useState] cells that the handlers and [stats] read or
    write.  [calibrationDistanceInput] is kept as its [parseFloat] reading.
    ([cursorPos] is only drawn; [scanProgress] and the two refs belong to the
    detector, modelled in [AutoScan].) *)
Record State : Type := mkState {
  points : list Point;
  isClosed : bool;
  isCalibrating : bool;
  calibrationPoints : list Point;
  pixelsPerFoot : R;
  showCalibrationModal : bool;
  calibrationDistanceInput : option R;
  isAutoScan : bool;
  viewport : Viewport
}.

(** The values given to [useState] at mount; the input text ['3'] reads 3. *)
Definition initialState : State :=
  mkState [] false false [] 35 false (Some 3) true (mkViewport 0 0).

Definition with_points (v : list Point) (s : State) : State :=
  mkState v (isClosed s) (isCalibrating s) (calibrationPoints s)
    (pixelsPerFoot s) (showCalibrationModal s) (calibrationDistanceInput s)
    (isAutoScan s) (viewport s).

Definition with_isClosed (v : bool) (s : State) : State :=
  mkState (points s) v (isCalibrating s) (calibrationPoints s)
    (pixelsPerFoot s) (showCalibrationModal s) (calibrationDistanceInput s)
    (isAutoScan s) (viewport s).

Definition with_isCalibrating (v : bool) (s : State) : State :=
  mkState (points s) (isClosed s) v (calibrationPoints s)
    (pixelsPerFoot s) (showCalibrationModal s) (calibrationDistanceInput s)
    (isAutoScan s) (viewport s).

Definition with_calibrationPoints (v : list Point) (s : State) : State :=
  mkState (points s) (isClosed s) (isCalibrating s) v
    (pixelsPerFoot s) (showCalibrationModal s) (calibrationDistanceInput s)
    (isAutoScan s) (viewport s).

Definition with_pixelsPerFoot (v : R) (s : State) : State :=
  mkState (points s) (isClosed s) (isCalibrating s) (calibrationPoints s)
    v (showCalibrationModal s) (calibrationDistanceInput s)
    (isAutoScan s) (viewport s).

Definition with_showCalibrationModal (v : bool) (s : State) : State :=
  mkState (points s) (isClosed s) (isCalibrating s) (calibrationPoints s)
    (pixelsPerFoot s) v (calibrationDistanceInput s)
    (isAutoScan s) (viewport s).

Definition with_viewport (v : Viewport) (s : State) : State :=
  mkState (points s) (isClosed s) (isCalibrating s) (calibrationPoints s)
    (pixelsPerFoot s) (showCalibrationModal s) (calibrationDistanceInput s)
    (isAutoScan s) v.

(** *** The handler monad: queued state plus JavaScript exceptions *)

Inductive Error : Type := TypeError.

Inductive Completion (A : Type) : Type :=
| Normal (a : A)
| Throw (e : Error).

Arguments Normal {A} a.
Arguments Throw {A} e.

Definition Handler (A : Type) : Type := State -> State * Completion A.

Definition ret {A : Type} (a : A) : Handler A := fun q => (q, Normal a).

Definition bind {A B : Type} (m : Handler A) (k : A -> Handler B) : Handler B :=
  fun q =>
    let '(q1, c) := m q in
    match c with
    | Normal a => k a q1
    | Throw e => (q1, Throw e)
    end.

Definition throw {A : Type} (e : Error) : Handler A := fun q => (q, Throw e).

Definition modify (f : State -> State) : Handler unit := fun q => (f q, Normal tt).

Definition current {A : Type} (proj : State -> A) : Handler A :=
  fun q => (q, Normal (proj q)).

Declare Scope handler_scope.
Delimit Scope handler_scope with handler.
Notation "x <- m ;; k" := (bind m (fun x => k))
  (at level 61, m at next level, right associativity) : handler_scope.
Notation "m ;; k" := (bind m (fun _ => k))
  (at level 61, right associativity) : handler_scope.
Local Open Scope handler_scope.

(** Reading a property of [arr[i]]: a [TypeError] when the index is out of
    range ([arr[i]] is [undefined]). *)
Definition index (arr : list Point) (i : nat) : Handler Point :=
  match nth_error arr i with
  | Some p => ret p
  | None => throw TypeError
  end.

(** The state setters.  The [_with] forms take an updater function, which
    React applies to the queued value; an updater may itself call setters. *)
Definition setIsClosed (v : bool) : Handler unit := modify (with_isClosed v).
Definition setIsCalibrating (v : bool) : Handler unit := modify (with_isCalibrating v).
Definition setShowCalibrationModal (v : bool) : Handler unit :=
  modify (with_showCalibrationModal v).
Definition setPixelsPerFoot (v : R) : Handler unit := modify (with_pixelsPerFoot v).
Definition setPoints (v : list Point) : Handler unit := modify (with_points v).
Definition setCalibrationPoints (v : list Point) : Handler unit :=
  modify (with_calibrationPoints v).

Definition setPoints_with (updater : list Point -> Handler (list Point)) : Handler unit :=
  prev <- current points ;;
  next <- updater prev ;;
  setPoints next.

Definition setCalibrationPoints_with
    (updater : list Point -> Handler (list Point)) : Handler unit :=
  prev <- current calibrationPoints ;;
  next <- updater prev ;;
  setCalibrationPoints next.

(** Running a handler created by the render of state [s]: the state after the
    event, whether the handler returned or threw. *)
Definition dispatch (h : State -> Handler unit) (s : State) : State := fst (h s s).

Definition outcome (h : State -> Handler unit) (s : State) : Completion unit :=
  snd (h s s).

(** *** Handlers *)

(** [handleCapturePoint].  [containerRef] is [containerRef.current]: [None]
    when the container is not mounted, otherwise its bounding rectangle. *)
Definition handleCapturePoint (containerRef : option Rect) (render : State)
    : Handler unit :=
  match containerRef with
  | None => ret tt
  | Some rect =>
    let target := mkPoint (width rect / 2) (height rect / 2) in
    if isCalibrating render then
      setCalibrationPoints_with (fun prev =>
        let newPts := prev ++ [target] in
        (if (length newPts =? 2)%nat then setShowCalibrationModal true else ret tt) ;;
        ret newPts)
    else if isClosed render then ret tt
    else
      setPoints_with (fun prev =>
        if (3 <=? length prev)%nat then
          firstPoint <- index prev 0 ;;
          let distToStart :=
            sqrt ((px target - px firstPoint) ^ 2 + (py target - py firstPoint) ^ 2) in
          if JS.ltb distToStart 30 then
            setIsClosed true ;; ret prev
          else ret (prev ++ [target])
        else ret (prev ++ [target])) ;;
      if (3 <=? length (points render))%nat then
        first <- index (points render) 0 ;;
        let dist := calculatePixelDistance target first in
        if JS.ltb dist 30 then setIsClosed true else ret tt
      else ret tt
  end.

(** [handleFinishCalibration] *)
Definition handleFinishCalibration (render : State) : Handler unit :=
  p1 <- index (calibrationPoints render) 0 ;;
  p2 <- index (calibrationPoints render) 1 ;;
  let distPx := calculatePixelDistance p1 p2 in
  let distFt := calibrationDistanceInput render in
  if match distFt with Some d => JS.gtb d 0 | None => false end && JS.gtb distPx 0 then
    setPixelsPerFoot (distPx / JS.orZero distFt) ;;
    setIsCalibrating false ;;
    setCalibrationPoints [] ;;
    setShowCalibrationModal false ;;
    setPoints [] ;;
    setIsClosed false
  else ret tt.

(** [handleUndo] *)
Definition handleUndo (render : State) : Handler unit :=
  if isClosed render then setIsClosed false
  else setPoints_with (fun prev => ret (JS.slice_0_m1 prev)).

(** The Scale button's [onClick]: [setIsCalibrating(!isCalibrating)]. *)
Definition toggleCalibration (render : State) : Handler unit :=
  setIsCalibrating (negb (isCalibrating render)).

(** *** Statistics *)

Record Stats : Type := mkStats { area : R; perimeter : R }.

(** [points[i]] inside the loops of [stats], where every index is in range. *)
Definition at_index (arr : list Point) (i : nat) : Point :=
  nth i arr (mkPoint 0 0).

(** The pair of vertices that iteration [i] of either loop of [stats] reads. *)
Definition edgeAt (l : list Point) (i : nat) : Point * Point :=
  (at_index l i, at_index l ((i + 1) mod length l)).

(** [stats], the body of the [useMemo]. *)
Definition stats (s : State) : Stats :=
  let points := points s in
  let isClosed := isClosed s in
  let pixelsPerFoot := pixelsPerFoot s in
  let center := viewportCenter (viewport s) in
  if (length points <? 2)%nat then mkStats 0 0 else
  let loopLimit := if isClosed then length points else (length points - 1)%nat in
  let perimeterPx :=
    JS.for_loop loopLimit (fun i acc =>
      acc + calculatePixelDistance (at_index points i)
              (at_index points ((i + 1) mod length points))) 0 in
  let perimeterPx :=
    if negb isClosed && (0 <? length points)%nat then
      perimeterPx + calculatePixelDistance (at_index points (length points - 1)) center
    else perimeterPx in
  let polygonPoints := if isClosed then points else points ++ [center] in
  let areaPx :=
    if (3 <=? length polygonPoints)%nat then
      let areaPx :=
        JS.for_loop (length polygonPoints) (fun i acc =>
          let j := ((i + 1) mod length polygonPoints)%nat in
          acc + px (at_index polygonPoints i) * py (at_index polygonPoints j)
              - px (at_index polygonPoints j) * py (at_index polygonPoints i)) 0 in
      Rabs areaPx / 2
    else 0 in
  let areaFt := areaPx / (pixelsPerFoot * pixelsPerFoot) in
  let perimeterFt := perimeterPx / pixelsPerFoot in
  mkStats areaFt perimeterFt.

(** [calculateFeet] *)
Definition calculateFeet (s : State) (pixelDist : R) : R :=
  pixelDist / pixelsPerFoot s.

(** [currentSegmentLength], the label of the live line. *)
Definition currentSegmentLength (s : State) : R :=
  if (length (points s) =? 0)%nat || isClosed s then 0
  else
    let lastPoint := at_index (points s) (length (points s) - 1) in
    let center := viewportCenter (viewport s) in
    calculateFeet s (calculatePixelDistance lastPoint center).

(** [parseFloat(v.toFixed(2))]: the nearest multiple of 1/100, ties away
    from zero. *)
Definition toFixed2 (v : R) : R :=
  if Rlt_dec v 0 then - IZR (Int_part (- v * 100 + / 2)) / 100
  else IZR (Int_part (v * 100 + / 2)) / 100.

(** The Done button, rendered only when [isClosed]: the pair handed to
    [onComplete]. *)
Definition completeMeasurement (s : State) : option (R * R) :=
  if isClosed s then
    Some (toFixed2 (area (stats s)), toFixed2 (perimeter (stats s)))
  else None.

(** The reticle position computed by [handleCapturePoint]. *)
Definition target_of (rect : Rect) : Point :=
  mkPoint (width rect / 2) (height rect / 2).

(** The auto-close condition on the vertex sequence of [s]. *)
Definition closesOn (s : State) (target : Point) : Prop :=
  (3 <= length (points s))%nat /\
  exists v0, nth_error (points s) 0 = Some v0 /\
             calculatePixelDistance target v0 < 30.

(** Measuring-Open: not calibrating, polygon not closed. *)
Definition measuringOpen (s : State) : Prop :=
  isCalibrating s = false /\ isClosed s = false.

End ARMeasurement.

(** ** The auto-scan stability detector (the Auto-Scan effect) *)

Module AutoScan.

Local Open Scope Z_scope.

(** [event.acceleration]: each component is a number or [null]. *)
Record Acceleration : Type := mkAcceleration {
  acc_x : option R;
  acc_y : option R;
  acc_z : option R
}.

(** What the effect's callbacks share while the effect is active (auto-scan
    on, not calibrating, polygon open): the [scanProgress] cell, the two refs,
    the due times of the pending [setTimeout] callbacks, and a log of the
    instants at which [handleCapturePoint] was invoked by the progress loop. *)
Record Detector : Type := mkDetector {
  scanProgress : Z;
  lastMotionRef : Z;
  scanCooldownRef : bool;
  timeouts : list Z;
  captures : list Z
}.

(** State at mount, at instant [now]. *)
Definition initial (now : Z) : Detector := mkDetector 0 now false [] [].

(** The computed [magnitude] of [handleMotion]. *)
Definition magnitude (acc : Acceleration) : R :=
  sqrt ((JS.orZero (acc_x acc)) ^ 2 + (JS.orZero (acc_y acc)) ^ 2
        + (JS.orZero (acc_z acc)) ^ 2)%R.

(** [handleMotion], run at instant [now]. *)
Definition handleMotion (now : Z) (acceleration : option Acceleration)
    (d : Detector) : Detector :=
  match acceleration with
  | None => d
  | Some acc =>
    if JS.gtb (magnitude acc) (8 / 10)%R then
      mkDetector 0 now (scanCooldownRef d) (timeouts d) (captures d)
    else d
  end.

(** [handleMouseMove], run at instant [now]. *)
Definition handleMouseMove (now : Z) (d : Detector) : Detector :=
  mkDetector 0 now (scanCooldownRef d) (timeouts d) (captures d).

(** The [setInterval] callback (the progress loop), run at instant [now]. *)
Definition progressInterval (now : Z) (d : Detector) : Detector :=
  if scanCooldownRef d then d
  else
    let timeSinceMotion := now - lastMotionRef d in
    if timeSinceMotion >? 400 then
      let prev := scanProgress d in
      let next := prev + 8 in
      if next >=? 100 then
        (* handleCapturePoint(); cooldown; setTimeout(..., 1500); return 100 *)
        mkDetector 100 (lastMotionRef d) true
          (timeouts d ++ [now + 1500]) (now :: captures d)
      else mkDetector next (lastMotionRef d) false (timeouts d) (captures d)
    else d.

(** The [setTimeout] callback, run at instant [now]. *)
Definition cooldownReset (now : Z) (d : Detector) : Detector :=
  mkDetector 0 now false (timeouts d) (captures d).

(** The timer queue: before a callback runs at [now], every pending timeout
    that is due runs, at its own due time and in the order it was set. *)
Definition fireDue (now : Z) (d : Detector) : Detector :=
  let due := filter (fun t => t <=? now) (timeouts d) in
  let pending := filter (fun t => now <? t) (timeouts d) in
  fold_left (fun d' t => cooldownReset t d') due
    (mkDetector (scanProgress d) (lastMotionRef d) (scanCooldownRef d)
       pending (captures d)).

(** One tick of the interval at [now]. *)
Definition tick (now : Z) (d : Detector) : Detector :=
  progressInterval now (fireDue now d).

(** The detector after the interval has ticked at each of [times], in order,
    with no other event in between. *)
Definition runTicks (times : list Z) (d : Detector) : Detector :=
  fold_left (fun d' t => tick t d') times d.

(** The first [n] ticks of a 50 ms interval whose first tick is at [first]. *)
Definition tickTimes (first : Z) (n : nat) : list Z :=
  map (fun k => first + 50 * Z.of_nat k) (seq 0 n).

(** The instant of tick number [n] (counted from 1) of that interval. *)
Definition tickTime (first : Z) (n : nat) : Z := first + 50 * (Z.of_nat n - 1).

End AutoScan.

(** ** Room dimensions from a scan ([addRoom] in [EstimateBuilder]) *)

Module EstimateBuilder.

(** The two [let] variables of [addRoom]. *)
Record Dimensions : Type := mkDimensions {
  effectiveWidth : R;
  effectiveLength : R
}.

(** [addRoom], from [let effectiveWidth = 0] to the end of the dimension
    logic.  [customArea] and [customPerimeter] are the optional arguments;
    [width] and [length] are the [parseFloat] readings of the two manual-entry
    fields.  (The rest of [addRoom] rejects a zero dimension and stores both
    rounded to two decimals.) *)
Definition addRoom_dimensions (customArea customPerimeter : option R)
    (width length : option R) : Dimensions :=
  if JS.truthy customArea && JS.truthy customPerimeter then
    let area := JS.orZero customArea in
    let semiPerimeter := JS.orZero customPerimeter / 2 in
    let discriminant := semiPerimeter ^ 2 - 4 * area in
    if JS.geb discriminant 0 then
      let w1 := (semiPerimeter + sqrt discriminant) / 2 in
      let w2 := (semiPerimeter - sqrt discriminant) / 2 in
      mkDimensions (Rmin w1 w2) (Rmax w1 w2)
    else mkDimensions (sqrt area) (sqrt area)
  else if JS.truthy customArea then
    let area := JS.orZero customArea in
    mkDimensions (sqrt area) (sqrt area)
  else
    mkDimensions (JS.orZero width) (JS.orZero length).

End EstimateBuilder.

(** ** The specification's formulas, as written there *)

Module Spec.

(** Consecutive pairs of an open chain: [(v0,v1), (v1,v2), ...]. *)
Fixpoint chainEdges (l : list Point) : list (Point * Point) :=
  match l with
  | a :: ((b :: _) as tl) => (a, b) :: chainEdges tl
  | _ => []
  end.

(** Consecutive pairs of a cycle: the chain, and the last vertex back to the
    first. *)
Definition cycleEdges (l : list Point) : list (Point * Point) :=
  match l with
  | [] => []
  | a :: _ => chainEdges (l ++ [a])
  end.

Definition sumR (l : list R) : R := fold_right Rplus 0 l.

Definition edgeLength (e : Point * Point) : R :=
  calculatePixelDistance (fst e) (snd e).

(** The shoelace term [xi * yi+1 - xi+1 * yi]. *)
Definition cross (e : Point * Point) : R :=
  px (fst e) * py (snd e) - px (snd e) * py (fst e).

(** Effective polygon: the vertices when closed, the vertices with [center]
    appended when open. *)
Definition effectivePolygon (closed : bool) (vertices : list Point)
    (center : Point) : list Point :=
  if closed then vertices else vertices ++ [center].

(** Area: [|sum of the shoelace terms| / 2], zero below 3 points. *)
Definition areaOf (polygon : list Point) : R :=
  if (length polygon <? 3)%nat then 0
  else Rabs (sumR (map cross (cycleEdges polygon))) / 2.

(** Perimeter: cyclic sum when closed; when open the open chain plus, when a
    vertex exists, the live edge from the last vertex to [center]. *)
Definition perimeterOf (closed : bool) (vertices : list Point)
    (center : Point) : R :=
  if closed then sumR (map edgeLength (cycleEdges vertices))
  else
    sumR (map edgeLength (chainEdges vertices))
    + match vertices with
      | [] => 0
      | _ :: _ => calculatePixelDistance (last vertices (mkPoint 0 0)) center
      end.

End Spec.

(** ** Sample sessions used by the instances below *)

Module Samples.
Import ARMeasurement.

(** The open one-vertex session used in the statement about the perimeter: vertex (0,0), reticle at (3,4),
    default scale. *)
Definition oneVertexSession : State :=
  with_viewport (mkViewport 6 8) (with_points [mkPoint 0 0] initialState).

(** A closed triangle. *)
Definition closedTriangle : State :=
  with_isClosed true
    (with_points [mkPoint 0 0; mkPoint 100 0; mkPoint 0 100] initialState).

(** The state after a successful [handleFinishCalibration]. *)
Definition calibrated (scale : R) (s : State) : State :=
  mkState [] false false [] scale false (calibrationDistanceInput s)
    (isAutoScan s) (viewport s).

(** The session after: Scale, one capture at (50,50), Scale again (leaving
    calibration), Scale again (entering it anew). *)
Definition abandonedCalibration : State :=
  dispatch toggleCalibration
    (dispatch (handleCapturePoint (Some (mkRect 100 100)))
       (dispatch toggleCalibration initialState)).

End Samples.

(** ** The session as a transition system *)

Module Session.
Import ARMeasurement.

Definition with_calibrationDistanceInput (v : option R) (s : State) : State :=
  mkState (points s) (isClosed s) (isCalibrating s) (calibrationPoints s)
    (pixelsPerFoot s) (showCalibrationModal s) v (isAutoScan s) (viewport s).

Definition with_isAutoScan (v : bool) (s : State) : State :=
  mkState (points s) (isClosed s) (isCalibrating s) (calibrationPoints s)
    (pixelsPerFoot s) (showCalibrationModal s) (calibrationDistanceInput s)
    v (viewport s).

(** Everything that writes one of the state cells of [State]: the four
    handlers, the Auto-Detect toggle, [updateSize] (window resize; it does
    nothing while the container is not mounted) and the edits of the
    distance field of the calibration modal (typing and the -/+ buttons),
    given by the new [parseFloat] reading of the field. *)
Inductive Event : Type :=
| CapturePoint (containerRef : option Rect)
| FinishCalibration
| Undo
| ToggleCalibration
| ToggleAutoScan
| Resize (containerRef : option Rect)
| EditDistance (reading : option R).

Definition step (e : Event) (s : State) : State :=
  match e with
  | CapturePoint c => dispatch (handleCapturePoint c) s
  | FinishCalibration => dispatch handleFinishCalibration s
  | Undo => dispatch handleUndo s
  | ToggleCalibration => dispatch toggleCalibration s
  | ToggleAutoScan => with_isAutoScan (negb (isAutoScan s)) s
  | Resize None => s
  | Resize (Some rect) => with_viewport (mkViewport (width rect) (height rect)) s
  | EditDistance reading => with_calibrationDistanceInput reading s
  end.

(** The session after a sequence of events, applied in order.  No event is
    excluded by what the screen currently offers, so every session the
    component can be in is among these. *)
Definition run (events : list Event) (s : State) : State :=
  fold_left (fun s' e => step e s') events s.

(** What every handler maintains: a closed polygon has at least 3
    vertices, the scale is positive, and the distance modal is only open
    over at least 2 reference points. *)
Definition invariant (s : State) : Prop :=
  (isClosed s = true -> (3 <= length (points s))%nat) /\
  pixelsPerFoot s > 0 /\
  (showCalibrationModal s = true -> (2 <= length (calibrationPoints s))%nat).

(** Four captures: three corners, then the reticle back on the first. *)
Definition closingRun : list Event :=
  [CapturePoint (Some (mkRect 0 0)); CapturePoint (Some (mkRect 200 0));
   CapturePoint (Some (mkRect 0 200)); CapturePoint (Some (mkRect 0 0))].

(** Entering calibration and capturing two reference points. *)
Definition twoReferencePointsRun : list Event :=
  [ToggleCalibration; CapturePoint (Some (mkRect 0 0));
   CapturePoint (Some (mkRect 0 200))].

(** The corners of an axis-parallel rectangle with corner (x, y) and sides
    w and h, in order around it, and a closed session over them. *)
Definition rectangleVertices (x y w h : R) : list Point :=
  [mkPoint x y; mkPoint (x + w) y; mkPoint (x + w) (y + h); mkPoint x (y + h)].

Definition rectangleSession (x y w h scale : R) : State :=
  mkState (rectangleVertices x y w h)
    true false [] scale false (Some 3) true (mkViewport 0 0).

(** An edge read backwards. *)
Definition swap (e : Point * Point) : Point * Point := (snd e, fst e).

(** Every vertex moved by the same offset. *)
Definition translate (dx dy : R) (p : Point) : Point :=
  mkPoint (px p + dx) (py p + dy).

End Session.

(** ** The stability detector under arbitrary events *)

Module AutoScanEvents.
Import AutoScan.
Local Open Scope Z_scope.

(** What can happen to the detector: a [devicemotion] event, a [mousemove]
    event, a tick of the interval, and a run of the effect while auto-scan is
    off, the session is calibrating or the polygon is closed (it then only
    sets the progress to 0). *)
Inductive Event : Type :=
| DeviceMotion (acceleration : option Acceleration)
| MouseMove
| IntervalTick
| EffectSuspended.

(** One event at instant [now]: the timeouts that are due run first. *)
Definition step (now : Z) (e : Event) (d : Detector) : Detector :=
  let d := fireDue now d in
  match e with
  | DeviceMotion acceleration => handleMotion now acceleration d
  | MouseMove => handleMouseMove now d
  | IntervalTick => progressInterval now d
  | EffectSuspended =>
      mkDetector 0 (lastMotionRef d) (scanCooldownRef d) (timeouts d) (captures d)
  end.

Definition run (events : list (Z * Event)) (d : Detector) : Detector :=
  fold_left (fun d' te => step (fst te) (snd te) d') events d.

(** The instants of [events] never decrease, starting at or after [from]. *)
Fixpoint chronological (from : Z) (events : list (Z * Event)) : Prop :=
  match events with
  | [] => True
  | (t, _) :: rest => from <= t /\ chronological t rest
  end.

(** In a log kept newest first, each instant is more than [gap] after the
    one logged before it. *)
Fixpoint spaced (gap : Z) (instants : list Z) : Prop :=
  match instants with
  | later :: ((earlier :: _) as rest) => later - earlier > gap /\ spaced gap rest
  | _ => True
  end.

(** What the callbacks maintain, [clock] being the instant of the last
    event and [mounted] the instant of mounting. *)
Definition coherent (mounted clock : Z) (d : Detector) : Prop :=
  mounted <= lastMotionRef d <= clock /\
  spaced 1900 (captures d) /\
  Forall (fun c => mounted + 400 < c) (captures d) /\
  if scanCooldownRef d
  then exists h rest, captures d = h :: rest /\ timeouts d = [h + 1500] /\ h <= clock
  else timeouts d = [] /\
       forall h rest, captures d = h :: rest -> h + 1500 <= lastMotionRef d.

(** A short chronological run: a shake, then ticks. *)
Definition sampleRun : list (Z * Event) :=
  [(10, MouseMove); (50, IntervalTick); (450, IntervalTick); (500, IntervalTick)].

(** Ticks only, every 50 ms from 450 to 1050 and again from 3000 to 3600:
    the progress loop captures at 1050 and, after the cooldown, at 3600. *)
Definition twoCaptureRun : list (Z * Event) :=
  map (fun t => (t, IntervalTick)) (tickTimes 450 13 ++ tickTimes 3000 13).

End AutoScanEvents.

(** ** The estimate builder ([EstimateBuilder]) and the estimate list of [App] *)

Module Builder.
Import Stdlib.Strings.String.StringSyntax.
Local Open Scope string_scope.
Local Open Scope list_scope.

Abbreviation string := String.string.

(** *** JavaScript objects used as maps, and strings *)

(** An object with string keys, in insertion order.  [assign k v o] is
    [{ ...o, [k]: v }] (and [o[k] = v]): an existing key keeps its place. *)
Module JSObject.

Definition t (V : Type) : Type := list (string * V).

Fixpoint lookup {V : Type} (k : string) (o : t V) : option V :=
  match o with
  | [] => None
  | (k', v) :: rest => if String.eqb k' k then Some v else lookup k rest
  end.

Fixpoint assign {V : Type} (k : string) (v : V) (o : t V) : t V :=
  match o with
  | [] => [(k, v)]
  | (k', v') :: rest =>
      if String.eqb k' k then (k, v) :: rest else (k', v') :: assign k v rest
  end.

(** [delete o[k]] *)
Definition delete {V : Type} (k : string) (o : t V) : t V :=
  filter (fun kv => negb (String.eqb (fst kv) k)) o.

(** [o[k] || []] *)
Definition getOrEmpty {V : Type} (k : string) (o : t (list V)) : list V :=
  match lookup k o with
  | Some v => v
  | None => []
  end.

End JSObject.

(** A string in a condition: the empty string is falsy. *)
Definition nonEmpty (v : string) : bool := negb (String.eqb v "").

(** [a || b] on strings; [undefined] is [None]. *)
Definition orElse (a : option string) (b : string) : string :=
  match a with
  | Some v => if nonEmpty v then v else b
  | None => b
  end.

(** A natural number inside a template literal. *)
Definition show (n : nat) : string :=
  DecimalString.NilEmpty.string_of_uint (Nat.to_uint n).

(** [a === 0] *)
Definition isZero (a : R) : bool := if Req_dec_T a 0 then true else false.

(** *** The records of [types.ts] *)

Module Room.
Record t : Type := mk {
  id : string;
  name : string;
  width : R;
  length : R;
  wastePercentage : R
}.
End Room.

Inductive ProductUnit : Type := SQFT | LF | UNIT | HOUR.

Inductive Category : Type := Flooring | Baseboard | Labor | Underlayment | Other.

(** The string that a category is at run time. *)
Definition categoryName (c : Category) : string :=
  match c with
  | Flooring => "Flooring"
  | Baseboard => "Baseboard"
  | Labor => "Labor"
  | Underlayment => "Underlayment"
  | Other => "Other"
  end.

Module Product.
Record t : Type := mk {
  id : string;
  name : string;
  category : Category;
  unit : ProductUnit;
  unitPrice : R;
  description : string
}.
End Product.

Module RoomItem.
Record t : Type := mk {
  productId : string;
  quantity : R
}.
End RoomItem.

Module LineItem.
Record t : Type := mk {
  id : string;
  roomId : string;
  productId : string;
  quantity : R;
  unitPriceAtTime : R;
  subtotal : R
}.
End LineItem.

Inductive ProjectStatus : Type := NEW | APPROVED | SCHEDULED | PAID | CANCELLED.

Module Estimate.
Record t : Type := mk {
  id : string;
  clientId : string;
  status : ProjectStatus;
  rooms : list Room.t;
  items : list LineItem.t;
  totalAmount : R;
  createdAt : string
}.
End Estimate.

Module Client.
Record Address : Type := mkAddress {
  street : string;
  city : string;
  state : string;
  zipCode : string
}.
Record t : Type := mk {
  id : string;
  name : string;
  email : string;
  phone : string;
  address : Address;
  createdAt : string
}.
End Client.

(** *** The builder's state *)

(** The [useState] cells of [EstimateBuilder] that its handlers read or
    write; the two dimension fields are kept as their [parseFloat] readings.
    ([activeAddingRoomId] only opens the product picker.) *)
Module BuilderState.
Record t : Type := mk {
  selectedClientId : string;
  rooms : list Room.t;
  roomItems : JSObject.t (list RoomItem.t);
  roomName : string;
  width : option R;
  length : option R;
  waste : R;
  showAR : bool
}.
End BuilderState.

Definition initialBuilder : BuilderState.t :=
  BuilderState.mk "" [] [] "" None None 10 false.

Definition with_rooms (v : list Room.t) (st : BuilderState.t) : BuilderState.t :=
  BuilderState.mk (BuilderState.selectedClientId st) v (BuilderState.roomItems st)
    (BuilderState.roomName st) (BuilderState.width st) (BuilderState.length st)
    (BuilderState.waste st) (BuilderState.showAR st).

Definition with_roomItems (v : JSObject.t (list RoomItem.t)) (st : BuilderState.t)
    : BuilderState.t :=
  BuilderState.mk (BuilderState.selectedClientId st) (BuilderState.rooms st) v
    (BuilderState.roomName st) (BuilderState.width st) (BuilderState.length st)
    (BuilderState.waste st) (BuilderState.showAR st).

Definition with_showAR (v : bool) (st : BuilderState.t) : BuilderState.t :=
  BuilderState.mk (BuilderState.selectedClientId st) (BuilderState.rooms st)
    (BuilderState.roomItems st) (BuilderState.roomName st) (BuilderState.width st)
    (BuilderState.length st) (BuilderState.waste st) v.

(** *** [addRoom] and [handleARComplete] *)

(** [addRoom].  [newId] is the identifier drawn from [Math.random()].  The
    result is the state after the call and the text of the alert, if one was
    raised. *)
Definition addRoom (customArea customPerimeter : option R)
    (nameOverride : option string) (newId : string) (st : BuilderState.t)
    : BuilderState.t * option string :=
  let defaultName :=
    if JS.truthy customArea
    then String.append "AR Scan " (show (length (BuilderState.rooms st) + 1))
    else String.append "Zone " (show (length (BuilderState.rooms st) + 1)) in
  let finalRoomName :=
    orElse nameOverride (orElse (Some (BuilderState.roomName st)) defaultName) in
  let dims :=
    EstimateBuilder.addRoom_dimensions customArea customPerimeter
      (BuilderState.width st) (BuilderState.length st) in
  let effectiveWidth := EstimateBuilder.effectiveWidth dims in
  let effectiveLength := EstimateBuilder.effectiveLength dims in
  if isZero effectiveWidth || isZero effectiveLength then
    (st, Some "Please enter valid dimensions.")
  else
    let newRoom :=
      Room.mk newId finalRoomName
        (ARMeasurement.toFixed2 effectiveWidth)
        (ARMeasurement.toFixed2 effectiveLength)
        (BuilderState.waste st) in
    (BuilderState.mk (BuilderState.selectedClientId st)
       (BuilderState.rooms st ++ [newRoom]) (BuilderState.roomItems st)
       "" None None (BuilderState.waste st) (BuilderState.showAR st),
     None).

(** [handleARComplete], the [onComplete] of the measurement session. *)
Definition handleARComplete (area perimeter : R) (newId : string)
    (st : BuilderState.t) : BuilderState.t * option string :=
  let '(st', alert) := addRoom (Some area) (Some perimeter) None newId st in
  (with_showAR false st', alert).

(** *** Rooms and their selected products *)

(** [removeRoom] *)
Definition removeRoom (id : string) (st : BuilderState.t) : BuilderState.t :=
  with_roomItems (JSObject.delete id (BuilderState.roomItems st))
    (with_rooms
       (filter (fun r => negb (String.eqb (Room.id r) id)) (BuilderState.rooms st))
       st).

Section Constants.

(** [calculateArea] and [calculatePerimeter] are imported from
    [constants], which is not part of the sources at hand. *)
Variables calculateArea calculatePerimeter : R -> R -> R.

(** [getCalculatedQuantity] *)
Definition getCalculatedQuantity (room : Room.t) (product : Product.t) : R :=
  let baseArea := calculateArea (Room.width room) (Room.length room) in
  let basePerimeter := calculatePerimeter (Room.width room) (Room.length room) in
  match Product.category product with
  | Flooring | Labor | Underlayment =>
      baseArea * (1 + Room.wastePercentage room / 100)
  | Baseboard => basePerimeter * (1 + 5 / 100)
  | Other => 1
  end.

(** [toggleProductInRoom] *)
Definition toggleProductInRoom (products : list Product.t)
    (roomId productId : string) (st : BuilderState.t) : BuilderState.t :=
  let current := JSObject.getOrEmpty roomId (BuilderState.roomItems st) in
  let room := find (fun r => String.eqb (Room.id r) roomId) (BuilderState.rooms st) in
  let product := find (fun p => String.eqb (Product.id p) productId) products in
  match room, product with
  | Some room, Some product =>
      if existsb (fun item => String.eqb (RoomItem.productId item) productId) current
      then
        with_roomItems
          (JSObject.assign roomId
             (filter (fun item => negb (String.eqb (RoomItem.productId item) productId))
                current)
             (BuilderState.roomItems st)) st
      else
        let initialQty := getCalculatedQuantity room product in
        with_roomItems
          (JSObject.assign roomId (current ++ [RoomItem.mk productId initialQty])
             (BuilderState.roomItems st)) st
  | _, _ => st
  end.

End Constants.

(** [updateItemQuantity] *)
Definition updateItemQuantity (roomId productId : string) (newQty : R)
    (st : BuilderState.t) : BuilderState.t :=
  let current := JSObject.getOrEmpty roomId (BuilderState.roomItems st) in
  with_roomItems
    (JSObject.assign roomId
       (map (fun item =>
               if String.eqb (RoomItem.productId item) productId
               then RoomItem.mk (RoomItem.productId item) newQty
               else item) current)
       (BuilderState.roomItems st)) st.

(** [lineItems], the body of the [useMemo].  [idSupply n] is the identifier
    that [Math.random()] gives to the item pushed when [n] items are already
    in the array. *)
Definition lineItems (idSupply : nat -> string) (products : list Product.t)
    (st : BuilderState.t) : list LineItem.t :=
  fold_left (fun items room =>
    let selectedRoomItems :=
      JSObject.getOrEmpty (Room.id room) (BuilderState.roomItems st) in
    fold_left (fun items ri =>
      match find (fun p => String.eqb (Product.id p) (RoomItem.productId ri)) products with
      | None => items
      | Some product =>
          items ++
          [LineItem.mk (idSupply (length items)) (Room.id room)
             (RoomItem.productId ri) (RoomItem.quantity ri)
             (Product.unitPrice product)
             (RoomItem.quantity ri * Product.unitPrice product)]
      end) selectedRoomItems items) (BuilderState.rooms st) [].

(** [total]: [lineItems.reduce((acc, curr) => acc + curr.subtotal, 0)] *)
Definition total (items : list LineItem.t) : R :=
  fold_left (fun acc curr => acc + LineItem.subtotal curr) items 0.

(** What a selected item adds to the total: its quantity at the catalogue
    price, or nothing when its product is not in the catalogue. *)
Definition itemAmount (products : list Product.t) (ri : RoomItem.t) : R :=
  match find (fun p => String.eqb (Product.id p) (RoomItem.productId ri)) products with
  | Some product => RoomItem.quantity ri * Product.unitPrice product
  | None => 0
  end.

(** The sum, over the rooms and over the items selected in each, of
    [itemAmount]. *)
Definition expectedTotal (products : list Product.t) (st : BuilderState.t) : R :=
  Spec.sumR
    (flat_map (fun room =>
       map (itemAmount products)
         (JSObject.getOrEmpty (Room.id room) (BuilderState.roomItems st)))
       (BuilderState.rooms st)).

(** A line item that is backed by the state: its room is one of the rooms,
    its product is the catalogue's entry for its product identifier, at whose
    price it is billed, and its quantity is that of an item selected in that
    room. *)
Definition backed (products : list Product.t) (st : BuilderState.t)
    (li : LineItem.t) : Prop :=
  exists room product,
    In room (BuilderState.rooms st) /\
    LineItem.roomId li = Room.id room /\
    find (fun p => String.eqb (Product.id p) (LineItem.productId li)) products
      = Some product /\
    LineItem.unitPriceAtTime li = Product.unitPrice product /\
    LineItem.subtotal li = LineItem.quantity li * Product.unitPrice product /\
    In (RoomItem.mk (LineItem.productId li) (LineItem.quantity li))
       (JSObject.getOrEmpty (Room.id room) (BuilderState.roomItems st)).

(** [productsByCategory], the body of the [useMemo]. *)
Definition productsByCategory (products : list Product.t)
    : JSObject.t (list Product.t) :=
  fold_left (fun groups p =>
    let key := categoryName (Product.category p) in
    JSObject.assign key (JSObject.getOrEmpty key groups ++ [p]) groups) products [].

(** *** Loading an estimate for editing, and saving *)

(** The reconstruction of [roomItems] from the flat line items, in the
    effect that loads the estimate being edited. *)
Definition loadedRoomItems (items : list LineItem.t) : JSObject.t (list RoomItem.t) :=
  fold_left (fun loaded item =>
    let key := LineItem.roomId item in
    JSObject.assign key
      (JSObject.getOrEmpty key loaded
       ++ [RoomItem.mk (LineItem.productId item) (LineItem.quantity item)])
      loaded) items [].

(** The effect itself.  [editId] is [searchParams.get('editId')]. *)
Definition loadEstimate (editId : option string) (estimates : list Estimate.t)
    (st : BuilderState.t) : BuilderState.t :=
  match editId with
  | Some editId =>
      if nonEmpty editId && (0 <? length estimates)%nat then
        match find (fun e => String.eqb (Estimate.id e) editId) estimates with
        | Some estimateToEdit =>
            BuilderState.mk (Estimate.clientId estimateToEdit)
              (Estimate.rooms estimateToEdit)
              (loadedRoomItems (Estimate.items estimateToEdit))
              (BuilderState.roomName st) (BuilderState.width st)
              (BuilderState.length st) (BuilderState.waste st)
              (BuilderState.showAR st)
        | None => st
        end
      else st
  | None => st
  end.

(** What [handleSave] does besides reading: at most one alert, at most one
    call of [onSave] or [onUpdate], and the navigation to the list. *)
Inductive Callback : Type :=
| OnSave (estimate : Estimate.t)
| OnUpdate (estimate : Estimate.t).

Record SaveEffects : Type := mkSaveEffects {
  alert : option string;
  callback : option Callback;
  navigated : bool
}.

(** [handleSave].  [onUpdateGiven] tells whether the optional [onUpdate]
    prop was passed; [nowDigits] is [Date.now().toString().substr(-6)] and
    [nowISO] is [new Date().toISOString()]; [items] and [amount] are the
    memoised [lineItems] and [total]. *)
Definition handleSave (clients : list Client.t) (estimates : list Estimate.t)
    (editId : option string) (onUpdateGiven : bool) (nowDigits nowISO : string)
    (items : list LineItem.t) (amount : R) (st : BuilderState.t) : SaveEffects :=
  if negb (nonEmpty (BuilderState.selectedClientId st)) then
    mkSaveEffects (Some "Please select a Customer for this quote.") None false
  else if (length (BuilderState.rooms st) =? 0)%nat then
    mkSaveEffects (Some "Please add at least one Zone/Room to the estimate.") None false
  else
    match find (fun c => String.eqb (Client.id c) (BuilderState.selectedClientId st))
            clients with
    | None => mkSaveEffects None None false
    | Some client =>
        let isEditing :=
          match editId with Some e => nonEmpty e | None => false end in
        let editIdText := match editId with Some e => e | None => "" end in
        let estimate :=
          Estimate.mk
            (if isEditing then editIdText else String.append "EST-" nowDigits)
            (BuilderState.selectedClientId st)
            NEW
            (BuilderState.rooms st)
            items
            amount
            (if isEditing then
               orElse
                 (match find (fun e => String.eqb (Estimate.id e) editIdText) estimates with
                  | Some e => Some (Estimate.createdAt e)
                  | None => None
                  end) nowISO
             else nowISO) in
        if isEditing && onUpdateGiven
        then mkSaveEffects None (Some (OnUpdate estimate)) true
        else mkSaveEffects None (Some (OnSave estimate)) true
    end.

(** *** The estimate list of [App] *)

(** [addEstimate] *)
Definition addEstimate (estimate : Estimate.t) (estimates : list Estimate.t)
    : list Estimate.t :=
  estimates ++ [estimate].

(** [updateEstimate] *)
Definition updateEstimate (updatedEstimate : Estimate.t) (estimates : list Estimate.t)
    : list Estimate.t :=
  map (fun e =>
         if String.eqb (Estimate.id e) (Estimate.id updatedEstimate)
         then updatedEstimate else e) estimates.

(** The estimate list after [App] has received the callback of a save:
    [onSave] is [addEstimate] and [onUpdate] is [updateEstimate]. *)
Definition applyCallback (c : option Callback) (estimates : list Estimate.t)
    : list Estimate.t :=
  match c with
  | Some (OnSave e) => addEstimate e estimates
  | Some (OnUpdate e) => updateEstimate e estimates
  | None => estimates
  end.

(** Whether the product of a selected item is in the catalogue. *)
Definition inCatalogue (products : list Product.t) (ri : RoomItem.t) : bool :=
  match find (fun p => String.eqb (Product.id p) (RoomItem.productId ri)) products with
  | Some _ => true
  | None => false
  end.

(** The form can be saved: a customer is selected, there is a room, and the
    selected customer is in the list. *)
Definition savable (clients : list Client.t) (st : BuilderState.t) : Prop :=
  nonEmpty (BuilderState.selectedClientId st) = true /\
  BuilderState.rooms st <> [] /\
  exists client,
    find (fun c => String.eqb (Client.id c) (BuilderState.selectedClientId st)) clients
    = Some client.

(** *** Samples *)

Definition sampleRoom : Room.t := Room.mk "r1" "Kitchen" 10 12 10.

Definition sampleProduct : Product.t :=
  Product.mk "p1" "Oak Vinyl Plank" Flooring SQFT (9 / 2) "Waterproof luxury vinyl plank.".

(** A builder with one room and nothing selected. *)
Definition sampleBuilder : BuilderState.t :=
  BuilderState.mk "1" [sampleRoom] [] "" None None 10 false.

(** Two rooms; in the first, the sample product and a product that is not
    in the catalogue are selected, in the second the sample product. *)
Definition sampleSelection : BuilderState.t :=
  BuilderState.mk "1"
    [sampleRoom; Room.mk "r2" "Hallway" 4 20 10]
    [("r1", [RoomItem.mk "p1" 132; RoomItem.mk "p9" 3]);
     ("r2", [RoomItem.mk "p1" 88])]
    "" None None 10 false.

Definition sampleClient : Client.t :=
  Client.mk "1" "John Smith" "john.smith@example.com" "(555) 123-4567"
    (Client.mkAddress "123 Maple Ave" "Portland" "OR" "97201") "2024-01-01T00:00:00.000Z".

Definition sampleEstimate : Estimate.t :=
  Estimate.mk "EST-000001" "1" APPROVED [sampleRoom] [] 0 "2024-01-02T00:00:00.000Z".

End Builder.

(** ** The floor-plan preview ([renderMiniMap]) *)

Module MiniMap.
Import ARMeasurement.

(** [Math.min(...xs)] and [Math.max(...xs)] of a non-empty array [x :: xs]. *)
Definition mathMin (x : R) (xs : list R) : R := fold_left Rmin xs x.
Definition mathMax (x : R) (xs : list R) : R := fold_left Rmax xs x.

(** [a || 1] *)
Definition orOne (a : R) : R := if Req_dec_T a 0 then 1 else a.

(** The points that the preview draws.  [mappedCursor] is the cursor
    position relative to the container, when both are known. *)
Definition previewPoints (s : State) (mappedCursor : option Point) : list Point :=
  points s ++
  (if negb (isClosed s) && negb (isCalibrating s) && (0 <? length (points s))%nat
   then match mappedCursor with Some c => [c] | None => [] end
   else []).

(** [renderMiniMap], up to the mapped points [mapped] that the path and the
    circles are drawn from, in the 100 x 100 view box; [None] is the [null]
    returned when there is nothing to draw. *)
Definition renderMiniMap (s : State) (mappedCursor : option Point)
    : option (list Point) :=
  match previewPoints s mappedCursor with
  | [] => None
  | p0 :: rest =>
    let previewPoints := p0 :: rest in
    let minX := mathMin (px p0) (map px rest) in
    let maxX := mathMax (px p0) (map px rest) in
    let minY := mathMin (py p0) (map py rest) in
    let maxY := mathMax (py p0) (map py rest) in
    let width := orOne (maxX - minX) in
    let height := orOne (maxY - minY) in
    let maxDim := Rmax width height in
    let availableSize := 70 in
    let scale := availableSize / maxDim in
    let offsetX := (100 - width * scale) / 2 in
    let offsetY := (100 - height * scale) / 2 in
    let mapPoint := fun p : Point =>
      mkPoint ((px p - minX) * scale + offsetX) ((py p - minY) * scale + offsetY) in
    Some (map mapPoint previewPoints)
  end.

End MiniMap.

(** * Properties *)

(** ** Facts about the JavaScript helpers *)

Module JSFacts.
Import JS.

Lemma gtb_true a b : gtb a b = true <-> a > b.
Proof. unfold gtb; destruct (Rgt_dec a b); split; intros; try easy; contradiction. Qed.

Lemma gtb_false a b : gtb a b = false <-> a <= b.
Proof.
  unfold gtb; destruct (Rgt_dec a b); split; intros; try easy; lra.
Qed.

Lemma geb_true a b : geb a b = true <-> a >= b.
Proof. unfold geb; destruct (Rge_dec a b); split; intros; try easy; contradiction. Qed.

Lemma geb_false a b : geb a b = false <-> a < b.
Proof.
  unfold geb; destruct (Rge_dec a b); split; intros; try easy; lra.
Qed.

Lemma ltb_true a b : ltb a b = true <-> a < b.
Proof. unfold ltb; destruct (Rlt_dec a b); split; intros; try easy; contradiction. Qed.

Lemma ltb_false a b : ltb a b = false <-> a >= b.
Proof.
  unfold ltb; destruct (Rlt_dec a b); split; intros; try easy; lra.
Qed.

Lemma truthy_Some a : truthy (Some a) = true <-> a <> 0.
Proof.
  unfold truthy; destruct (Req_dec_T a 0); split; intros; try easy; contradiction.
Qed.

Lemma for_loop_S {A : Type} n (body : nat -> A -> A) init :
  for_loop (S n) body init = body n (for_loop n body init).
Proof.
  unfold for_loop. rewrite seq_S, fold_left_app. reflexivity.
Qed.

Lemma slice_0_m1_snoc {A : Type} (l : list A) (a : A) :
  slice_0_m1 (l ++ [a]) = l.
Proof.
  unfold slice_0_m1. rewrite length_app. simpl.
  replace (length l + 1 - 1)%nat with (length l + 0)%nat by lia.
  rewrite firstn_app_2. simpl. apply app_nil_r.
Qed.

End JSFacts.

(** ** Distances *)

Lemma distance_pow_form (a b : Point) :
  sqrt ((px a - px b) ^ 2 + (py a - py b) ^ 2) = calculatePixelDistance a b.
Proof. unfold calculatePixelDistance; simpl. f_equal. ring. Qed.

Lemma distance_self (a : Point) : calculatePixelDistance a a = 0.
Proof.
  unfold calculatePixelDistance; simpl.
  replace ((px a - px a) * (px a - px a) + (py a - py a) * (py a - py a)) with 0 by ring.
  apply sqrt_0.
Qed.

(** A 3-4-5 style evaluation: the distance is [d] when the squared offsets
    sum to [d * d]. *)
Lemma distance_of_square (a b : Point) (d : R) :
  0 <= d ->
  (px a - px b) * (px a - px b) + (py a - py b) * (py a - py b) = d * d ->
  calculatePixelDistance a b = d.
Proof.
  intros Hd H. unfold calculatePixelDistance; simpl. rewrite H.
  apply sqrt_square. exact Hd.
Qed.

(** ** The capture state machine *)

Module CaptureFacts.
Import ARMeasurement.
Local Open Scope handler_scope.

Lemma capture_open_result (s : State) (rect : Rect) :
  measuringOpen s ->
  handleCapturePoint (Some rect) s s =
    match points s with
    | v0 :: _ :: _ :: _ =>
        if JS.ltb (calculatePixelDistance (target_of rect) v0) 30
        then (with_isClosed true s, Normal tt)
        else (with_points (points s ++ [target_of rect]) s, Normal tt)
    | _ => (with_points (points s ++ [target_of rect]) s, Normal tt)
    end.
Proof.
  intros [Hcal Hcl].
  destruct s as [pts cl cal cps ppf modal inp auto vp]; simpl in *; subst.
  unfold handleCapturePoint; simpl.
  fold (target_of rect).
  destruct pts as [|v0 [|v1 [|v2 rest]]]; try reflexivity.
  unfold setPoints_with, bind, current, index, ret, setIsClosed, setPoints, modify; simpl.
  change (sqrt ((width rect / 2 - px v0) * ((width rect / 2 - px v0) * 1) +
                (height rect / 2 - py v0) * ((height rect / 2 - py v0) * 1)))
    with (sqrt ((px (target_of rect) - px v0) ^ 2 + (py (target_of rect) - py v0) ^ 2)).
  rewrite distance_pow_form.
  destruct (JS.ltb (calculatePixelDistance (target_of rect) v0) 30); reflexivity.
Qed.

(** C1. In Measuring-Open, capturing at the reticle closes the polygon exactly
    when there are at least 3 vertices and the reticle is less than 30 px from
    vertex 0; then [isClosed] becomes true and the vertex sequence is
    unchanged.  In every other case the reticle position is appended as the
    new last vertex and the state stays Measuring-Open.  Nothing else
    changes, and the handler returns normally. *)
Theorem capturePoint_closes_iff_near_start (s : State) (rect : Rect) :
  measuringOpen s ->
  let target := target_of rect in
  let s' := dispatch (handleCapturePoint (Some rect)) s in
  outcome (handleCapturePoint (Some rect)) s = Normal tt /\
  (isClosed s' = true <-> closesOn s target) /\
  (closesOn s target ->
     points s' = points s /\ length (points s') = length (points s) /\
     s' = with_isClosed true s) /\
  (~ closesOn s target ->
     points s' = points s ++ [target] /\ last (points s') target = target /\
     measuringOpen s' /\ s' = with_points (points s ++ [target]) s).
Proof.
  intros Hopen target s'.
  assert (Hopen' := Hopen). destruct Hopen' as [Hcal Hcl].
  unfold dispatch, outcome in *. subst s'.
  rewrite (capture_open_result s rect Hopen). fold target.
  unfold closesOn, measuringOpen.
  destruct s as [pts cl cal cps ppf modal inp auto vp]; simpl in *; subst.
  destruct pts as [|v0 [|v1 [|v2 rest]]].
  1-3: simpl; repeat split; try discriminate; try (intros; exfalso; lia);
       try (intros [Hlen _]; exfalso; lia).
  destruct (JS.ltb (calculatePixelDistance target v0) 30) eqn:Hlt.
  - apply JSFacts.ltb_true in Hlt. simpl.
    assert (Hyes : (3 <= S (S (S (length rest))))%nat /\
                   exists w, Some v0 = Some w /\ calculatePixelDistance target w < 30).
    { split; [lia|]. exists v0. split; [reflexivity|exact Hlt]. }
    repeat split; try tauto; try (intros; exfalso; tauto).
  - apply JSFacts.ltb_false in Hlt. simpl.
    assert (Hno : ~ ((3 <= S (S (S (length rest))))%nat /\
                   exists w, Some v0 = Some w /\ calculatePixelDistance target w < 30)).
    { intros [_ [w [Hw Hd]]]. injection Hw as <-. lra. }
    repeat split; try tauto; try discriminate; try (intros; exfalso; tauto).
    rewrite last_last.
    destruct (rest ++ [target]) eqn:E; [destruct rest; discriminate | reflexivity].
Qed.

End CaptureFacts.

(** ** The loops of [stats] against the specification's sums *)

Module GeometryFacts.
Import ARMeasurement.

Lemma sumR_app (l1 l2 : list R) :
  Spec.sumR (l1 ++ l2) = Spec.sumR l1 + Spec.sumR l2.
Proof.
  induction l1 as [|a l1 IH]; simpl.
  - ring.
  - rewrite IH. ring.
Qed.

(** An accumulating loop is the sum of what each iteration adds. *)
Lemma for_loop_sum (n : nat) (body : nat -> R -> R) (f : nat -> R) :
  (forall i acc, (i < n)%nat -> body i acc = acc + f i) ->
  JS.for_loop n body 0 = Spec.sumR (map f (seq 0 n)).
Proof.
  induction n as [|n IH]; intros Hbody.
  - reflexivity.
  - rewrite JSFacts.for_loop_S, seq_S, map_app, sumR_app. simpl.
    rewrite Hbody by lia. rewrite IH by (intros; apply Hbody; lia). ring.
Qed.

(** The open chain, by index. *)
Lemma chainEdges_by_index (l : list Point) :
  Spec.chainEdges l =
  map (fun i => (at_index l i, at_index l (S i))) (seq 0 (length l - 1)).
Proof.
  induction l as [|a [|b tl] IH]; try reflexivity.
  change (Spec.chainEdges (a :: b :: tl)) with ((a, b) :: Spec.chainEdges (b :: tl)).
  rewrite IH.
  replace (length (a :: b :: tl) - 1)%nat with (S (length (b :: tl) - 1))
    by (simpl; lia).
  cbn [seq map]. rewrite <- seq_shift, map_map. reflexivity.
Qed.

Lemma chainEdges_edgeAt (l : list Point) :
  Spec.chainEdges l = map (edgeAt l) (seq 0 (length l - 1)).
Proof.
  rewrite chainEdges_by_index. apply map_ext_in.
  intros i Hi. apply in_seq in Hi. unfold edgeAt.
  rewrite Nat.mod_small by lia. rewrite Nat.add_1_r. reflexivity.
Qed.

Lemma cycleEdges_edgeAt (l : list Point) :
  Spec.cycleEdges l = map (edgeAt l) (seq 0 (length l)).
Proof.
  destruct l as [|a tl]; [reflexivity|].
  unfold Spec.cycleEdges. rewrite chainEdges_by_index.
  rewrite length_app. simpl length.
  replace (S (length tl) + 1 - 1)%nat with (S (length tl)) by lia.
  apply map_ext_in. intros i Hi. apply in_seq in Hi. unfold edgeAt, at_index.
  rewrite app_nth1 by (simpl; lia).
  f_equal. simpl length.
  destruct (Nat.eq_dec (S i) (S (length tl))) as [E|E].
  - rewrite Nat.add_1_r, E, Nat.Div0.mod_same.
    rewrite app_nth2 by (simpl; lia).
    replace (S (length tl) - length (a :: tl))%nat with 0%nat by (simpl; lia).
    reflexivity.
  - rewrite Nat.mod_small by lia. rewrite Nat.add_1_r.
    apply app_nth1. simpl; lia.
Qed.

(** The perimeter loop of [stats], run over [limit] iterations. *)
Lemma perimeter_loop_sum (l : list Point) (limit : nat) :
  JS.for_loop limit (fun i acc =>
      acc + calculatePixelDistance (at_index l i)
              (at_index l ((i + 1) mod length l))) 0
  = Spec.sumR (map Spec.edgeLength (map (edgeAt l) (seq 0 limit))).
Proof.
  rewrite map_map. apply for_loop_sum. intros i acc _. reflexivity.
Qed.

(** The shoelace loop of [stats]. *)
Lemma shoelace_loop_sum (l : list Point) :
  JS.for_loop (length l) (fun i acc =>
      let j := ((i + 1) mod length l)%nat in
      acc + px (at_index l i) * py (at_index l j)
          - px (at_index l j) * py (at_index l i)) 0
  = Spec.sumR (map Spec.cross (Spec.cycleEdges l)).
Proof.
  rewrite cycleEdges_edgeAt, map_map. apply for_loop_sum.
  intros i acc _. unfold Spec.cross, edgeAt. simpl. ring.
Qed.

Lemma last_at_index (l : list Point) :
  at_index l (length l - 1) = last l (mkPoint 0 0).
Proof.
  unfold at_index. induction l as [|a [|b tl] IH]; try reflexivity.
  change (last (a :: b :: tl) (mkPoint 0 0)) with (last (b :: tl) (mkPoint 0 0)).
  rewrite <- IH. simpl. rewrite Nat.sub_0_r. reflexivity.
Qed.

(** C2. The area that [stats] returns is the pixel area of the effective
    polygon (the vertices when closed, the vertices followed by the reticle
    position when open) converted by the scale, where the pixel area is the
    absolute shoelace sum over the cycle divided by 2, and is zero when the
    effective polygon has fewer than 3 points. *)
Theorem stats_area_is_shoelace (s : State) :
  let polygon :=
    Spec.effectivePolygon (isClosed s) (points s) (viewportCenter (viewport s)) in
  area (stats s) = Spec.areaOf polygon / (pixelsPerFoot s * pixelsPerFoot s) /\
  ((3 <= length polygon)%nat ->
     Spec.areaOf polygon = Rabs (Spec.sumR (map Spec.cross (Spec.cycleEdges polygon))) / 2) /\
  ((length polygon < 3)%nat -> Spec.areaOf polygon = 0 /\ area (stats s) = 0).
Proof.
  intros polygon.
  assert (Hspec3 : (3 <= length polygon)%nat ->
     Spec.areaOf polygon = Rabs (Spec.sumR (map Spec.cross (Spec.cycleEdges polygon))) / 2).
  { intros H. unfold Spec.areaOf.
    destruct (Nat.ltb_spec (length polygon) 3); [lia | reflexivity]. }
  assert (Hspec0 : (length polygon < 3)%nat -> Spec.areaOf polygon = 0).
  { intros H. unfold Spec.areaOf.
    destruct (Nat.ltb_spec (length polygon) 3); [reflexivity | lia]. }
  assert (Hmain : area (stats s) =
                  Spec.areaOf polygon / (pixelsPerFoot s * pixelsPerFoot s)).
  { unfold stats. fold polygon.
    destruct (Nat.ltb_spec (length (points s)) 2) as [Hshort|Hlong].
    - rewrite Hspec0; [simpl; unfold Rdiv; ring|].
      unfold polygon, Spec.effectivePolygon.
      destruct (isClosed s); [lia|]. rewrite length_app. simpl. lia.
    - cbv zeta. cbn [area].
      change (if isClosed s then points s else points s ++ [viewportCenter (viewport s)])
        with polygon.
      rewrite shoelace_loop_sum.
      destruct (Nat.leb_spec 3 (length polygon)) as [H3|H3].
      + rewrite Hspec3 by exact H3. reflexivity.
      + rewrite Hspec0 by exact H3. reflexivity. }
  split; [exact Hmain|]. split; [exact Hspec3|].
  intros H. split; [apply Hspec0; exact H|].
  rewrite Hmain, Hspec0 by exact H. unfold Rdiv; ring.
Qed.

(** Except for an open sequence of exactly one vertex, the perimeter that
    [stats] returns is the specification's perimeter converted by the scale. *)
Lemma stats_perimeter_spec (s : State) :
  isClosed s = true \/ length (points s) <> 1%nat ->
  perimeter (stats s) =
  Spec.perimeterOf (isClosed s) (points s) (viewportCenter (viewport s))
  / pixelsPerFoot s.
Proof.
  intros Hcase. unfold stats.
  destruct (Nat.ltb_spec (length (points s)) 2) as [Hshort|Hlong].
  - simpl perimeter. unfold Spec.perimeterOf.
    destruct (points s) as [|a [|b tl]] eqn:Hpts; simpl in Hshort; try lia.
    + destruct (isClosed s); simpl; unfold Rdiv; ring.
    + destruct (isClosed s) eqn:Hcl.
      * simpl. unfold Spec.edgeLength. simpl. rewrite distance_self.
        unfold Rdiv; ring.
      * destruct Hcase as [H|H]; [discriminate | simpl in H; lia].
  - cbv zeta. cbn [perimeter]. rewrite perimeter_loop_sum.
    unfold Spec.perimeterOf. destruct (isClosed s) eqn:Hcl.
    + simpl. rewrite cycleEdges_edgeAt. reflexivity.
    + replace (0 <? length (points s))%nat with true
        by (symmetry; apply Nat.ltb_lt; lia).
      simpl andb. cbv iota. rewrite chainEdges_edgeAt, last_at_index.
      destruct (points s); [simpl in Hlong; lia | reflexivity].
Qed.

End GeometryFacts.

(** ** Perimeter, closed polygons, undo, calibration *)

Module SessionFacts.
Import ARMeasurement.
Import Samples.
Local Open Scope handler_scope.

Lemma oneVertex_live_edge :
  calculatePixelDistance (mkPoint 0 0) (viewportCenter (mkViewport 6 8)) = 5.
Proof.
  unfold viewportCenter; simpl.
  apply distance_of_square; simpl; lra.
Qed.

(** C3, as stated, fails: for the open sequence of the single vertex (0,0)
    with the reticle at (3,4), [stats] returns perimeter 0, while the live
    edge from that vertex to the reticle is 5 px, that is 1/7 ft at the
    default scale (which is what [currentSegmentLength] shows). *)
Lemma stats_perimeter_single_vertex_counterexample :
  perimeter (stats oneVertexSession) = 0 /\
  Spec.perimeterOf (isClosed oneVertexSession) (points oneVertexSession)
    (viewportCenter (viewport oneVertexSession))
    / pixelsPerFoot oneVertexSession = 1 / 7 /\
  currentSegmentLength oneVertexSession = 1 / 7 /\
  perimeter (stats oneVertexSession) <>
  Spec.perimeterOf (isClosed oneVertexSession) (points oneVertexSession)
    (viewportCenter (viewport oneVertexSession))
    / pixelsPerFoot oneVertexSession.
Proof.
  assert (Hspec : Spec.perimeterOf (isClosed oneVertexSession) (points oneVertexSession)
    (viewportCenter (viewport oneVertexSession))
    / pixelsPerFoot oneVertexSession = 1 / 7).
  { unfold Spec.perimeterOf; simpl.
    change (mkPoint (6 / 2) (8 / 2)) with (viewportCenter (mkViewport 6 8)).
    rewrite oneVertex_live_edge. lra. }
  assert (Hcode : perimeter (stats oneVertexSession) = 0) by reflexivity.
  split; [exact Hcode|]. split; [exact Hspec|]. split.
  - unfold currentSegmentLength, calculateFeet; simpl.
    change (mkPoint (6 / 2) (8 / 2)) with (viewportCenter (mkViewport 6 8)).
    unfold at_index; simpl. rewrite oneVertex_live_edge. lra.
  - rewrite Hcode, Hspec. lra.
Qed.

(** C3, amended. The perimeter that [stats] returns is, converted by the
    scale: the cyclic sum of consecutive edge lengths when closed; when open
    with at least two vertices, the open-chain sum plus the live edge from
    the last vertex to the reticle; and zero when open with fewer than two
    vertices. *)
Theorem stats_perimeter_cases (s : State) :
  let center := viewportCenter (viewport s) in
  (isClosed s = true ->
     perimeter (stats s) =
     Spec.sumR (map Spec.edgeLength (Spec.cycleEdges (points s))) / pixelsPerFoot s) /\
  (isClosed s = false -> (2 <= length (points s))%nat ->
     perimeter (stats s) =
     (Spec.sumR (map Spec.edgeLength (Spec.chainEdges (points s)))
      + calculatePixelDistance (last (points s) (mkPoint 0 0)) center)
     / pixelsPerFoot s) /\
  (isClosed s = false -> (length (points s) < 2)%nat -> perimeter (stats s) = 0).
Proof.
  intros center. repeat split.
  - intros Hcl. rewrite GeometryFacts.stats_perimeter_spec by (left; exact Hcl).
    unfold Spec.perimeterOf. rewrite Hcl. reflexivity.
  - intros Hcl Hlen. rewrite GeometryFacts.stats_perimeter_spec by (right; lia).
    unfold Spec.perimeterOf. rewrite Hcl.
    destruct (points s); [simpl in Hlen; lia | reflexivity].
  - intros _ Hlen. unfold stats.
    destruct (Nat.ltb_spec (length (points s)) 2); [reflexivity | lia].
Qed.

(** For a closed polygon [stats] does not read the viewport. *)
Lemma stats_closed_viewport (s : State) (v : Viewport) :
  isClosed s = true -> stats (with_viewport v s) = stats s.
Proof.
  intros Hcl. destruct s as [pts cl cal cps ppf modal inp auto vp].
  simpl in Hcl. subst cl. reflexivity.
Qed.

Lemma stats_closed_only_points_and_scale (s1 s2 : State) :
  isClosed s1 = true -> isClosed s2 = true ->
  points s1 = points s2 -> pixelsPerFoot s1 = pixelsPerFoot s2 ->
  stats s1 = stats s2.
Proof.
  intros Hc1 Hc2 Hp Hs.
  destruct s1 as [pts1 cl1 cal1 cps1 ppf1 modal1 inp1 auto1 vp1].
  destruct s2 as [pts2 cl2 cal2 cps2 ppf2 modal2 inp2 auto2 vp2].
  simpl in *. subst. reflexivity.
Qed.

(** C10. Once the polygon is closed, the pair that [stats] computes, and the
    rounded pair that the Done button hands to [onComplete], are the same for
    any two positions of the viewport centre; more generally, two closed
    sessions with the same vertex sequence and the same scale have the same
    [stats]. *)
Theorem closed_stats_independent_of_center (s : State) (v1 v2 : Viewport) :
  isClosed s = true ->
  stats (with_viewport v1 s) = stats (with_viewport v2 s) /\
  completeMeasurement (with_viewport v1 s) = completeMeasurement (with_viewport v2 s) /\
  (forall s2 : State,
     isClosed s2 = true -> points s2 = points s ->
     pixelsPerFoot s2 = pixelsPerFoot s ->
     stats s2 = stats s /\ completeMeasurement s2 = completeMeasurement s).
Proof.
  intros Hcl.
  assert (H : stats (with_viewport v1 s) = stats (with_viewport v2 s))
    by (rewrite !stats_closed_viewport by exact Hcl; reflexivity).
  split; [exact H|]. split.
  - unfold completeMeasurement. rewrite H. reflexivity.
  - intros s2 Hcl2 Hpts Hscale.
    assert (H2 : stats s2 = stats s)
      by (apply stats_closed_only_points_and_scale; assumption).
    split; [exact H2|].
    unfold completeMeasurement. rewrite H2, Hcl, Hcl2. reflexivity.
Qed.

Lemma closed_stats_independent_of_center_witness :
  isClosed closedTriangle = true /\
  stats (with_viewport (mkViewport 0 0) closedTriangle) =
  stats (with_viewport (mkViewport 640 480) closedTriangle).
Proof.
  split; [reflexivity|].
  exact (proj1 (closed_stats_independent_of_center closedTriangle
                  (mkViewport 0 0) (mkViewport 640 480) eq_refl)).
Defined.

(** C1, an instance: an open triangle and a reticle at (10,10). *)
Lemma capturePoint_closes_iff_near_start_witness :
  measuringOpen (with_isClosed false closedTriangle) /\
  (isClosed (dispatch (handleCapturePoint (Some (mkRect 20 20)))
               (with_isClosed false closedTriangle)) = true <->
   closesOn (with_isClosed false closedTriangle) (target_of (mkRect 20 20))).
Proof.
  assert (H : measuringOpen (with_isClosed false closedTriangle))
    by (split; reflexivity).
  split; [exact H|].
  exact (proj1 (proj2 (CaptureFacts.capturePoint_closes_iff_near_start
                         (with_isClosed false closedTriangle) (mkRect 20 20) H))).
Defined.

Lemma with_isClosed_roundtrip (s : State) :
  isClosed s = false -> with_isClosed false (with_isClosed true s) = s.
Proof.
  intros H. destruct s as [pts cl cal cps ppf modal inp auto vp].
  simpl in H. subst cl. reflexivity.
Qed.

Lemma undo_closed (s : State) :
  isClosed s = true -> dispatch handleUndo s = with_isClosed false s.
Proof. intros H. unfold dispatch, handleUndo. rewrite H. reflexivity. Qed.

Lemma undo_open (s : State) :
  isClosed s = false ->
  dispatch handleUndo s = with_points (JS.slice_0_m1 (points s)) s.
Proof. intros H. unfold dispatch, handleUndo. rewrite H. reflexivity. Qed.

Lemma capture_closes (s : State) (rect : Rect) :
  measuringOpen s -> closesOn s (target_of rect) ->
  dispatch (handleCapturePoint (Some rect)) s = with_isClosed true s.
Proof.
  intros Hopen (Hlen & v0 & Hv & Hd). unfold dispatch.
  rewrite (CaptureFacts.capture_open_result s rect Hopen).
  destruct (points s) as [|a [|b [|c rest]]]; simpl in Hlen; try lia.
  simpl in Hv. injection Hv as ->.
  replace (JS.ltb (calculatePixelDistance (target_of rect) v0) 30) with true
    by (symmetry; apply JSFacts.ltb_true; exact Hd).
  reflexivity.
Qed.

(** C9. Undo on a closed polygon reopens it with every vertex in place; undo
    on an open non-empty sequence removes exactly the last vertex; undo on an
    open empty sequence changes nothing.  Hence closing, undoing and closing
    again (the reticle again within 30 px of vertex 0, wherever the viewport
    centre now is) gives the same area and perimeter as the first close. *)
Theorem undo_cases_and_reclose (s : State) :
  let s' := dispatch handleUndo s in
  (isClosed s = true ->
     isClosed s' = false /\ points s' = points s /\ s' = with_isClosed false s) /\
  (isClosed s = false ->
     forall l v, points s = l ++ [v] ->
       points s' = l /\ isClosed s' = false /\ s' = with_points l s) /\
  (isClosed s = false -> points s = [] -> s' = s) /\
  (forall (rect1 rect2 : Rect) (v : Viewport),
     measuringOpen s ->
     closesOn s (target_of rect1) -> closesOn s (target_of rect2) ->
     let s1 := dispatch (handleCapturePoint (Some rect1)) s in
     let s2 := dispatch handleUndo s1 in
     let s3 := dispatch (handleCapturePoint (Some rect2)) (with_viewport v s2) in
     isClosed s1 = true /\ s2 = s /\ isClosed s3 = true /\
     points s3 = points s1 /\
     area (stats s3) = area (stats s1) /\
     perimeter (stats s3) = perimeter (stats s1)).
Proof.
  intros s'. subst s'.
  split; [|split; [|split]].
  - intros Hcl. rewrite undo_closed by exact Hcl.
    repeat split; reflexivity.
  - intros Hcl l v Hpts. rewrite undo_open by exact Hcl.
    rewrite Hpts, JSFacts.slice_0_m1_snoc. repeat split. exact Hcl.
  - intros Hcl Hnil. rewrite undo_open by exact Hcl. rewrite Hnil.
    destruct s as [pts cl cal cps ppf modal inp auto vp]. simpl in *.
    subst. reflexivity.
  - intros rect1 rect2 v Hopen Hnear1 Hnear2 s1 s2 s3.
    assert (E1 : s1 = with_isClosed true s)
      by (apply capture_closes; assumption).
    assert (E2 : s2 = s).
    { unfold s2. rewrite E1, undo_closed by reflexivity.
      apply with_isClosed_roundtrip. apply Hopen. }
    assert (E3 : s3 = with_viewport v s1).
    { unfold s3. rewrite E2, E1.
      apply (capture_closes (with_viewport v s) rect2); assumption. }
    assert (Hstats : stats s3 = stats s1).
    { rewrite E3. apply stats_closed_viewport. rewrite E1. reflexivity. }
    rewrite Hstats, E3, E1. repeat split. exact E2.
Qed.

End SessionFacts.

(** ** Calibration *)

Module CalibrationFacts.
Import ARMeasurement.
Import Samples.
Local Open Scope handler_scope.

Lemma finish_run (s : State) (p1 p2 : Point) :
  nth_error (calibrationPoints s) 0 = Some p1 ->
  nth_error (calibrationPoints s) 1 = Some p2 ->
  handleFinishCalibration s s =
    if match calibrationDistanceInput s with
       | Some d => JS.gtb d 0
       | None => false
       end && JS.gtb (calculatePixelDistance p1 p2) 0
    then (calibrated (calculatePixelDistance p1 p2
                      / JS.orZero (calibrationDistanceInput s)) s, Normal tt)
    else (s, Normal tt).
Proof.
  intros H1 H2. unfold handleFinishCalibration, index, bind.
  rewrite H1, H2. unfold ret.
  destruct (match calibrationDistanceInput s with
            | Some d => JS.gtb d 0
            | None => false
            end && JS.gtb (calculatePixelDistance p1 p2) 0); reflexivity.
Qed.

Lemma finish_too_few (s : State) :
  (length (calibrationPoints s) < 2)%nat ->
  handleFinishCalibration s s = (s, Throw TypeError).
Proof.
  intros Hlen. unfold handleFinishCalibration, index, bind.
  destruct (calibrationPoints s) as [|a [|b tl]]; simpl in *; try reflexivity; lia.
Qed.

(** C4. [handleFinishCalibration] leaves the whole state unchanged (so
    calibration stays open) when the distance read from the input is not
    positive, when fewer than two reference points exist (the handler then
    stops on a [TypeError] before any update), or when the pixel distance
    between the first two reference points is not positive.  Otherwise it
    sets the scale to pixel distance / real distance, leaves calibration
    mode, empties the reference points and the polygon, and opens it.  With
    reference points 100 px apart and a real distance of 10 the scale is 10. *)
Theorem finishCalibration_cases (s : State) :
  let s' := dispatch handleFinishCalibration s in
  ((length (calibrationPoints s) < 2)%nat ->
     s' = s /\ outcome handleFinishCalibration s = Throw TypeError) /\
  (forall d, calibrationDistanceInput s = Some d -> d <= 0 -> s' = s) /\
  (calibrationDistanceInput s = None -> s' = s) /\
  (forall p1 p2,
     nth_error (calibrationPoints s) 0 = Some p1 ->
     nth_error (calibrationPoints s) 1 = Some p2 ->
     calculatePixelDistance p1 p2 <= 0 -> s' = s) /\
  (forall p1 p2 d,
     nth_error (calibrationPoints s) 0 = Some p1 ->
     nth_error (calibrationPoints s) 1 = Some p2 ->
     calibrationDistanceInput s = Some d ->
     d > 0 -> calculatePixelDistance p1 p2 > 0 ->
     pixelsPerFoot s' = calculatePixelDistance p1 p2 / d /\
     isCalibrating s' = false /\ calibrationPoints s' = [] /\
     points s' = [] /\ isClosed s' = false /\ showCalibrationModal s' = false /\
     s' = calibrated (calculatePixelDistance p1 p2 / d) s /\
     (calculatePixelDistance p1 p2 = 100 -> d = 10 -> pixelsPerFoot s' = 10)).
Proof.
  intros s'. subst s'. unfold dispatch, outcome.
  assert (Hfew : (length (calibrationPoints s) < 2)%nat ->
                 handleFinishCalibration s s = (s, Throw TypeError))
    by apply finish_too_few.
  split; [intros Hlen; rewrite Hfew by exact Hlen; split; reflexivity|].
  assert (Hcases : (length (calibrationPoints s) < 2)%nat \/
                   exists p1 p2, nth_error (calibrationPoints s) 0 = Some p1 /\
                                 nth_error (calibrationPoints s) 1 = Some p2).
  { destruct (calibrationPoints s) as [|a [|b tl]]; simpl;
      [left; lia | left; lia | right; exists a, b; split; reflexivity]. }
  split; [|split; [|split]].
  - intros d Hd Hle.
    destruct Hcases as [Hlen|[p1 [p2 [H1 H2]]]]; [rewrite Hfew by exact Hlen; reflexivity|].
    rewrite (finish_run s p1 p2 H1 H2), Hd.
    replace (JS.gtb d 0) with false by (symmetry; apply JSFacts.gtb_false; exact Hle).
    reflexivity.
  - intros Hd.
    destruct Hcases as [Hlen|[p1 [p2 [H1 H2]]]]; [rewrite Hfew by exact Hlen; reflexivity|].
    rewrite (finish_run s p1 p2 H1 H2), Hd. reflexivity.
  - intros p1 p2 H1 H2 Hle.
    rewrite (finish_run s p1 p2 H1 H2).
    replace (JS.gtb (calculatePixelDistance p1 p2) 0) with false
      by (symmetry; apply JSFacts.gtb_false; exact Hle).
    rewrite andb_false_r. reflexivity.
  - intros p1 p2 d H1 H2 Hd Hpos Hpx.
    rewrite (finish_run s p1 p2 H1 H2), Hd.
    replace (JS.gtb d 0) with true by (symmetry; apply JSFacts.gtb_true; exact Hpos).
    replace (JS.gtb (calculatePixelDistance p1 p2) 0) with true
      by (symmetry; apply JSFacts.gtb_true; exact Hpx).
    simpl. repeat split; try reflexivity.
    intros E1 E2. rewrite E1, E2. lra.
Qed.

(** C4, the example of the specification: reference points (0,0) and
    (60,80), 100 px apart, and a real distance of 10. *)
Example finishCalibration_100px_10ft :
  pixelsPerFoot
    (dispatch handleFinishCalibration
       (mkState [] false true [mkPoint 0 0; mkPoint 60 80] 35 true (Some 10)
          true (mkViewport 0 0))) = 10.
Proof.
  assert (Hd : calculatePixelDistance (mkPoint 0 0) (mkPoint 60 80) = 100)
    by (apply distance_of_square; simpl; lra).
  unfold dispatch.
  rewrite (finish_run _ (mkPoint 0 0) (mkPoint 60 80)) by reflexivity.
  simpl calibrationDistanceInput. rewrite Hd.
  replace (JS.gtb 10 0) with true by (symmetry; apply JSFacts.gtb_true; lra).
  replace (JS.gtb 100 0) with true by (symmetry; apply JSFacts.gtb_true; lra).
  simpl. lra.
Qed.

(** C7. The code misses what the claim says.  After an abandoned attempt
    (Scale, one capture at (50,50), Scale), entering calibration again with
    the Scale button switches calibration on but keeps the reference point
    captured before.  The next single capture, here at (50,150), is then
    taken for the second point: it opens the distance modal over the stale
    point and the new one, and applying the default distance of 3 sets the
    scale to 100 / 3 from the distance between them.  The other way out of
    calibration, a successful [handleFinishCalibration], does empty the
    reference points. *)
Theorem toggleCalibration_keeps_stale_point :
  let entered := dispatch toggleCalibration abandonedCalibration in
  let tapped := dispatch (handleCapturePoint (Some (mkRect 100 300))) entered in
  let finished := dispatch handleFinishCalibration tapped in
  (isCalibrating abandonedCalibration = false /\
   calibrationPoints abandonedCalibration = [mkPoint (100 / 2) (100 / 2)]) /\
  (isCalibrating entered = true /\
   calibrationPoints entered = [mkPoint (100 / 2) (100 / 2)] /\
   calibrationPoints entered <> []) /\
  (showCalibrationModal tapped = true /\
   calibrationPoints tapped =
     [mkPoint (100 / 2) (100 / 2); mkPoint (100 / 2) (300 / 2)]) /\
  (pixelsPerFoot finished = 100 / 3 /\
   isCalibrating finished = false /\
   calibrationPoints finished = []).
Proof.
  intros entered tapped finished.
  split; [split; reflexivity|].
  split; [repeat split; try reflexivity; discriminate|].
  split; [split; reflexivity|].
  assert (Hd : calculatePixelDistance (mkPoint (100 / 2) (100 / 2))
                 (mkPoint (100 / 2) (300 / 2)) = 100)
    by (apply distance_of_square; simpl; lra).
  assert (E : finished = calibrated (100 / 3) tapped).
  { unfold finished, dispatch.
    rewrite (finish_run tapped (mkPoint (100 / 2) (100 / 2))
               (mkPoint (100 / 2) (300 / 2))) by reflexivity.
    rewrite Hd.
    change (calibrationDistanceInput tapped) with (Some 3). cbv beta iota.
    replace (JS.gtb 3 0) with true by (symmetry; apply JSFacts.gtb_true; lra).
    replace (JS.gtb 100 0) with true by (symmetry; apply JSFacts.gtb_true; lra).
    reflexivity. }
  rewrite E. repeat split.
Qed.

End CalibrationFacts.

(** ** Room dimensions from area and perimeter *)

Module EstimateFacts.
Import EstimateBuilder.

Lemma truthy_pos (a : R) : a > 0 -> JS.truthy (Some a) = true.
Proof. intros H. apply JSFacts.truthy_Some. lra. Qed.

Lemma truthy_zero : JS.truthy (Some 0) = false.
Proof.
  destruct (JS.truthy (Some 0)) eqn:E; [|reflexivity].
  apply JSFacts.truthy_Some in E. lra.
Qed.

(** Both arguments given and non-zero: the quadratic branch or the square. *)
Lemma dimensions_both (area perimeter : R) (width length : option R) :
  area > 0 -> perimeter > 0 ->
  addRoom_dimensions (Some area) (Some perimeter) width length =
  let s := perimeter / 2 in
  let D := s ^ 2 - 4 * area in
  if JS.geb D 0
  then mkDimensions (Rmin ((s + sqrt D) / 2) ((s - sqrt D) / 2))
                    (Rmax ((s + sqrt D) / 2) ((s - sqrt D) / 2))
  else mkDimensions (sqrt area) (sqrt area).
Proof.
  intros Ha Hp. unfold addRoom_dimensions.
  rewrite (truthy_pos area Ha), (truthy_pos perimeter Hp). reflexivity.
Qed.

Lemma dimensions_quadratic (area perimeter : R) (width length : option R) :
  area > 0 -> perimeter > 0 -> (perimeter / 2) ^ 2 - 4 * area >= 0 ->
  addRoom_dimensions (Some area) (Some perimeter) width length =
  mkDimensions ((perimeter / 2 - sqrt ((perimeter / 2) ^ 2 - 4 * area)) / 2)
               ((perimeter / 2 + sqrt ((perimeter / 2) ^ 2 - 4 * area)) / 2).
Proof.
  intros Ha Hp HD. rewrite (dimensions_both area perimeter width length Ha Hp).
  cbv zeta.
  replace (JS.geb ((perimeter / 2) ^ 2 - 4 * area) 0) with true
    by (symmetry; apply JSFacts.geb_true; exact HD).
  pose proof (sqrt_pos ((perimeter / 2) ^ 2 - 4 * area)) as Hsq.
  rewrite Rmax_left by lra. rewrite Rmin_right by lra. reflexivity.
Qed.

Lemma dimensions_square (area perimeter : R) (width length : option R) :
  area > 0 -> perimeter >= 0 -> (perimeter / 2) ^ 2 - 4 * area < 0 ->
  addRoom_dimensions (Some area) (Some perimeter) width length =
  mkDimensions (sqrt area) (sqrt area).
Proof.
  intros Ha Hp HD.
  destruct (Req_dec_T perimeter 0) as [Hz|Hnz].
  - (* a zero perimeter is no perimeter: the area-only branch *)
    unfold addRoom_dimensions. rewrite Hz, truthy_zero, (truthy_pos area Ha).
    reflexivity.
  - assert (Hpos : perimeter > 0) by lra.
    rewrite (dimensions_both area perimeter width length Ha Hpos).
    cbv zeta.
    replace (JS.geb ((perimeter / 2) ^ 2 - 4 * area) 0) with false
      by (symmetry; apply JSFacts.geb_false; exact HD).
    reflexivity.
Qed.

(** C5, as stated, fails at area 0: with perimeter 40 and empty manual
    fields the discriminant is 400, so the stated length is 20, but the code
    takes a zero area as no area at all and returns the manual entries. *)
Lemma backsolve_zero_area_counterexample :
  0 <= 0 /\ 0 <= 40 /\
  (40 / 2) ^ 2 - 4 * 0 >= 0 /\
  (40 / 2 + sqrt ((40 / 2) ^ 2 - 4 * 0)) / 2 = 20 /\
  effectiveLength (addRoom_dimensions (Some 0) (Some 40) None None) = 0 /\
  effectiveLength (addRoom_dimensions (Some 0) (Some 40) None None)
    <> (40 / 2 + sqrt ((40 / 2) ^ 2 - 4 * 0)) / 2.
Proof.
  assert (Hs : sqrt ((40 / 2) ^ 2 - 4 * 0) = 20).
  { replace ((40 / 2) ^ 2 - 4 * 0) with (20 * 20) by lra.
    apply sqrt_square. lra. }
  assert (Hc : effectiveLength (addRoom_dimensions (Some 0) (Some 40) None None) = 0).
  { unfold addRoom_dimensions. rewrite truthy_zero. reflexivity. }
  split; [lra|]. split; [lra|]. split; [lra|].
  split; [rewrite Hs; lra|]. split; [exact Hc|].
  rewrite Hc, Hs. lra.
Qed.

(** C5, amended. For every strictly positive area and non-negative
    perimeter, with s = perimeter / 2 and D = s^2 - 4 area: if D >= 0 the
    length is (s + sqrt D) / 2 and the width (s - sqrt D) / 2, the length
    being the larger; if D < 0 both are sqrt area, returned as an ordinary
    result. *)
Theorem backsolve_positive_area (area perimeter : R) (width length : option R) :
  area > 0 -> perimeter >= 0 ->
  let s := perimeter / 2 in
  let D := s ^ 2 - 4 * area in
  let r := addRoom_dimensions (Some area) (Some perimeter) width length in
  (D >= 0 ->
     effectiveLength r = (s + sqrt D) / 2 /\
     effectiveWidth r = (s - sqrt D) / 2 /\
     effectiveWidth r <= effectiveLength r) /\
  (D < 0 ->
     effectiveLength r = sqrt area /\ effectiveWidth r = sqrt area).
Proof.
  intros Ha Hp s D r. split.
  - intros HD.
    assert (Hpos : perimeter > 0).
    { destruct (Rle_lt_dec perimeter 0) as [Hle|Hlt]; [|lra].
      exfalso. assert (perimeter = 0) by lra. unfold D, s in HD. subst perimeter. lra. }
    unfold r. rewrite (dimensions_quadratic area perimeter width length Ha Hpos HD).
    fold s. fold D. simpl. pose proof (sqrt_pos D).
    split; [reflexivity|]. split; [reflexivity|]. lra.
  - intros HD. unfold r.
    rewrite (dimensions_square area perimeter width length Ha Hp HD).
    split; reflexivity.
Qed.

Lemma backsolve_positive_area_witness :
  100 > 0 /\ 40 >= 0 /\
  (effectiveLength (addRoom_dimensions (Some 100) (Some 40) None None) = sqrt 100 \/
   effectiveLength (addRoom_dimensions (Some 100) (Some 40) None None)
     = (40 / 2 + sqrt ((40 / 2) ^ 2 - 4 * 100)) / 2).
Proof.
  assert (Ha : 100 > 0) by lra.
  assert (Hp : 40 >= 0) by lra.
  split; [exact Ha|]. split; [exact Hp|].
  destruct (backsolve_positive_area 100 40 None None Ha Hp) as [Hge Hlt].
  destruct (Rge_dec ((40 / 2) ^ 2 - 4 * 100) 0) as [H|H].
  - right. apply Hge. exact H.
  - left. apply Hlt. lra.
Defined.

Lemma sqrt_50_lt_8 : sqrt 50 < 8.
Proof.
  replace 8 with (sqrt (8 * 8)) by (apply sqrt_square; lra).
  apply sqrt_lt_1; lra.
Qed.

Lemma dimensions_50_60 (width length : option R) :
  addRoom_dimensions (Some 50) (Some 60) width length =
  mkDimensions ((30 - sqrt 700) / 2) ((30 + sqrt 700) / 2).
Proof.
  rewrite dimensions_quadratic by lra.
  replace ((60 / 2) ^ 2 - 4 * 50) with 700 by lra.
  replace (60 / 2) with 30 by lra. reflexivity.
Qed.

(** C6, as stated, fails on its second input: for area 50 and perimeter 60
    the discriminant is 700, not negative, and the length is
    (30 + sqrt 700) / 2, which is at least 15, not sqrt 50. *)
Lemma backsolve_50_60_counterexample :
  (60 / 2) ^ 2 - 4 * 50 = 700 /\
  ~ (60 / 2) ^ 2 - 4 * 50 < 0 /\
  effectiveLength (addRoom_dimensions (Some 50) (Some 60) None None)
    = (30 + sqrt 700) / 2 /\
  effectiveLength (addRoom_dimensions (Some 50) (Some 60) None None) <> sqrt 50.
Proof.
  assert (Hl : effectiveLength (addRoom_dimensions (Some 50) (Some 60) None None)
               = (30 + sqrt 700) / 2)
    by (rewrite dimensions_50_60; reflexivity).
  split; [lra|]. split; [lra|]. split; [exact Hl|].
  rewrite Hl. pose proof (sqrt_pos 700). pose proof sqrt_50_lt_8. lra.
Qed.

(** C6, amended. Area 100 with perimeter 40 gives a discriminant of exactly
    0 and sides 10 and 10.  Area 50 with perimeter 60 gives a discriminant of
    700, which is not negative, so the sides are (30 + sqrt 700) / 2 (length,
    about 28.23) and (30 - sqrt 700) / 2 (width, about 1.77), a rectangle of
    area 50 and perimeter 60; the square of side sqrt 50 is what area 50
    gives with a perimeter of 20, where the discriminant is -100. *)
Theorem backsolve_named_inputs (width length : option R) :
  (40 / 2) ^ 2 - 4 * 100 = 0 /\
  addRoom_dimensions (Some 100) (Some 40) width length = mkDimensions 10 10 /\
  (60 / 2) ^ 2 - 4 * 50 = 700 /\
  addRoom_dimensions (Some 50) (Some 60) width length =
    mkDimensions ((30 - sqrt 700) / 2) ((30 + sqrt 700) / 2) /\
  (30 - sqrt 700) / 2 * ((30 + sqrt 700) / 2) = 50 /\
  2 * ((30 - sqrt 700) / 2 + (30 + sqrt 700) / 2) = 60 /\
  28 < (30 + sqrt 700) / 2 < 29 /\
  (20 / 2) ^ 2 - 4 * 50 = -100 /\
  addRoom_dimensions (Some 50) (Some 20) width length =
    mkDimensions (sqrt 50) (sqrt 50).
Proof.
  split; [lra|]. split.
  { rewrite dimensions_quadratic by lra.
    replace ((40 / 2) ^ 2 - 4 * 100) with 0 by lra. rewrite sqrt_0.
    f_equal; lra. }
  split; [lra|]. split; [apply dimensions_50_60|].
  assert (Hsq : sqrt 700 * sqrt 700 = 700) by (apply sqrt_sqrt; lra).
  assert (Hpos : 0 <= sqrt 700) by apply sqrt_pos.
  split; [nra|]. split; [lra|]. split; [split; nra|].
  split; [lra|].
  apply dimensions_square; lra.
Qed.

End EstimateFacts.

(** ** The stability detector over a run of ticks *)

Module DetectorFacts.
Import AutoScan.
Local Open Scope Z_scope.

Lemma tickTimes_S (t : Z) (n : nat) :
  tickTimes t (S n) = t :: tickTimes (t + 50) n.
Proof.
  unfold tickTimes. cbn [seq map]. rewrite <- seq_shift, map_map.
  f_equal; [lia|]. apply map_ext. intros k. lia.
Qed.

Lemma tickTimes_app (t : Z) (n m : nat) :
  tickTimes t (n + m) = tickTimes t n ++ tickTimes (t + 50 * Z.of_nat n) m.
Proof.
  revert t. induction n as [|n IH]; intros t.
  - simpl. f_equal. lia.
  - change (S n + m)%nat with (S (n + m)). rewrite !tickTimes_S, IH.
    rewrite <- app_comm_cons. do 3 f_equal. lia.
Qed.

Lemma runTicks_app (l1 l2 : list Z) (d : Detector) :
  runTicks (l1 ++ l2) d = runTicks l2 (runTicks l1 d).
Proof. apply fold_left_app. Qed.

(** *** One tick, by phase *)

Lemma tick_idle (t p T : Z) (c : list Z) :
  t - T <= 400 ->
  tick t (mkDetector p T false [] c) = mkDetector p T false [] c.
Proof.
  intros H. unfold tick, fireDue, progressInterval; simpl.
  rewrite Z.gtb_ltb. destruct (Z.ltb_spec 400 (t - T)); [lia | reflexivity].
Qed.

Lemma tick_ramp (t p T : Z) (c : list Z) :
  400 < t - T -> p + 8 < 100 ->
  tick t (mkDetector p T false [] c) = mkDetector (p + 8) T false [] c.
Proof.
  intros H Hp. unfold tick, fireDue, progressInterval; simpl.
  rewrite Z.gtb_ltb. destruct (Z.ltb_spec 400 (t - T)); [|lia].
  rewrite Z.geb_leb. destruct (Z.leb_spec 100 (p + 8)); [lia | reflexivity].
Qed.

Lemma tick_trigger (t p T : Z) (c : list Z) :
  400 < t - T -> 100 <= p + 8 ->
  tick t (mkDetector p T false [] c) =
  mkDetector 100 T true [t + 1500] (t :: c).
Proof.
  intros H Hp. unfold tick, fireDue, progressInterval; simpl.
  rewrite Z.gtb_ltb. destruct (Z.ltb_spec 400 (t - T)); [|lia].
  rewrite Z.geb_leb. destruct (Z.leb_spec 100 (p + 8)); [reflexivity | lia].
Qed.

Lemma tick_cooldown (t p T due : Z) (c : list Z) :
  t < due ->
  tick t (mkDetector p T true [due] c) = mkDetector p T true [due] c.
Proof.
  intros H. unfold tick, fireDue, progressInterval; simpl.
  destruct (Z.leb_spec due t); [lia|].
  destruct (Z.ltb_spec t due); [reflexivity | lia].
Qed.

Lemma tick_at_due (p T due : Z) (c : list Z) :
  tick due (mkDetector p T true [due] c) = mkDetector 0 due false [] c.
Proof.
  unfold tick, fireDue, progressInterval; simpl.
  rewrite Z.leb_refl, Z.ltb_irrefl. simpl.
  rewrite Z.sub_diag. reflexivity.
Qed.

(** *** Runs of ticks, by phase *)

Lemma run_idle (n : nat) : forall (t p T : Z) (c : list Z),
  (n = 0%nat \/ t + 50 * (Z.of_nat n - 1) <= T + 400) ->
  runTicks (tickTimes t n) (mkDetector p T false [] c) = mkDetector p T false [] c.
Proof.
  induction n as [|n IH]; intros t p T c H; [reflexivity|].
  rewrite tickTimes_S. unfold runTicks. cbn [fold_left].
  rewrite tick_idle by lia. apply IH. lia.
Qed.

Lemma run_ramp (n : nat) : forall (t p T : Z) (c : list Z),
  T + 400 < t -> p + 8 * Z.of_nat n < 100 ->
  runTicks (tickTimes t n) (mkDetector p T false [] c) =
  mkDetector (p + 8 * Z.of_nat n) T false [] c.
Proof.
  induction n as [|n IH]; intros t p T c Ht Hp.
  - simpl. f_equal. lia.
  - rewrite tickTimes_S. unfold runTicks. cbn [fold_left].
    rewrite tick_ramp by lia. fold (runTicks (tickTimes (t + 50) n)).
    unfold runTicks in IH. rewrite IH by lia. f_equal. lia.
Qed.

Lemma run_cooldown (n : nat) : forall (t p T due : Z) (c : list Z),
  (n = 0%nat \/ t + 50 * (Z.of_nat n - 1) < due) ->
  runTicks (tickTimes t n) (mkDetector p T true [due] c) =
  mkDetector p T true [due] c.
Proof.
  induction n as [|n IH]; intros t p T due c H; [reflexivity|].
  rewrite tickTimes_S. unfold runTicks. cbn [fold_left].
  rewrite tick_cooldown by lia. apply IH. lia.
Qed.

(** During cooldown a tick at any instant before the reset is due does
    nothing, whatever the phase of the interval. *)
Lemma run_cooldown_any (ts : list Z) : forall (p T due : Z) (c : list Z),
  Forall (fun t => t < due) ts ->
  runTicks ts (mkDetector p T true [due] c) = mkDetector p T true [due] c.
Proof.
  induction ts as [|t ts IH]; intros p T due c H; [reflexivity|].
  inversion H as [|? ? Ht Hts]; subst.
  unfold runTicks. cbn [fold_left]. rewrite tick_cooldown by exact Ht.
  apply IH. exact Hts.
Qed.

(** *** The timeline after a motion sample at [T] *)

Section Timeline.

Variables (T delta : Z) (c0 : list Z).
Hypothesis Hdelta : 0 < delta <= 50.

(** The detector just after the sample, and after [n] further ticks, the
    first of which comes [delta] after the sample. *)
Let start : Detector := mkDetector 0 T false [] c0.
Let after (n : nat) : Detector := runTicks (tickTimes (T + delta) n) start.
Let fire : Z := T + delta + 1000.

Lemma after_hold (n : nat) : (n <= 8)%nat -> after n = start.
Proof. intros H. apply run_idle. lia. Qed.

Lemma after_ramp (n : nat) :
  (8 <= n <= 20)%nat ->
  after n = mkDetector (8 * (Z.of_nat n - 8)) T false [] c0.
Proof.
  intros H. unfold after.
  replace n with (8 + (n - 8))%nat by lia.
  rewrite tickTimes_app, runTicks_app.
  fold (after 8). rewrite after_hold by lia. unfold start.
  rewrite run_ramp by lia. f_equal. lia.
Qed.

Lemma after_fire :
  after 21 = mkDetector 100 T true [fire + 1500] (fire :: c0).
Proof.
  unfold after. change 21%nat with (20 + 1)%nat.
  rewrite tickTimes_app, runTicks_app.
  fold (after 20). rewrite after_ramp by lia.
  unfold tickTimes, runTicks. cbn [seq map fold_left].
  replace (T + delta + 50 * Z.of_nat 20 + 50 * Z.of_nat 0) with fire
    by (unfold fire; lia).
  apply tick_trigger; unfold fire; lia.
Qed.

Lemma after_cooldown (n : nat) :
  (21 <= n <= 50)%nat ->
  after n = mkDetector 100 T true [fire + 1500] (fire :: c0).
Proof.
  intros H. unfold after.
  replace n with (21 + (n - 21))%nat by lia.
  rewrite tickTimes_app, runTicks_app.
  fold (after 21). rewrite after_fire.
  apply run_cooldown. unfold fire. lia.
Qed.

Lemma after_cooldown_end :
  after 51 = mkDetector 0 (fire + 1500) false [] (fire :: c0).
Proof.
  unfold after. change 51%nat with (50 + 1)%nat.
  rewrite tickTimes_app, runTicks_app.
  fold (after 50). rewrite after_cooldown by lia.
  unfold tickTimes, runTicks. cbn [seq map fold_left].
  replace (T + delta + 50 * Z.of_nat 50 + 50 * Z.of_nat 0) with (fire + 1500)
    by (unfold fire; lia).
  apply tick_at_due.
Qed.

End Timeline.

Lemma motion_resets (d0 : Detector) (T : Z) (acc : Acceleration) :
  (magnitude acc > 8 / 10)%R ->
  handleMotion T (Some acc) d0 =
  mkDetector 0 T (scanCooldownRef d0) (timeouts d0) (captures d0).
Proof.
  intros H. unfold handleMotion.
  replace (JS.gtb (magnitude acc) (8 / 10)) with true
    by (symmetry; apply JSFacts.gtb_true; exact H).
  reflexivity.
Qed.

(** C8. Let a motion sample of magnitude 0.9 arrive at [T] while the
    detector is not cooling down, and let the 50 ms interval tick next at
    [T + delta] (0 < delta <= 50) and then every 50 ms, with no other event.
    The sample sets the progress to 0; it is still 0 after every tick up to
    [T + 400]; the first tick after [T + 400] makes it 8; it stays below 100,
    with no capture, before the tick at [fire = T + delta + 1000], which lies
    within (T + 1000, T + 1050]; that tick makes it 100 and invokes the
    capture exactly once; and after every tick of the following 1500 ms the
    capture log still holds that one capture. *)
Theorem stability_detector_timeline
    (d0 : Detector) (T delta : Z) (acc : Acceleration) :
  scanCooldownRef d0 = false ->
  timeouts d0 = [] ->
  magnitude acc = (9 / 10)%R ->
  0 < delta <= 50 ->
  let d1 := handleMotion T (Some acc) d0 in
  let after := fun n => runTicks (tickTimes (T + delta) n) d1 in
  let time := fun n => tickTime (T + delta) n in
  let fire := T + delta + 1000 in
  (scanProgress d1 = 0 /\ lastMotionRef d1 = T /\ captures d1 = captures d0) /\
  (forall n, (1 <= n)%nat -> time n <= T + 400 ->
     scanProgress (after n) = 0 /\ captures (after n) = captures d0) /\
  (forall n, (1 <= n)%nat -> T + 400 < time n -> time n - 50 <= T + 400 ->
     scanProgress (after n) = 8) /\
  (forall n, (1 <= n)%nat -> time n < fire ->
     scanProgress (after n) < 100 /\ captures (after n) = captures d0) /\
  (time 21%nat = fire /\ T + 1000 < fire <= T + 1050) /\
  (scanProgress (after 21%nat) = 100 /\
   scanCooldownRef (after 21%nat) = true /\
   captures (after 21%nat) = fire :: captures d0) /\
  (forall n, fire <= time n <= fire + 1500 ->
     captures (after n) = fire :: captures d0) /\
  (forall ts, Forall (fun t => t < fire + 1500) ts ->
     captures (runTicks ts (after 21%nat)) = fire :: captures d0).
Proof.
  intros Hcool Htimers Hmag Hdelta d1 after time fire.
  assert (Hd1 : d1 = mkDetector 0 T false [] (captures d0)).
  { unfold d1. rewrite motion_resets by (rewrite Hmag; lra).
    rewrite Hcool, Htimers. reflexivity. }
  assert (Hhold := after_hold T delta (captures d0) Hdelta).
  assert (Hramp := after_ramp T delta (captures d0) Hdelta).
  assert (Hfire := after_fire T delta (captures d0) Hdelta).
  assert (Hcd := after_cooldown T delta (captures d0) Hdelta).
  assert (Hend := after_cooldown_end T delta (captures d0) Hdelta).
  unfold after, time, tickTime. rewrite Hd1. clear after time.
  split; [repeat split|].
  split.
  { intros n Hn Ht. rewrite Hhold by lia. split; reflexivity. }
  split.
  { intros n Hn Hlo Hhi. assert (n = 9%nat) by lia. subst n.
    rewrite Hramp by lia. reflexivity. }
  split.
  { intros n Hn Ht. unfold fire in Ht.
    destruct (Nat.le_gt_cases n 8) as [H8|H8].
    - rewrite Hhold by lia. cbn [scanProgress captures]. split; [lia | reflexivity].
    - rewrite Hramp by lia. cbn [scanProgress captures]. split; [lia | reflexivity]. }
  split; [unfold fire; lia|].
  split; [rewrite Hfire; repeat split|].
  split.
  { intros n Ht. unfold fire in Ht.
    destruct (Nat.le_gt_cases n 50) as [H50|H50].
    - rewrite Hcd by lia. reflexivity.
    - assert (n = 51%nat) by lia. subst n. rewrite Hend. reflexivity. }
  intros ts Hts. rewrite Hfire, run_cooldown_any by exact Hts. reflexivity.
Qed.

Lemma magnitude_x_only (a : R) :
  (0 <= a)%R -> magnitude (mkAcceleration (Some a) None None) = a.
Proof.
  intros H. unfold magnitude; simpl.
  replace (a * (a * 1) + 0 * (0 * 1) + 0 * (0 * 1))%R with (a * a)%R by ring.
  apply sqrt_square. exact H.
Qed.

(** C8, an instance: mounted at 0, shaken at 0, first tick at 50; the
    capture fires at 1050. *)
Lemma stability_detector_timeline_witness :
  scanCooldownRef (initial 0) = false /\
  timeouts (initial 0) = [] /\
  magnitude (mkAcceleration (Some (9 / 10)%R) None None) = (9 / 10)%R /\
  0 < 50 <= 50 /\
  captures
    (runTicks (tickTimes (0 + 50) 21)
       (handleMotion 0 (Some (mkAcceleration (Some (9 / 10)%R) None None))
          (initial 0))) = [0 + 50 + 1000].
Proof.
  assert (Hm : magnitude (mkAcceleration (Some (9 / 10)%R) None None) = (9 / 10)%R)
    by (apply magnitude_x_only; lra).
  assert (Hd : 0 < 50 <= 50) by lia.
  split; [reflexivity|]. split; [reflexivity|]. split; [exact Hm|].
  split; [exact Hd|].
  exact (proj2 (proj2 (proj1 (proj2 (proj2 (proj2 (proj2 (proj2
    (stability_detector_timeline (initial 0) 0 50
       (mkAcceleration (Some (9 / 10)%R) None None)
       eq_refl eq_refl Hm Hd))))))))).
Defined.

End DetectorFacts.

(** ** Capturing outside Measuring-Open *)

Module CaptureModes.
Import ARMeasurement.
Local Open Scope handler_scope.

Lemma capture_calibrating_result (s : State) (rect : Rect) :
  isCalibrating s = true ->
  handleCapturePoint (Some rect) s s =
  (with_calibrationPoints (calibrationPoints s ++ [target_of rect])
     (if (length (calibrationPoints s ++ [target_of rect]) =? 2)%nat
      then with_showCalibrationModal true s else s),
   Normal tt).
Proof.
  intros Hcal. unfold handleCapturePoint. rewrite Hcal. fold (target_of rect).
  unfold setCalibrationPoints_with, bind, current, ret, setShowCalibrationModal,
    setCalibrationPoints, modify.
  destruct (length (calibrationPoints s ++ [target_of rect]) =? 2)%nat; reflexivity.
Qed.

(** X1. While calibrating, a capture appends the reticle position to the
    reference points and never touches the polygon, the closed flag or the
    scale; it opens the distance modal exactly when the appended point is the
    second one, and otherwise leaves the modal as it was. *)
Theorem capture_while_calibrating (s : State) (rect : Rect) :
  isCalibrating s = true ->
  let s' := dispatch (handleCapturePoint (Some rect)) s in
  calibrationPoints s' = calibrationPoints s ++ [target_of rect] /\
  points s' = points s /\ isClosed s' = isClosed s /\
  pixelsPerFoot s' = pixelsPerFoot s /\ isCalibrating s' = true /\
  showCalibrationModal s' =
    (if (length (calibrationPoints s) =? 1)%nat then true
     else showCalibrationModal s) /\
  outcome (handleCapturePoint (Some rect)) s = Normal tt.
Proof.
  intros Hcal s'. subst s'. unfold dispatch, outcome.
  rewrite (capture_calibrating_result s rect Hcal).
  rewrite length_app. simpl length.
  replace (length (calibrationPoints s) + 1 =? 2)%nat
    with (length (calibrationPoints s) =? 1)%nat
    by (destruct (length (calibrationPoints s)) as [|[|[|n]]]; reflexivity).
  destruct (length (calibrationPoints s) =? 1)%nat; simpl;
    repeat split; exact Hcal.
Qed.

Lemma capture_while_calibrating_witness :
  isCalibrating (with_isCalibrating true initialState) = true /\
  calibrationPoints
    (dispatch (handleCapturePoint (Some (mkRect 640 480)))
       (with_isCalibrating true initialState))
  = [] ++ [target_of (mkRect 640 480)].
Proof.
  split; [reflexivity|].
  exact (proj1 (capture_while_calibrating (with_isCalibrating true initialState)
                  (mkRect 640 480) eq_refl)).
Defined.

(** X2. A capture changes nothing when the container is not mounted, in any
    state, and nothing when the polygon is closed and the session is not
    calibrating, wherever the reticle is: a closed polygon can only be
    changed after an undo. *)
Theorem capture_is_noop_when_unmounted_or_closed (s : State) :
  dispatch (handleCapturePoint None) s = s /\
  (isCalibrating s = false -> isClosed s = true ->
   forall containerRef, dispatch (handleCapturePoint containerRef) s = s).
Proof.
  split; [reflexivity|].
  intros Hcal Hcl [rect|]; [|reflexivity].
  unfold dispatch, handleCapturePoint. rewrite Hcal, Hcl. reflexivity.
Qed.

End CaptureModes.

(** ** Invariants of the session *)

Module SessionInvariants.
Import ARMeasurement.
Import Session.

Lemma sumR_nonneg (l : list R) :
  Forall (fun r => 0 <= r) l -> 0 <= Spec.sumR l.
Proof.
  induction 1 as [|r l Hr _ IH]; simpl; lra.
Qed.

Lemma edge_lengths_nonneg (es : list (Point * Point)) :
  0 <= Spec.sumR (map Spec.edgeLength es).
Proof.
  apply sumR_nonneg. apply Forall_forall. intros r Hr.
  apply in_map_iff in Hr. destruct Hr as [e [<- _]].
  unfold Spec.edgeLength, calculatePixelDistance. apply sqrt_pos.
Qed.

(** The area of [stats], against the specification's formula. *)
Lemma stats_area_spec (s : State) :
  area (stats s) =
  Spec.areaOf (Spec.effectivePolygon (isClosed s) (points s)
                 (viewportCenter (viewport s)))
  / (pixelsPerFoot s * pixelsPerFoot s).
Proof.
  set (polygon := Spec.effectivePolygon _ _ _).
  unfold stats. fold polygon.
  destruct (Nat.ltb_spec (length (points s)) 2) as [Hshort|Hlong].
  - assert (Hlen : (length polygon < 3)%nat).
    { unfold polygon, Spec.effectivePolygon.
      destruct (isClosed s); [lia|]. rewrite length_app. simpl. lia. }
    unfold Spec.areaOf.
    destruct (Nat.ltb_spec (length polygon) 3); [|lia].
    simpl. unfold Rdiv. ring.
  - cbv zeta. cbn [area].
    change (if isClosed s then points s else points s ++ [viewportCenter (viewport s)])
      with polygon.
    rewrite GeometryFacts.shoelace_loop_sum. unfold Spec.areaOf.
    destruct (Nat.leb_spec 3 (length polygon));
      destruct (Nat.ltb_spec (length polygon) 3); try lia; reflexivity.
Qed.

Lemma areaOf_nonneg (polygon : list Point) : 0 <= Spec.areaOf polygon.
Proof.
  unfold Spec.areaOf. destruct (length polygon <? 3)%nat; [lra|].
  pose proof (Rabs_pos (Spec.sumR (map Spec.cross (Spec.cycleEdges polygon)))).
  lra.
Qed.

Lemma stats_nonneg (s : State) :
  pixelsPerFoot s > 0 -> 0 <= area (stats s) /\ 0 <= perimeter (stats s).
Proof.
  intros Hscale. split.
  - rewrite stats_area_spec. apply Rmult_le_pos; [apply areaOf_nonneg|].
    apply Rlt_le, Rinv_0_lt_compat. nra.
  - destruct (isClosed s) eqn:Hcl.
    + rewrite GeometryFacts.stats_perimeter_spec by (left; exact Hcl).
      unfold Spec.perimeterOf. rewrite Hcl.
      apply Rmult_le_pos; [apply edge_lengths_nonneg|].
      apply Rlt_le, Rinv_0_lt_compat. exact Hscale.
    + destruct (Nat.eq_dec (length (points s)) 1) as [H1|H1].
      * unfold stats. rewrite H1. simpl. lra.
      * rewrite GeometryFacts.stats_perimeter_spec by (right; exact H1).
        unfold Spec.perimeterOf. rewrite Hcl.
        apply Rmult_le_pos; [|apply Rlt_le, Rinv_0_lt_compat; exact Hscale].
        pose proof (edge_lengths_nonneg (Spec.chainEdges (points s))).
        destruct (points s); [lra|].
        pose proof (sqrt_pos 0). unfold calculatePixelDistance.
        match goal with |- 0 <= _ + sqrt ?a => pose proof (sqrt_pos a) end.
        lra.
Qed.

Lemma invariant_initial : invariant initialState.
Proof.
  unfold invariant; simpl. repeat split; try discriminate. lra.
Qed.

Lemma invariant_capture (c : option Rect) (s : State) :
  invariant s -> invariant (dispatch (handleCapturePoint c) s).
Proof.
  intros (Hcl & Hscale & Hmodal).
  destruct c as [rect|]; [|repeat split; assumption].
  destruct (isCalibrating s) eqn:Hcal.
  - unfold dispatch. rewrite (CaptureModes.capture_calibrating_result s rect Hcal).
    unfold invariant. simpl.
    destruct (length (calibrationPoints s ++ [target_of rect]) =? 2)%nat eqn:E;
      simpl; repeat split; try assumption.
    + intros _. apply Nat.eqb_eq in E. lia.
    + intros H. apply Hmodal in H. rewrite length_app. simpl. lia.
  - destruct (isClosed s) eqn:Hclosed.
    + unfold dispatch, handleCapturePoint. rewrite Hcal, Hclosed.
      repeat split; try assumption. intros _. apply Hcl. reflexivity.
    + unfold dispatch.
      rewrite (CaptureFacts.capture_open_result s rect (conj Hcal Hclosed)).
      destruct (points s) as [|v0 [|v1 [|v2 rest]]] eqn:Hpts;
        try (unfold invariant; simpl; rewrite Hclosed;
             repeat split; try assumption; discriminate).
      destruct (JS.ltb (calculatePixelDistance (target_of rect) v0) 30);
        unfold invariant; simpl; rewrite ?Hclosed, ?Hpts;
        repeat split; try assumption; try discriminate.
      intros _. simpl. lia.
Qed.

Lemma invariant_finish (s : State) :
  invariant s -> invariant (dispatch handleFinishCalibration s).
Proof.
  intros Hinv. unfold dispatch.
  destruct (calibrationPoints s) as [|a [|b tl]] eqn:Hcps.
  1-2: rewrite CalibrationFacts.finish_too_few by (rewrite Hcps; simpl; lia);
       exact Hinv.
  rewrite (CalibrationFacts.finish_run s a b) by (rewrite Hcps; reflexivity).
  destruct (calibrationDistanceInput s) as [d|]; [|exact Hinv].
  destruct (JS.gtb d 0) eqn:Hd; [|exact Hinv].
  destruct (JS.gtb (calculatePixelDistance a b) 0) eqn:Hpx; [|exact Hinv].
  apply JSFacts.gtb_true in Hd. apply JSFacts.gtb_true in Hpx.
  unfold invariant; simpl. repeat split; try discriminate.
  apply Rmult_lt_0_compat; [exact Hpx | apply Rinv_0_lt_compat; exact Hd].
Qed.

Lemma invariant_undo (s : State) :
  invariant s -> invariant (dispatch handleUndo s).
Proof.
  intros (Hcl & Hscale & Hmodal).
  destruct (isClosed s) eqn:Hclosed.
  - rewrite SessionFacts.undo_closed by exact Hclosed.
    unfold invariant; simpl. repeat split; try assumption. discriminate.
  - rewrite SessionFacts.undo_open by exact Hclosed.
    unfold invariant; simpl. rewrite Hclosed.
    repeat split; try assumption. discriminate.
Qed.

Lemma invariant_step (e : Event) (s : State) :
  invariant s -> invariant (step e s).
Proof.
  intros Hinv. destruct e as [c| | | | |[rect|]|reading]; simpl.
  - apply invariant_capture; exact Hinv.
  - apply invariant_finish; exact Hinv.
  - apply invariant_undo; exact Hinv.
  - exact Hinv.
  - exact Hinv.
  - exact Hinv.
  - exact Hinv.
  - exact Hinv.
Qed.

Lemma invariant_run (events : list Event) : forall s,
  invariant s -> invariant (run events s).
Proof.
  induction events as [|e events IH]; intros s Hinv; [exact Hinv|].
  apply IH. apply invariant_step. exact Hinv.
Qed.

Lemma closingRun_closes : isClosed (run closingRun initialState) = true.
Proof.
  unfold closingRun, run. cbn [fold_left step].
  set (s3 := dispatch (handleCapturePoint (Some (mkRect 0 200))) _).
  assert (Hs3 : points s3 = [target_of (mkRect 0 0); target_of (mkRect 200 0);
                             target_of (mkRect 0 200)]) by reflexivity.
  assert (Hopen : measuringOpen s3) by (split; reflexivity).
  rewrite SessionFacts.capture_closes; [reflexivity | exact Hopen |].
  split; [rewrite Hs3; simpl; lia|].
  exists (target_of (mkRect 0 0)). rewrite Hs3. split; [reflexivity|].
  rewrite distance_self. lra.
Qed.

(** X3. Whatever sequence of events led to it, a session whose polygon is
    closed has at least 3 vertices. *)
Theorem closed_polygon_has_three_vertices (events : list Event) :
  isClosed (run events initialState) = true ->
  (3 <= length (points (run events initialState)))%nat.
Proof.
  apply (invariant_run events initialState invariant_initial).
Qed.

Lemma closed_polygon_has_three_vertices_witness :
  isClosed (run closingRun initialState) = true /\
  (3 <= length (points (run closingRun initialState)))%nat.
Proof.
  split; [exact closingRun_closes|].
  exact (closed_polygon_has_three_vertices closingRun closingRun_closes).
Defined.

(** X4. Whatever sequence of events led to it, the scale of a session is
    strictly positive, so [stats] never divides by zero, and the area and
    perimeter it reports are never negative. *)
Theorem scale_stays_positive (events : list Event) :
  pixelsPerFoot (run events initialState) > 0 /\
  0 <= area (stats (run events initialState)) /\
  0 <= perimeter (stats (run events initialState)).
Proof.
  assert (H : pixelsPerFoot (run events initialState) > 0)
    by apply (invariant_run events initialState invariant_initial).
  split; [exact H|]. apply stats_nonneg. exact H.
Qed.

(** X5. Whatever sequence of events led to it, while the distance modal is
    open there are at least 2 reference points, so the modal's button, the
    only caller of [handleFinishCalibration], never makes it read a missing
    point: it returns normally. *)
Theorem modal_finish_never_throws (events : list Event) :
  showCalibrationModal (run events initialState) = true ->
  (2 <= length (calibrationPoints (run events initialState)))%nat /\
  outcome handleFinishCalibration (run events initialState) = Normal tt.
Proof.
  intros Hmodal.
  assert (Hlen : (2 <= length (calibrationPoints (run events initialState)))%nat)
    by (apply (invariant_run events initialState invariant_initial); exact Hmodal).
  split; [exact Hlen|]. unfold outcome.
  destruct (calibrationPoints (run events initialState)) as [|a [|b tl]] eqn:Hcps;
    simpl in Hlen; try lia.
  rewrite (CalibrationFacts.finish_run _ a b) by (rewrite Hcps; reflexivity).
  destruct (_ && _); reflexivity.
Qed.

Lemma modal_finish_never_throws_witness :
  showCalibrationModal (run twoReferencePointsRun initialState) = true /\
  outcome handleFinishCalibration (run twoReferencePointsRun initialState)
    = Normal tt.
Proof.
  split; [reflexivity|].
  exact (proj2 (modal_finish_never_throws twoReferencePointsRun eq_refl)).
Defined.

End SessionInvariants.

(** ** Geometry of closed polygons *)

Module ClosedPolygonFacts.
Import ARMeasurement.
Import Session.

(** For a closed polygon, [stats] in terms of the specification's sums. *)
Lemma stats_closed_spec (s : State) :
  isClosed s = true ->
  stats s =
  mkStats (Spec.areaOf (points s) / (pixelsPerFoot s * pixelsPerFoot s))
          (Spec.sumR (map Spec.edgeLength (Spec.cycleEdges (points s)))
           / pixelsPerFoot s).
Proof.
  intros Hcl.
  pose proof (SessionInvariants.stats_area_spec s) as Ha.
  pose proof (GeometryFacts.stats_perimeter_spec s (or_introl Hcl)) as Hp.
  unfold Spec.effectivePolygon, Spec.perimeterOf in *. rewrite Hcl in *.
  destruct (stats s) as [a p]. simpl in *. subst. reflexivity.
Qed.

Lemma chainEdges_snoc (l : list Point) (x y : Point) :
  Spec.chainEdges ((l ++ [x]) ++ [y]) = Spec.chainEdges (l ++ [x]) ++ [(x, y)].
Proof.
  induction l as [|a [|b l'] IH]; try reflexivity.
  change (Spec.chainEdges (((a :: b :: l') ++ [x]) ++ [y]))
    with ((a, b) :: Spec.chainEdges (((b :: l') ++ [x]) ++ [y])).
  rewrite IH. reflexivity.
Qed.

(** Starting the cycle one vertex later only moves one edge to the end. *)
Lemma cycleEdges_rotate (a : Point) (l : list Point) :
  exists e es, Spec.cycleEdges (a :: l) = e :: es /\
               Spec.cycleEdges (l ++ [a]) = es ++ [e].
Proof.
  destruct l as [|b l'].
  - exists (a, a), []. split; reflexivity.
  - exists (a, b), (Spec.chainEdges ((b :: l') ++ [a])). split; [reflexivity|].
    unfold Spec.cycleEdges. cbn [app]. 
    change (b :: (l' ++ [a]) ++ [b]) with (((b :: l') ++ [a]) ++ [b]).
    apply chainEdges_snoc.
Qed.

Lemma sum_cycle_rotate (f : Point * Point -> R) (a : Point) (l : list Point) :
  Spec.sumR (map f (Spec.cycleEdges (l ++ [a]))) =
  Spec.sumR (map f (Spec.cycleEdges (a :: l))).
Proof.
  destruct (cycleEdges_rotate a l) as (e & es & H1 & H2).
  rewrite H1, H2, map_app, GeometryFacts.sumR_app. simpl. ring.
Qed.

(** X7. The area and perimeter of a closed polygon do not depend on which
    vertex the sequence starts with: moving the first vertex to the end
    gives the same [stats]. *)
Theorem closed_stats_rotation (s : State) (a : Point) (l : list Point) :
  isClosed s = true -> points s = a :: l ->
  stats (with_points (l ++ [a]) s) = stats s.
Proof.
  intros Hcl Hpts.
  rewrite (stats_closed_spec s Hcl).
  rewrite (stats_closed_spec (with_points (l ++ [a]) s)) by exact Hcl.
  cbn [points pixelsPerFoot with_points]. rewrite Hpts.
  rewrite sum_cycle_rotate. f_equal. f_equal.
  unfold Spec.areaOf. rewrite length_app, Nat.add_comm. cbn [length Nat.add].
  rewrite sum_cycle_rotate. reflexivity.
Qed.

Lemma closed_stats_rotation_witness :
  isClosed (rectangleSession 0 0 4 3 35) = true /\
  points (rectangleSession 0 0 4 3 35)
    = mkPoint 0 0 :: [mkPoint (0 + 4) 0; mkPoint (0 + 4) (0 + 3); mkPoint 0 (0 + 3)] /\
  stats (with_points
           ([mkPoint (0 + 4) 0; mkPoint (0 + 4) (0 + 3); mkPoint 0 (0 + 3)]
            ++ [mkPoint 0 0])
           (rectangleSession 0 0 4 3 35))
  = stats (rectangleSession 0 0 4 3 35).
Proof.
  split; [reflexivity|]. split; [reflexivity|].
  exact (closed_stats_rotation (rectangleSession 0 0 4 3 35) (mkPoint 0 0) _
           eq_refl eq_refl).
Defined.

Lemma sumR_rev (l : list R) : Spec.sumR (rev l) = Spec.sumR l.
Proof.
  induction l as [|r l IH]; [reflexivity|].
  simpl. rewrite GeometryFacts.sumR_app, IH. simpl. ring.
Qed.

Lemma chainEdges_rev (m : list Point) :
  Spec.chainEdges (rev m) = rev (map swap (Spec.chainEdges m)).
Proof.
  induction m as [|a [|b m'] IH]; try reflexivity.
  change (rev (a :: b :: m')) with ((rev m' ++ [b]) ++ [a]).
  rewrite chainEdges_snoc.
  change (rev m' ++ [b]) with (rev (b :: m')). rewrite IH. reflexivity.
Qed.

(** Summing over the reversed cycle is summing over the backward edges. *)
Lemma sum_cycle_rev (f : Point * Point -> R) (l : list Point) :
  Spec.sumR (map f (Spec.cycleEdges (rev l))) =
  Spec.sumR (map (fun e => f (swap e)) (Spec.cycleEdges l)).
Proof.
  destruct l as [|a l']; [reflexivity|].
  change (rev (a :: l')) with (rev l' ++ [a]).
  rewrite sum_cycle_rotate.
  assert (E : Spec.cycleEdges (a :: rev l') = Spec.chainEdges (rev ((a :: l') ++ [a]))).
  { rewrite rev_app_distr. reflexivity. }
  rewrite E, chainEdges_rev, map_rev, sumR_rev, map_map. reflexivity.
Qed.

Lemma edgeLength_swap (e : Point * Point) :
  Spec.edgeLength (swap e) = Spec.edgeLength e.
Proof.
  unfold Spec.edgeLength, swap, calculatePixelDistance; simpl. f_equal. ring.
Qed.

Lemma sum_cross_swap (es : list (Point * Point)) :
  Spec.sumR (map (fun e => Spec.cross (swap e)) es) = - Spec.sumR (map Spec.cross es).
Proof.
  induction es as [|e es IH]; simpl; [ring|].
  rewrite IH. unfold Spec.cross, swap; simpl. ring.
Qed.

(** X8. The area and perimeter of a closed polygon do not depend on the
    direction in which its corners were captured: the reversed vertex
    sequence gives the same [stats]. *)
Theorem closed_stats_reversal (s : State) :
  isClosed s = true ->
  stats (with_points (rev (points s)) s) = stats s.
Proof.
  intros Hcl.
  rewrite (stats_closed_spec s Hcl).
  rewrite (stats_closed_spec (with_points (rev (points s)) s)) by exact Hcl.
  cbn [points pixelsPerFoot with_points].
  f_equal.
  - unfold Spec.areaOf. rewrite length_rev, sum_cycle_rev, sum_cross_swap, Rabs_Ropp.
    reflexivity.
  - rewrite sum_cycle_rev. f_equal. f_equal.
    apply map_ext. intros e. apply edgeLength_swap.
Qed.

Lemma closed_stats_reversal_witness :
  isClosed (rectangleSession 0 0 4 3 35) = true /\
  stats (with_points (rev (points (rectangleSession 0 0 4 3 35)))
           (rectangleSession 0 0 4 3 35))
  = stats (rectangleSession 0 0 4 3 35).
Proof.
  split; [reflexivity|].
  exact (closed_stats_reversal (rectangleSession 0 0 4 3 35) eq_refl).
Defined.

Lemma distance_horizontal (x y w : R) :
  0 <= w ->
  calculatePixelDistance (mkPoint x y) (mkPoint (x + w) y) = w /\
  calculatePixelDistance (mkPoint (x + w) y) (mkPoint x y) = w.
Proof.
  intros Hw. split; apply distance_of_square; simpl; try exact Hw; ring.
Qed.

Lemma distance_vertical (x y h : R) :
  0 <= h ->
  calculatePixelDistance (mkPoint x y) (mkPoint x (y + h)) = h /\
  calculatePixelDistance (mkPoint x (y + h)) (mkPoint x y) = h.
Proof.
  intros Hh. split; apply distance_of_square; simpl; try exact Hh; ring.
Qed.

(** X6. For a closed polygon whose vertices are the four corners of an
    axis-parallel rectangle with sides w and h pixels, taken in order,
    [stats] reports the area w h / scale^2 and the perimeter
    2 (w + h) / scale. *)
Theorem closed_rectangle_stats (s : State) (x y w h : R) :
  0 <= w -> 0 <= h ->
  isClosed s = true -> points s = rectangleVertices x y w h ->
  area (stats s) = w * h / (pixelsPerFoot s * pixelsPerFoot s) /\
  perimeter (stats s) = 2 * (w + h) / pixelsPerFoot s.
Proof.
  intros Hw Hh Hcl Hpts. rewrite (stats_closed_spec s Hcl), Hpts.
  cbn [area perimeter]. split.
  - f_equal. unfold Spec.areaOf. simpl. unfold Spec.cross. simpl.
    replace (x * y - (x + w) * y +
             ((x + w) * (y + h) - (x + w) * y +
              ((x + w) * (y + h) - x * (y + h) + (x * y - x * (y + h) + 0))))
      with (2 * (w * h)) by ring.
    rewrite Rabs_pos_eq by nra. lra.
  - f_equal. simpl. unfold Spec.edgeLength. simpl.
    destruct (distance_horizontal x y w Hw) as [H1 _].
    destruct (distance_vertical (x + w) y h Hh) as [H2 _].
    destruct (distance_horizontal x (y + h) w Hw) as [_ H3].
    destruct (distance_vertical x y h Hh) as [_ H4].
    rewrite H1, H2, H3, H4. ring.
Qed.

Lemma closed_rectangle_stats_witness :
  0 <= 4 /\ 0 <= 3 /\
  isClosed (rectangleSession 10 20 4 3 1) = true /\
  area (stats (rectangleSession 10 20 4 3 1)) = 4 * 3 / (1 * 1).
Proof.
  assert (H4 : 0 <= 4) by lra. assert (H3 : 0 <= 3) by lra.
  split; [exact H4|]. split; [exact H3|]. split; [reflexivity|].
  exact (proj1 (closed_rectangle_stats (rectangleSession 10 20 4 3 1)
                  10 20 4 3 H4 H3 eq_refl eq_refl)).
Defined.

Lemma chainEdges_map (g : Point -> Point) (l : list Point) :
  Spec.chainEdges (map g l) =
  map (fun e => (g (fst e), g (snd e))) (Spec.chainEdges l).
Proof.
  induction l as [|a [|b l'] IH]; try reflexivity.
  change (Spec.chainEdges (map g (a :: b :: l')))
    with ((g a, g b) :: Spec.chainEdges (map g (b :: l'))).
  rewrite IH. reflexivity.
Qed.

Lemma cycleEdges_map (g : Point -> Point) (l : list Point) :
  Spec.cycleEdges (map g l) =
  map (fun e => (g (fst e), g (snd e))) (Spec.cycleEdges l).
Proof.
  destruct l as [|a l']; [reflexivity|].
  unfold Spec.cycleEdges at 2.
  rewrite <- (chainEdges_map g ((a :: l') ++ [a])), map_app. reflexivity.
Qed.

(** Along a chain, the differences of any quantity between the two ends of
    each edge add up to the difference between the chain's ends. *)
Lemma sum_chain_telescopes (q : Point -> R) (d : Point) (m : list Point) :
  Spec.sumR (map (fun e => q (fst e) - q (snd e)) (Spec.chainEdges m))
  = q (hd d m) - q (last m d).
Proof.
  induction m as [|a [|b m'] IH]; simpl; try ring.
  simpl in IH. rewrite IH. ring.
Qed.

Lemma sum_cycle_telescopes (q : Point -> R) (l : list Point) :
  Spec.sumR (map (fun e => q (fst e) - q (snd e)) (Spec.cycleEdges l)) = 0.
Proof.
  destruct l as [|a l']; [reflexivity|].
  unfold Spec.cycleEdges.
  rewrite (sum_chain_telescopes q a). rewrite last_last. simpl. ring.
Qed.

Lemma sum_cross_translate (dx dy : R) (es : list (Point * Point)) :
  Spec.sumR (map (fun e => Spec.cross (translate dx dy (fst e), translate dx dy (snd e))) es)
  = Spec.sumR (map Spec.cross es)
    + dy * Spec.sumR (map (fun e => px (fst e) - px (snd e)) es)
    - dx * Spec.sumR (map (fun e => py (fst e) - py (snd e)) es).
Proof.
  induction es as [|e es IH]; simpl; [ring|].
  rewrite IH. unfold Spec.cross, translate; simpl. ring.
Qed.

(** X9. The area and perimeter of a closed polygon do not depend on where on
    the screen it lies: moving every vertex by the same offset gives the same
    [stats]. *)
Theorem closed_stats_translation (s : State) (dx dy : R) :
  isClosed s = true ->
  stats (with_points (map (translate dx dy) (points s)) s) = stats s.
Proof.
  intros Hcl.
  rewrite (stats_closed_spec s Hcl).
  rewrite (stats_closed_spec (with_points (map (translate dx dy) (points s)) s))
    by exact Hcl.
  cbn [points pixelsPerFoot with_points]. f_equal.
  - unfold Spec.areaOf. rewrite length_map, cycleEdges_map, map_map.
    rewrite sum_cross_translate, !sum_cycle_telescopes.
    replace (Spec.sumR (map Spec.cross (Spec.cycleEdges (points s))) + dy * 0 - dx * 0)
      with (Spec.sumR (map Spec.cross (Spec.cycleEdges (points s)))) by ring.
    reflexivity.
  - rewrite cycleEdges_map, map_map. f_equal. f_equal.
    apply map_ext. intros e.
    unfold Spec.edgeLength, calculatePixelDistance, translate; simpl.
    f_equal. ring.
Qed.

Lemma closed_stats_translation_witness :
  isClosed (rectangleSession 0 0 4 3 35) = true /\
  stats (with_points (map (translate 100 50) (points (rectangleSession 0 0 4 3 35)))
           (rectangleSession 0 0 4 3 35))
  = stats (rectangleSession 0 0 4 3 35).
Proof.
  split; [reflexivity|].
  exact (closed_stats_translation (rectangleSession 0 0 4 3 35) 100 50 eq_refl).
Defined.

End ClosedPolygonFacts.

(** ** The stability detector under arbitrary events *)

Module DetectorInvariants.
Import AutoScan.
Import AutoScanEvents.
Local Open Scope Z_scope.

Lemma resets_progress (l : list Z) : forall base : Detector,
  scanProgress (fold_left (fun d' t => cooldownReset t d') l base) = scanProgress base \/
  scanProgress (fold_left (fun d' t => cooldownReset t d') l base) = 0.
Proof.
  induction l as [|t l IH]; intros base; simpl.
  - left. reflexivity.
  - right. destruct (IH (cooldownReset t base)) as [H|H]; rewrite H; reflexivity.
Qed.

(** The timer queue either resets the progress or leaves it. *)
Lemma fireDue_progress (now : Z) (d : Detector) :
  scanProgress (fireDue now d) = scanProgress d \/ scanProgress (fireDue now d) = 0.
Proof.
  unfold fireDue.
  exact (resets_progress _
           (mkDetector (scanProgress d) (lastMotionRef d) (scanCooldownRef d)
              (filter (fun t => now <? t) (timeouts d)) (captures d))).
Qed.

Lemma step_progress_bounded (now : Z) (e : Event) (d : Detector) :
  0 <= scanProgress d <= 100 -> 0 <= scanProgress (step now e d) <= 100.
Proof.
  intros H. unfold step.
  assert (H1 : 0 <= scanProgress (fireDue now d) <= 100)
    by (destruct (fireDue_progress now d) as [E|E]; rewrite E; lia).
  destruct e as [[acc|]| | |]; simpl.
  - unfold handleMotion. destruct (JS.gtb (magnitude acc) (8 / 10)); simpl; lia.
  - exact H1.
  - lia.
  - unfold progressInterval.
    destruct (scanCooldownRef (fireDue now d)); [exact H1|].
    destruct (now - lastMotionRef (fireDue now d) >? 400); [|exact H1].
    rewrite Z.geb_leb.
    destruct (Z.leb_spec 100 (scanProgress (fireDue now d) + 8)); simpl; lia.
  - lia.
Qed.

(** X10. Whatever events arrive, in whatever order, the scan progress stays
    between 0 and 100. *)
Theorem progress_stays_in_range (events : list (Z * Event)) (d : Detector) :
  0 <= scanProgress d <= 100 -> 0 <= scanProgress (run events d) <= 100.
Proof.
  revert d. induction events as [|[t e] events IH]; intros d H; [exact H|].
  apply IH. apply step_progress_bounded. exact H.
Qed.

Lemma progress_stays_in_range_witness :
  0 <= scanProgress (initial 0) <= 100 /\
  0 <= scanProgress (run sampleRun (initial 0)) <= 100.
Proof.
  assert (H : 0 <= scanProgress (initial 0) <= 100) by (simpl; lia).
  split; [exact H|].
  exact (progress_stays_in_range sampleRun (initial 0) H).
Defined.

(** *** Timers and captures *)

Lemma fireDue_none (now : Z) (d : Detector) :
  timeouts d = [] -> fireDue now d = d.
Proof.
  intros H. unfold fireDue. rewrite H. destruct d; simpl in *. subst. reflexivity.
Qed.

Lemma fireDue_pending (now due : Z) (d : Detector) :
  timeouts d = [due] -> now < due -> fireDue now d = d.
Proof.
  intros H Hlt. unfold fireDue. rewrite H. simpl.
  destruct (Z.leb_spec due now); [lia|].
  destruct (Z.ltb_spec now due); [|lia].
  destruct d; simpl in *. subst. reflexivity.
Qed.

Lemma fireDue_due (now due : Z) (d : Detector) :
  timeouts d = [due] -> due <= now ->
  fireDue now d = mkDetector 0 due false [] (captures d).
Proof.
  intros H Hle. unfold fireDue. rewrite H. simpl.
  destruct (Z.leb_spec due now); [|lia].
  destruct (Z.ltb_spec now due); [lia|]. reflexivity.
Qed.

Lemma spaced_head_mounted (mounted : Z) (d : Detector) (h : Z) (rest : list Z) :
  Forall (fun c => mounted + 400 < c) (captures d) ->
  captures d = h :: rest -> mounted + 400 < h.
Proof.
  intros HF E. rewrite E in HF. inversion HF; assumption.
Qed.

Lemma coherent_fireDue (mounted clock now : Z) (d : Detector) :
  coherent mounted clock d -> clock <= now ->
  coherent mounted now (fireDue now d).
Proof.
  intros (Hlast & Hsp & Hall & Hmode) Hnow.
  destruct (scanCooldownRef d) eqn:Hcool.
  - destruct Hmode as (h & rest & Hcap & Htim & Hh).
    destruct (Z.le_gt_cases (h + 1500) now) as [Hdue|Hdue].
    + rewrite (fireDue_due now (h + 1500) d Htim Hdue).
      unfold coherent; simpl.
      pose proof (spaced_head_mounted mounted d h rest Hall Hcap).
      repeat split; try assumption; try lia.
      intros h' rest' E. rewrite Hcap in E. injection E as <- <-. lia.
    + rewrite (fireDue_pending now (h + 1500) d Htim) by lia.
      unfold coherent. rewrite Hcool.
      repeat split; try assumption; try lia.
      exists h, rest. repeat split; try assumption. lia.
  - destruct Hmode as [Htim Hgap].
    rewrite (fireDue_none now d Htim).
    unfold coherent. rewrite Hcool.
    repeat split; try assumption; lia.
Qed.

Lemma coherent_reset_motion (mounted now : Z) (d : Detector) :
  coherent mounted now d ->
  coherent mounted now
    (mkDetector 0 now (scanCooldownRef d) (timeouts d) (captures d)).
Proof.
  intros (Hlast & Hsp & Hall & Hmode).
  unfold coherent; simpl.
  destruct (scanCooldownRef d).
  - repeat split; try assumption; lia.
  - destruct Hmode as [Htim Hgap].
    repeat split; try assumption; try lia.
    intros h rest E. specialize (Hgap h rest E). lia.
Qed.

Lemma coherent_progress (mounted now p : Z) (d : Detector) :
  coherent mounted now d ->
  coherent mounted now
    (mkDetector p (lastMotionRef d) (scanCooldownRef d) (timeouts d) (captures d)).
Proof. intros H. exact H. Qed.

Lemma coherent_interval (mounted now : Z) (d : Detector) :
  coherent mounted now d -> coherent mounted now (progressInterval now d).
Proof.
  intros Hc. unfold progressInterval.
  destruct (scanCooldownRef d) eqn:Hcool; [exact Hc|].
  rewrite Z.gtb_ltb.
  destruct (Z.ltb_spec 400 (now - lastMotionRef d)) as [Hstill|]; [|exact Hc].
  destruct (scanProgress d + 8 >=? 100).
  - destruct Hc as (Hlast & Hsp & Hall & Hmode). rewrite Hcool in Hmode.
    destruct Hmode as [Htim Hgap].
    unfold coherent; simpl. rewrite Htim.
    repeat split; try assumption; try lia.
    + destruct (captures d) as [|h rest] eqn:E; [exact I|].
      split; [|exact Hsp]. specialize (Hgap h rest eq_refl). lia.
    + constructor; [lia | exact Hall].
    + exists now, (captures d). repeat split. lia.
  - unfold coherent in *. simpl. rewrite Hcool in Hc. exact Hc.
Qed.

Lemma coherent_step (mounted clock now : Z) (e : Event) (d : Detector) :
  coherent mounted clock d -> clock <= now ->
  coherent mounted now (step now e d).
Proof.
  intros Hc Hnow. apply (coherent_fireDue mounted clock now d Hc) in Hnow.
  unfold step. destruct e as [[acc|]| | |].
  - unfold handleMotion. destruct (JS.gtb (magnitude acc) (8 / 10)).
    + apply coherent_reset_motion. exact Hnow.
    + exact Hnow.
  - exact Hnow.
  - apply coherent_reset_motion. exact Hnow.
  - apply coherent_interval. exact Hnow.
  - apply (coherent_progress mounted now 0). exact Hnow.
Qed.

Lemma coherent_run (mounted : Z) (events : list (Z * Event)) :
  forall clock d,
    coherent mounted clock d -> chronological clock events ->
    exists clock', coherent mounted clock' (run events d).
Proof.
  induction events as [|[t e] events IH]; intros clock d Hc Hchr.
  - exists clock. exact Hc.
  - destruct Hchr as [Ht Hrest].
    apply (IH t (step t e d)); [|exact Hrest].
    apply (coherent_step mounted clock t e d Hc Ht).
Qed.

Lemma coherent_initial (mounted : Z) : coherent mounted mounted (initial mounted).
Proof.
  unfold coherent; simpl. repeat split; try lia; try constructor.
  intros h rest E. discriminate.
Qed.

(** X11. After events in chronological order since mounting, any two
    captures fired by the progress loop are more than 1900 ms apart (the
    1500 ms cooldown and the 400 ms of stillness), and none comes within
    400 ms of mounting. *)
Theorem captures_are_spaced (mounted : Z) (events : list (Z * Event)) :
  chronological mounted events ->
  spaced 1900 (captures (run events (initial mounted))) /\
  Forall (fun c => mounted + 400 < c) (captures (run events (initial mounted))).
Proof.
  intros Hchr.
  destruct (coherent_run mounted events mounted (initial mounted)
              (coherent_initial mounted) Hchr) as (clock & _ & Hsp & Hall & _).
  split; assumption.
Qed.

Lemma twoCaptureRun_chronological : chronological 0 twoCaptureRun.
Proof.
  unfold twoCaptureRun, tickTimes. simpl. repeat split; lia.
Qed.

Lemma twoCaptureRun_captures :
  captures (run twoCaptureRun (initial 0)) = [3600; 1050].
Proof. reflexivity. Qed.

(** X11, an instance with two captures: ticks alone, from mounting at 0,
    capture at 1050 and, after the cooldown, at 3600. *)
Lemma captures_are_spaced_witness :
  chronological 0 twoCaptureRun /\
  captures (run twoCaptureRun (initial 0)) = [3600; 1050] /\
  spaced 1900 (captures (run twoCaptureRun (initial 0))) /\
  Forall (fun c => 0 + 400 < c) (captures (run twoCaptureRun (initial 0))).
Proof.
  split; [exact twoCaptureRun_chronological|].
  split; [exact twoCaptureRun_captures|].
  exact (captures_are_spaced 0 twoCaptureRun twoCaptureRun_chronological).
Defined.

(** X12. After events in chronological order since mounting, at most one
    cooldown timeout is pending, and the cooldown flag is set exactly while
    one is pending: the flag cannot stay set with no timeout left to clear
    it. *)
Theorem one_cooldown_timer (mounted : Z) (events : list (Z * Event)) :
  chronological mounted events ->
  (length (timeouts (run events (initial mounted))) <= 1)%nat /\
  (scanCooldownRef (run events (initial mounted)) = true <->
   timeouts (run events (initial mounted)) <> []).
Proof.
  intros Hchr.
  destruct (coherent_run mounted events mounted (initial mounted)
              (coherent_initial mounted) Hchr) as (clock & _ & _ & _ & Hmode).
  destruct (scanCooldownRef (run events (initial mounted))).
  - destruct Hmode as (h & rest & _ & Htim & _). rewrite Htim.
    split; [simpl; lia|]. split; [intros _; discriminate | reflexivity].
  - destruct Hmode as [Htim _]. rewrite Htim.
    split; [simpl; lia|]. split; [discriminate | intros H; contradiction].
Qed.

(** X12, an instance that ends in cooldown: after the second capture of
    [twoCaptureRun] the flag is set and the one pending timeout is the one
    set at 3600. *)
Lemma one_cooldown_timer_witness :
  chronological 0 twoCaptureRun /\
  scanCooldownRef (run twoCaptureRun (initial 0)) = true /\
  timeouts (run twoCaptureRun (initial 0)) = [5100] /\
  (length (timeouts (run twoCaptureRun (initial 0))) <= 1)%nat /\
  (scanCooldownRef (run twoCaptureRun (initial 0)) = true <->
   timeouts (run twoCaptureRun (initial 0)) <> []).
Proof.
  split; [exact twoCaptureRun_chronological|].
  split; [reflexivity|]. split; [reflexivity|].
  exact (one_cooldown_timer 0 twoCaptureRun twoCaptureRun_chronological).
Defined.

End DetectorInvariants.

(** ** What the dimension back-solve returns *)

Module BackSolveFacts.
Import EstimateBuilder.

Lemma sqrt_below (D s : R) : 0 <= D -> 0 < s -> D < s * s -> sqrt D < s.
Proof.
  intros HD Hs Hlt.
  replace s with (sqrt (s * s)) by (apply sqrt_square; lra).
  apply sqrt_lt_1; nra.
Qed.

(** The smaller root is positive when the area is. *)
Lemma smaller_root_positive (area s : R) :
  area > 0 -> s > 0 -> s ^ 2 - 4 * area >= 0 ->
  sqrt (s ^ 2 - 4 * area) < s.
Proof.
  intros Ha Hs HD. apply sqrt_below; [lra | exact Hs | nra].
Qed.

(** X13. When both arguments are positive and the discriminant is not
    negative, the returned sides are those of a real rectangle with exactly
    the given area and perimeter: width x length is the area, twice their sum
    is the perimeter, and 0 < width <= length. *)
Theorem backsolve_solves_rectangle (area perimeter : R) (width length : option R) :
  area > 0 -> perimeter > 0 -> (perimeter / 2) ^ 2 - 4 * area >= 0 ->
  let r := addRoom_dimensions (Some area) (Some perimeter) width length in
  effectiveWidth r * effectiveLength r = area /\
  2 * (effectiveWidth r + effectiveLength r) = perimeter /\
  0 < effectiveWidth r <= effectiveLength r.
Proof.
  intros Ha Hp HD r. unfold r.
  rewrite (EstimateFacts.dimensions_quadratic area perimeter width length Ha Hp HD).
  cbn [effectiveWidth effectiveLength].
  assert (Hs : perimeter / 2 > 0) by lra.
  pose proof (smaller_root_positive area (perimeter / 2) Ha Hs HD) as Hlt.
  remember (perimeter / 2) as s eqn:Es.
  remember (s ^ 2 - 4 * area) as D eqn:ED.
  assert (Hsq : sqrt D * sqrt D = D) by (apply sqrt_sqrt; lra).
  assert (Hpos : 0 <= sqrt D) by apply sqrt_pos.
  split; [|split; [lra | lra]].
  replace ((s - sqrt D) / 2 * ((s + sqrt D) / 2))
    with ((s * s - sqrt D * sqrt D) / 4) by field.
  rewrite Hsq, ED. field.
Qed.

Lemma backsolve_solves_rectangle_witness :
  12 > 0 /\ 14 > 0 /\ (14 / 2) ^ 2 - 4 * 12 >= 0 /\
  effectiveWidth (addRoom_dimensions (Some 12) (Some 14) None None)
  * effectiveLength (addRoom_dimensions (Some 12) (Some 14) None None) = 12.
Proof.
  assert (Ha : 12 > 0) by lra. assert (Hp : 14 > 0) by lra.
  assert (HD : (14 / 2) ^ 2 - 4 * 12 >= 0) by lra.
  split; [exact Ha|]. split; [exact Hp|]. split; [exact HD|].
  exact (proj1 (backsolve_solves_rectangle 12 14 None None Ha Hp HD)).
Defined.

(** X14. When the area is positive and the discriminant is negative (no
    rectangle has that area and perimeter), the returned square keeps the
    area exactly, and its perimeter 4 sqrt(area) is strictly larger than the
    given one. *)
Theorem backsolve_fallback_keeps_area (area perimeter : R) (width length : option R) :
  area > 0 -> perimeter >= 0 -> (perimeter / 2) ^ 2 - 4 * area < 0 ->
  let r := addRoom_dimensions (Some area) (Some perimeter) width length in
  effectiveWidth r = effectiveLength r /\
  effectiveWidth r * effectiveLength r = area /\
  perimeter < 2 * (effectiveWidth r + effectiveLength r).
Proof.
  intros Ha Hp HD r. unfold r.
  rewrite (EstimateFacts.dimensions_square area perimeter width length Ha Hp HD).
  cbn [effectiveWidth effectiveLength].
  assert (Hsq : sqrt area * sqrt area = area) by (apply sqrt_sqrt; lra).
  assert (Hpos : 0 < sqrt area) by (apply sqrt_lt_R0; lra).
  split; [reflexivity|]. split; [exact Hsq|].
  assert (Hhalf : perimeter / 2 < 2 * sqrt area).
  { destruct (Rlt_le_dec (perimeter / 2) (2 * sqrt area)) as [H|H]; [exact H|].
    exfalso. assert ((2 * sqrt area) * (2 * sqrt area) <= (perimeter / 2) * (perimeter / 2))
      by (apply Rmult_le_compat; lra).
    nra. }
  lra.
Qed.

Lemma backsolve_fallback_keeps_area_witness :
  50 > 0 /\ 20 >= 0 /\ (20 / 2) ^ 2 - 4 * 50 < 0 /\
  effectiveWidth (addRoom_dimensions (Some 50) (Some 20) None None)
  * effectiveLength (addRoom_dimensions (Some 50) (Some 20) None None) = 50.
Proof.
  assert (Ha : 50 > 0) by lra. assert (Hp : 20 >= 0) by lra.
  assert (HD : (20 / 2) ^ 2 - 4 * 50 < 0) by lra.
  split; [exact Ha|]. split; [exact Hp|]. split; [exact HD|].
  exact (proj1 (proj2 (backsolve_fallback_keeps_area 50 20 None None Ha Hp HD))).
Defined.

(** X15. The back-solve inverts a rectangle: from the exact area w h and
    perimeter 2 (w + h) of a rectangle with positive sides it returns the
    smaller side as width and the larger as length. *)
Theorem backsolve_inverts_rectangle (w h : R) (width length : option R) :
  w > 0 -> h > 0 ->
  addRoom_dimensions (Some (w * h)) (Some (2 * (w + h))) width length =
  mkDimensions (Rmin w h) (Rmax w h).
Proof.
  intros Hw Hh.
  assert (Ha : w * h > 0) by nra.
  assert (Hp : 2 * (w + h) > 0) by lra.
  assert (ED : (2 * (w + h) / 2) ^ 2 - 4 * (w * h) = (w - h) * (w - h)) by (field).
  assert (HD : (2 * (w + h) / 2) ^ 2 - 4 * (w * h) >= 0).
  { rewrite ED. pose proof (Rle_0_sqr (w - h)) as Hsqr. unfold Rsqr in Hsqr. lra. }
  rewrite (EstimateFacts.dimensions_quadratic _ _ width length Ha Hp HD).
  rewrite ED. replace (2 * (w + h) / 2) with (w + h) by field.
  destruct (Rle_lt_dec w h) as [Hle|Hlt].
  - replace ((w - h) * (w - h)) with ((h - w) * (h - w)) by ring.
    rewrite sqrt_square by lra.
    rewrite Rmin_left, Rmax_right by lra. f_equal; lra.
  - rewrite sqrt_square by lra.
    rewrite Rmin_right, Rmax_left by lra. f_equal; lra.
Qed.

Lemma backsolve_inverts_rectangle_witness :
  4 > 0 /\ 3 > 0 /\
  addRoom_dimensions (Some (4 * 3)) (Some (2 * (4 + 3))) None None =
  mkDimensions (Rmin 4 3) (Rmax 4 3).
Proof.
  assert (H4 : 4 > 0) by lra. assert (H3 : 3 > 0) by lra.
  split; [exact H4|]. split; [exact H3|].
  exact (backsolve_inverts_rectangle 4 3 None None H4 H3).
Defined.

(** A scan of positive area always yields two positive dimensions. *)
Lemma dimensions_positive (area perimeter : R) (width length : option R) :
  area > 0 -> perimeter >= 0 ->
  0 < effectiveWidth (addRoom_dimensions (Some area) (Some perimeter) width length) /\
  0 < effectiveLength (addRoom_dimensions (Some area) (Some perimeter) width length).
Proof.
  intros Ha Hp.
  destruct (Rge_dec ((perimeter / 2) ^ 2 - 4 * area) 0) as [HD|HD].
  - assert (Hpos : perimeter > 0).
    { destruct (Rle_lt_dec perimeter 0) as [Hle|Hlt]; [|lra].
      exfalso. assert (perimeter = 0) by lra. subst perimeter. lra. }
    rewrite (EstimateFacts.dimensions_quadratic area perimeter width length
               Ha Hpos HD).
    assert (Hs : perimeter / 2 > 0) by lra.
    pose proof (smaller_root_positive area (perimeter / 2) Ha Hs HD) as Hlt.
    pose proof (sqrt_pos ((perimeter / 2) ^ 2 - 4 * area)) as Hsq.
    cbn [effectiveWidth effectiveLength]. split; lra.
  - rewrite (EstimateFacts.dimensions_square area perimeter width length Ha Hp)
      by lra.
    simpl. split; apply sqrt_lt_R0; lra.
Qed.

End BackSolveFacts.

(** ** Objects used as maps *)

Module JSObjectFacts.
Import Builder.
Import Builder.JSObject.

Lemma lookup_assign_same {V : Type} (k : string) (v : V) (o : t V) :
  lookup k (assign k v o) = Some v.
Proof.
  induction o as [|[k' v'] o IH]; simpl.
  - rewrite String.eqb_refl. reflexivity.
  - destruct (String.eqb k' k) eqn:E; simpl.
    + rewrite String.eqb_refl. reflexivity.
    + rewrite E. exact IH.
Qed.

Lemma lookup_assign_other {V : Type} (k k0 : string) (v : V) (o : t V) :
  k0 <> k -> lookup k0 (assign k v o) = lookup k0 o.
Proof.
  intros Hne. induction o as [|[k' v'] o IH]; simpl.
  - destruct (String.eqb_spec k k0); [congruence | reflexivity].
  - destruct (String.eqb_spec k' k) as [->|Hk]; simpl.
    + destruct (String.eqb_spec k k0); [congruence | reflexivity].
    + destruct (String.eqb k' k0); [reflexivity | exact IH].
Qed.

Lemma lookup_delete_same {V : Type} (k : string) (o : t V) :
  lookup k (delete k o) = None.
Proof.
  unfold delete. induction o as [|[k' v'] o IH]; simpl; [reflexivity|].
  destruct (String.eqb k' k) eqn:E; simpl; [exact IH|].
  rewrite E. exact IH.
Qed.

Lemma lookup_delete_other {V : Type} (k k0 : string) (o : t V) :
  k0 <> k -> lookup k0 (delete k o) = lookup k0 o.
Proof.
  intros Hne. unfold delete. induction o as [|[k' v'] o IH]; simpl; [reflexivity|].
  destruct (String.eqb_spec k' k) as [->|Hk]; simpl.
  - destruct (String.eqb_spec k k0); [congruence | exact IH].
  - destruct (String.eqb k' k0); [reflexivity | exact IH].
Qed.

Lemma getOrEmpty_assign_same {V : Type} (k : string) (v : list V) (o : t (list V)) :
  getOrEmpty k (assign k v o) = v.
Proof. unfold getOrEmpty. rewrite lookup_assign_same. reflexivity. Qed.

Lemma getOrEmpty_assign_other {V : Type} (k k0 : string) (v : list V) (o : t (list V)) :
  k0 <> k -> getOrEmpty k0 (assign k v o) = getOrEmpty k0 o.
Proof. intros H. unfold getOrEmpty. rewrite lookup_assign_other by exact H. reflexivity. Qed.

End JSObjectFacts.

(** ** Adding rooms *)

Module AddRoomFacts.
Import Builder.
Import Stdlib.Strings.String.StringSyntax.
Local Open Scope string_scope.
Local Open Scope list_scope.

Lemma isZero_false (a : R) : a <> 0 -> isZero a = false.
Proof. intros H. unfold isZero. destruct (Req_dec_T a 0); [contradiction | reflexivity]. Qed.

Lemma isZero_true (a : R) : a = 0 -> isZero a = true.
Proof. intros H. unfold isZero. destruct (Req_dec_T a 0); [reflexivity | contradiction]. Qed.

(** X16. A completed scan with a positive area (and any non-negative
    perimeter) is never rejected: it closes the AR view and appends exactly
    one room after the existing ones, with the back-solved dimensions rounded
    to two decimals, the current waste percentage, and the typed room name
    or, when none is typed, "AR Scan n" with n the new number of rooms; the
    name and dimension fields are emptied and the selected products are
    untouched. *)
Theorem scan_with_positive_area_adds_room
    (area perimeter : R) (newId : string) (st : BuilderState.t) :
  area > 0 -> perimeter >= 0 ->
  let dims :=
    EstimateBuilder.addRoom_dimensions (Some area) (Some perimeter)
      (BuilderState.width st) (BuilderState.length st) in
  handleARComplete area perimeter newId st =
  (BuilderState.mk (BuilderState.selectedClientId st)
     (BuilderState.rooms st ++
      [Room.mk newId
         (if nonEmpty (BuilderState.roomName st) then BuilderState.roomName st
          else String.append "AR Scan " (show (length (BuilderState.rooms st) + 1)))
         (ARMeasurement.toFixed2 (EstimateBuilder.effectiveWidth dims))
         (ARMeasurement.toFixed2 (EstimateBuilder.effectiveLength dims))
         (BuilderState.waste st)])
     (BuilderState.roomItems st) "" None None (BuilderState.waste st) false,
   None).
Proof.
  intros Ha Hp dims.
  destruct (BackSolveFacts.dimensions_positive area perimeter
              (BuilderState.width st) (BuilderState.length st) Ha Hp) as [Hw Hl].
  fold dims in Hw, Hl.
  unfold handleARComplete, addRoom. fold dims.
  rewrite (isZero_false (EstimateBuilder.effectiveWidth dims)) by lra.
  rewrite (isZero_false (EstimateBuilder.effectiveLength dims)) by lra.
  rewrite (EstimateFacts.truthy_pos area Ha).
  reflexivity.
Qed.

Lemma scan_with_positive_area_adds_room_witness :
  12 > 0 /\ 14 >= 0 /\
  snd (handleARComplete 12 14 "r1" initialBuilder) = None.
Proof.
  assert (Ha : 12 > 0) by lra. assert (Hp : 14 >= 0) by lra.
  split; [exact Ha|]. split; [exact Hp|].
  rewrite (scan_with_positive_area_adds_room 12 14 "r1" initialBuilder Ha Hp).
  reflexivity.
Defined.

Lemma manual_dimensions (width length : option R) :
  EstimateBuilder.addRoom_dimensions None None width length =
  EstimateBuilder.mkDimensions (JS.orZero width) (JS.orZero length).
Proof. reflexivity. Qed.

Lemma zero_area_dimensions (perimeter width length : option R) :
  EstimateBuilder.addRoom_dimensions (Some 0) perimeter width length =
  EstimateBuilder.mkDimensions (JS.orZero width) (JS.orZero length).
Proof.
  unfold EstimateBuilder.addRoom_dimensions.
  rewrite EstimateFacts.truthy_zero. reflexivity.
Qed.

(** X17. A manual add is rejected, with the alert and with the state left
    exactly as it was, whenever the width field or the length field is empty,
    not a number, or zero. *)
Theorem manual_add_rejects_missing_dimension
    (nameOverride : option string) (newId : string) (st : BuilderState.t) :
  JS.orZero (BuilderState.width st) = 0 \/ JS.orZero (BuilderState.length st) = 0 ->
  addRoom None None nameOverride newId st =
  (st, Some "Please enter valid dimensions.").
Proof.
  intros H. unfold addRoom. rewrite manual_dimensions.
  cbn [EstimateBuilder.effectiveWidth EstimateBuilder.effectiveLength].
  destruct H as [H|H].
  - rewrite (isZero_true _ H). reflexivity.
  - rewrite (isZero_true _ H), orb_true_r. reflexivity.
Qed.

Lemma manual_add_rejects_missing_dimension_witness :
  (JS.orZero (BuilderState.width initialBuilder) = 0 \/
   JS.orZero (BuilderState.length initialBuilder) = 0) /\
  addRoom None None None "r1" initialBuilder =
  (initialBuilder, Some "Please enter valid dimensions.").
Proof.
  assert (H : JS.orZero (BuilderState.width initialBuilder) = 0 \/
              JS.orZero (BuilderState.length initialBuilder) = 0)
    by (left; reflexivity).
  split; [exact H|].
  exact (manual_add_rejects_missing_dimension None "r1" initialBuilder H).
Defined.

(** X18. A scan whose area is 0 is handled exactly as a manual add: the
    perimeter is ignored, the room is named and sized from the form fields,
    and with empty fields nothing is added. *)
Theorem zero_area_scan_is_manual_add
    (perimeter : option R) (nameOverride : option string) (newId : string)
    (st : BuilderState.t) :
  addRoom (Some 0) perimeter nameOverride newId st =
  addRoom None None nameOverride newId st /\
  (BuilderState.width st = None ->
   addRoom (Some 0) perimeter nameOverride newId st =
   (st, Some "Please enter valid dimensions.")).
Proof.
  assert (E : addRoom (Some 0) perimeter nameOverride newId st =
              addRoom None None nameOverride newId st).
  { unfold addRoom. rewrite zero_area_dimensions, manual_dimensions.
    rewrite EstimateFacts.truthy_zero. reflexivity. }
  split; [exact E|].
  intros Hw. rewrite E.
  unfold addRoom. rewrite manual_dimensions, Hw.
  cbn [EstimateBuilder.effectiveWidth JS.orZero].
  rewrite (isZero_true 0 eq_refl). reflexivity.
Qed.

End AddRoomFacts.

(** ** Selected products, quantities and line items *)

Module RoomItemsFacts.
Import Builder.
Import Stdlib.Strings.String.StringSyntax.
Local Open Scope string_scope.
Local Open Scope list_scope.

Lemma filter_none_selected (productId : string) (current : list RoomItem.t) :
  existsb (fun item => String.eqb (RoomItem.productId item) productId) current = false ->
  filter (fun item => negb (String.eqb (RoomItem.productId item) productId)) current
  = current.
Proof.
  induction current as [|item current IH]; simpl; [reflexivity|].
  intros H. apply orb_false_elim in H. destruct H as [H1 H2].
  rewrite H1. simpl. f_equal. apply IH. exact H2.
Qed.

Section Constants.

Variables calculateArea calculatePerimeter : R -> R -> R.

(** X19. Selecting a product that is not yet selected in an existing room
    appends it to that room's items with the calculated quantity, and
    selecting it again removes it: after the two clicks every room has the
    items it had, and the rooms are untouched. *)
Theorem toggle_twice_restores (products : list Product.t)
    (roomId productId : string) (st : BuilderState.t)
    (room : Room.t) (product : Product.t) :
  find (fun r => String.eqb (Room.id r) roomId) (BuilderState.rooms st) = Some room ->
  find (fun p => String.eqb (Product.id p) productId) products = Some product ->
  existsb (fun item => String.eqb (RoomItem.productId item) productId)
    (JSObject.getOrEmpty roomId (BuilderState.roomItems st)) = false ->
  let st1 := toggleProductInRoom calculateArea calculatePerimeter products roomId productId st in
  let st2 := toggleProductInRoom calculateArea calculatePerimeter products roomId productId st1 in
  JSObject.getOrEmpty roomId (BuilderState.roomItems st1) =
    JSObject.getOrEmpty roomId (BuilderState.roomItems st)
    ++ [RoomItem.mk productId (getCalculatedQuantity calculateArea calculatePerimeter room product)] /\
  (forall k, JSObject.getOrEmpty k (BuilderState.roomItems st2) =
             JSObject.getOrEmpty k (BuilderState.roomItems st)) /\
  BuilderState.rooms st2 = BuilderState.rooms st.
Proof.
  intros Hroom Hproduct Hnot st1 st2.
  assert (E1 : st1 =
    with_roomItems
      (JSObject.assign roomId
         (JSObject.getOrEmpty roomId (BuilderState.roomItems st)
          ++ [RoomItem.mk productId (getCalculatedQuantity calculateArea calculatePerimeter room product)])
         (BuilderState.roomItems st)) st).
  { unfold st1, toggleProductInRoom. rewrite Hroom, Hproduct, Hnot.
    reflexivity. }
  assert (Hcur1 : JSObject.getOrEmpty roomId (BuilderState.roomItems st1) =
                  JSObject.getOrEmpty roomId (BuilderState.roomItems st)
                  ++ [RoomItem.mk productId (getCalculatedQuantity calculateArea calculatePerimeter room product)]).
  { rewrite E1. simpl. apply JSObjectFacts.getOrEmpty_assign_same. }
  assert (E2 : st2 =
    with_roomItems
      (JSObject.assign roomId
         (JSObject.getOrEmpty roomId (BuilderState.roomItems st))
         (BuilderState.roomItems st1)) st1).
  { unfold st2, toggleProductInRoom.
    replace (BuilderState.rooms st1) with (BuilderState.rooms st)
      by (rewrite E1; reflexivity).
    rewrite Hroom, Hproduct, Hcur1.
    rewrite existsb_app. simpl. rewrite String.eqb_refl, orb_true_r.
    rewrite filter_app. simpl. rewrite String.eqb_refl. simpl.
    rewrite filter_none_selected by exact Hnot. rewrite app_nil_r.
    reflexivity. }
  split; [exact Hcur1|]. split.
  - intros k. rewrite E2. simpl.
    destruct (String.eqb_spec k roomId) as [->|Hk].
    + apply JSObjectFacts.getOrEmpty_assign_same.
    + rewrite JSObjectFacts.getOrEmpty_assign_other by exact Hk.
      rewrite E1. simpl. apply JSObjectFacts.getOrEmpty_assign_other. exact Hk.
  - rewrite E2, E1. reflexivity.
Qed.

(** X20. Toggling a product does nothing at all when the room is not among
    the rooms or the product is not in the catalogue. *)
Theorem toggle_unknown_is_noop (products : list Product.t)
    (roomId productId : string) (st : BuilderState.t) :
  find (fun r => String.eqb (Room.id r) roomId) (BuilderState.rooms st) = None \/
  find (fun p => String.eqb (Product.id p) productId) products = None ->
  toggleProductInRoom calculateArea calculatePerimeter products roomId productId st = st.
Proof.
  intros [H|H]; unfold toggleProductInRoom; rewrite H.
  - reflexivity.
  - destruct (find _ (BuilderState.rooms st)); reflexivity.
Qed.

End Constants.

Lemma toggle_twice_restores_witness :
  find (fun r => String.eqb (Room.id r) "r1") (BuilderState.rooms sampleBuilder)
    = Some sampleRoom /\
  find (fun p => String.eqb (Product.id p) "p1") [sampleProduct] = Some sampleProduct /\
  existsb (fun item => String.eqb (RoomItem.productId item) "p1")
    (JSObject.getOrEmpty "r1" (BuilderState.roomItems sampleBuilder)) = false /\
  BuilderState.rooms
    (toggleProductInRoom Rmult (fun w l => 2 * (w + l)) [sampleProduct] "r1" "p1"
       (toggleProductInRoom Rmult (fun w l => 2 * (w + l)) [sampleProduct] "r1" "p1"
          sampleBuilder))
  = BuilderState.rooms sampleBuilder.
Proof.
  split; [reflexivity|]. split; [reflexivity|]. split; [reflexivity|].
  exact (proj2 (proj2 (toggle_twice_restores Rmult (fun w l => 2 * (w + l))
                         [sampleProduct] "r1" "p1" sampleBuilder
                         sampleRoom sampleProduct eq_refl eq_refl eq_refl))).
Defined.

Lemma toggle_unknown_is_noop_witness :
  (find (fun r => String.eqb (Room.id r) "r9") (BuilderState.rooms sampleBuilder) = None \/
   find (fun p => String.eqb (Product.id p) "p1") [sampleProduct] = None) /\
  toggleProductInRoom Rmult (fun w l => 2 * (w + l)) [sampleProduct] "r9" "p1"
    sampleBuilder = sampleBuilder.
Proof.
  assert (H : find (fun r => String.eqb (Room.id r) "r9")
                (BuilderState.rooms sampleBuilder) = None \/
              find (fun p => String.eqb (Product.id p) "p1") [sampleProduct] = None)
    by (left; reflexivity).
  split; [exact H|].
  exact (toggle_unknown_is_noop Rmult (fun w l => 2 * (w + l)) [sampleProduct]
           "r9" "p1" sampleBuilder H).
Defined.

(** X21. Changing the quantity of a product in a room keeps that room's
    selection and its order, gives the new quantity to every item of that
    product, keeps every other item as it was, and touches neither the
    rooms nor the items of any other room. *)
Theorem updateItemQuantity_sets_quantity
    (roomId productId : string) (newQty : R) (st : BuilderState.t) :
  let before := JSObject.getOrEmpty roomId (BuilderState.roomItems st) in
  let st' := updateItemQuantity roomId productId newQty st in
  let after := JSObject.getOrEmpty roomId (BuilderState.roomItems st') in
  map RoomItem.productId after = map RoomItem.productId before /\
  (forall n item, nth_error before n = Some item ->
     nth_error after n =
     Some (if String.eqb (RoomItem.productId item) productId
           then RoomItem.mk (RoomItem.productId item) newQty else item)) /\
  (forall k, k <> roomId ->
     JSObject.getOrEmpty k (BuilderState.roomItems st') =
     JSObject.getOrEmpty k (BuilderState.roomItems st)) /\
  BuilderState.rooms st' = BuilderState.rooms st.
Proof.
  intros before st' after.
  assert (E : after =
    map (fun item => if String.eqb (RoomItem.productId item) productId
                     then RoomItem.mk (RoomItem.productId item) newQty else item)
        before).
  { unfold after, st', updateItemQuantity. simpl.
    apply JSObjectFacts.getOrEmpty_assign_same. }
  split; [|split; [|split]].
  - rewrite E, map_map. apply map_ext. intros item.
    destruct (String.eqb (RoomItem.productId item) productId); reflexivity.
  - intros n item Hn. rewrite E, nth_error_map, Hn. reflexivity.
  - intros k Hk. unfold st', updateItemQuantity. simpl.
    apply JSObjectFacts.getOrEmpty_assign_other. exact Hk.
  - reflexivity.
Qed.

(** *** Line items *)

Section LineItems.

Variables (idSupply : nat -> string) (products : list Product.t).

(** The inner loop of [lineItems], over the items of one room. *)
Let pushItems (roomId : string) (ris : list RoomItem.t) (items : list LineItem.t)
    : list LineItem.t :=
  fold_left (fun items ri =>
    match find (fun p => String.eqb (Product.id p) (RoomItem.productId ri)) products with
    | None => items
    | Some product =>
        items ++
        [LineItem.mk (idSupply (length items)) roomId
           (RoomItem.productId ri) (RoomItem.quantity ri)
           (Product.unitPrice product)
           (RoomItem.quantity ri * Product.unitPrice product)]
    end) ris items.

Lemma pushItems_forall (P : LineItem.t -> Prop) (roomId : string)
    (ris : list RoomItem.t) :
  (forall ri product n,
     In ri ris ->
     find (fun p => String.eqb (Product.id p) (RoomItem.productId ri)) products
       = Some product ->
     P (LineItem.mk (idSupply n) roomId (RoomItem.productId ri) (RoomItem.quantity ri)
          (Product.unitPrice product)
          (RoomItem.quantity ri * Product.unitPrice product))) ->
  forall items, Forall P items -> Forall P (pushItems roomId ris items).
Proof.
  unfold pushItems. induction ris as [|ri ris IH]; intros Hnew items Hitems;
    [exact Hitems|].
  simpl. apply IH; [intros; eapply Hnew; [right|]; eassumption|].
  destruct (find _ products) as [product|] eqn:Hfind; [|exact Hitems].
  apply Forall_app. split; [exact Hitems|].
  constructor; [|constructor]. apply Hnew; [left; reflexivity | exact Hfind].
Qed.

Lemma pushItems_subtotals (roomId : string) (ris : list RoomItem.t) :
  forall items,
    Spec.sumR (map LineItem.subtotal (pushItems roomId ris items)) =
    Spec.sumR (map LineItem.subtotal items)
    + Spec.sumR (map (itemAmount products) ris).
Proof.
  unfold pushItems. induction ris as [|ri ris IH]; intros items; simpl; [ring|].
  rewrite IH. unfold itemAmount.
  destruct (find _ products) as [product|]; [|ring].
  rewrite map_app, GeometryFacts.sumR_app. simpl. ring.
Qed.

Lemma lineItems_forall (P : LineItem.t -> Prop) (st : BuilderState.t) :
  (forall room ri product n,
     In room (BuilderState.rooms st) ->
     In ri (JSObject.getOrEmpty (Room.id room) (BuilderState.roomItems st)) ->
     find (fun p => String.eqb (Product.id p) (RoomItem.productId ri)) products
       = Some product ->
     P (LineItem.mk (idSupply n) (Room.id room) (RoomItem.productId ri)
          (RoomItem.quantity ri) (Product.unitPrice product)
          (RoomItem.quantity ri * Product.unitPrice product))) ->
  Forall P (lineItems idSupply products st).
Proof.
  intros Hnew. unfold lineItems.
  assert (G : forall rooms items,
             incl rooms (BuilderState.rooms st) -> Forall P items ->
             Forall P
               (fold_left (fun items room =>
                  pushItems (Room.id room)
                    (JSObject.getOrEmpty (Room.id room) (BuilderState.roomItems st))
                    items) rooms items)).
  { induction rooms as [|room rooms IH]; intros items Hincl Hitems; [exact Hitems|].
    simpl. apply IH; [intros r Hr; apply Hincl; right; exact Hr|].
    apply pushItems_forall; [|exact Hitems].
    intros ri product n Hri Hfind.
    apply Hnew; [apply Hincl; left; reflexivity | exact Hri | exact Hfind]. }
  apply (G (BuilderState.rooms st) []); [apply incl_refl | constructor].
Qed.

Lemma total_is_sum (items : list LineItem.t) :
  total items = Spec.sumR (map LineItem.subtotal items).
Proof.
  unfold total.
  assert (G : forall acc, fold_left (fun a c => a + LineItem.subtotal c) items acc
                          = acc + Spec.sumR (map LineItem.subtotal items)).
  { induction items as [|i items IH]; intros acc; simpl; [ring|].
    rewrite IH. ring. }
  rewrite G. ring.
Qed.

Lemma rooms_subtotals (st : BuilderState.t) (rooms : list Room.t) :
  forall items,
    Spec.sumR (map LineItem.subtotal
      (fold_left (fun items room =>
         pushItems (Room.id room)
           (JSObject.getOrEmpty (Room.id room) (BuilderState.roomItems st)) items)
         rooms items)) =
    Spec.sumR (map LineItem.subtotal items) +
    Spec.sumR (flat_map (fun room =>
       map (itemAmount products)
         (JSObject.getOrEmpty (Room.id room) (BuilderState.roomItems st))) rooms).
Proof.
  induction rooms as [|room rooms IH]; intros items; simpl; [ring|].
  rewrite IH, pushItems_subtotals, GeometryFacts.sumR_app. ring.
Qed.

(** X22. Every line item is backed by the state it is computed from: its
    room is one of the rooms, its product is in the catalogue, it is billed
    at the catalogue price with subtotal quantity x price, and its quantity
    is that of an item selected in that room.  The total is the sum, over the
    rooms and their selected items, of quantity x catalogue price, where a
    selected item whose product is not in the catalogue counts for nothing. *)
Theorem lineItems_backed_and_total (st : BuilderState.t) :
  Forall (backed products st) (lineItems idSupply products st) /\
  total (lineItems idSupply products st) = expectedTotal products st.
Proof.
  split.
  - apply lineItems_forall. intros room ri product n Hroom Hri Hfind.
    exists room, product. simpl.
    repeat split; try assumption.
    destruct ri; exact Hri.
  - rewrite total_is_sum. unfold lineItems, expectedTotal.
    etransitivity; [exact (rooms_subtotals st (BuilderState.rooms st) []) |].
    simpl. ring.
Qed.

(** X23. After removing a room, no room with that identifier is left while
    the other rooms keep their order, the items stored for it are gone and
    those of the other rooms are kept, and no line item refers to it. *)
Theorem removeRoom_removes_everything (id : string) (st : BuilderState.t) :
  let st' := removeRoom id st in
  BuilderState.rooms st' =
    filter (fun r => negb (String.eqb (Room.id r) id)) (BuilderState.rooms st) /\
  Forall (fun r => Room.id r <> id) (BuilderState.rooms st') /\
  JSObject.lookup id (BuilderState.roomItems st') = None /\
  (forall k, k <> id ->
     JSObject.lookup k (BuilderState.roomItems st') =
     JSObject.lookup k (BuilderState.roomItems st)) /\
  Forall (fun li => LineItem.roomId li <> id) (lineItems idSupply products st').
Proof.
  intros st'.
  assert (Hrooms : Forall (fun r => Room.id r <> id) (BuilderState.rooms st')).
  { apply Forall_forall. intros r Hr. unfold st', removeRoom in Hr. simpl in Hr.
    apply filter_In in Hr. destruct Hr as [_ Hr].
    apply negb_true_iff, String.eqb_neq in Hr. exact Hr. }
  split; [reflexivity|]. split; [exact Hrooms|]. split; [|split].
  - apply JSObjectFacts.lookup_delete_same.
  - intros k Hk. apply JSObjectFacts.lookup_delete_other. exact Hk.
  - apply lineItems_forall. intros room ri product n Hroom _ _. simpl.
    apply (proj1 (Forall_forall _ _) Hrooms room Hroom).
Qed.

End LineItems.

End RoomItemsFacts.

(** ** Grouping, editing and saving *)

Module EditSaveFacts.
Import Builder.
Import Stdlib.Strings.String.StringSyntax.
Local Open Scope string_scope.
Local Open Scope list_scope.

(** The grouping loop shared by [loadedRoomItems] and [productsByCategory]:
    each key ends up with the values of its elements, in their order. *)
Lemma grouped {A V : Type} (key : A -> string) (val : A -> V) (xs : list A) :
  forall (o : JSObject.t (list V)) (k : string),
    JSObject.getOrEmpty k
      (fold_left (fun o x =>
         JSObject.assign (key x) (JSObject.getOrEmpty (key x) o ++ [val x]) o) xs o)
    = JSObject.getOrEmpty k o
      ++ map val (filter (fun x => String.eqb (key x) k) xs).
Proof.
  induction xs as [|x xs IH]; intros o k; simpl.
  - rewrite app_nil_r. reflexivity.
  - rewrite IH. destruct (String.eqb_spec (key x) k) as [<-|Hk].
    + rewrite JSObjectFacts.getOrEmpty_assign_same. simpl.
      rewrite <- app_assoc. reflexivity.
    + rewrite JSObjectFacts.getOrEmpty_assign_other by congruence. reflexivity.
Qed.

(** X24. The product picker's groups: under the name of a category are
    exactly the catalogue's products of that category, in catalogue order. *)
Theorem productsByCategory_groups (products : list Product.t) (c : Category) :
  JSObject.getOrEmpty (categoryName c) (productsByCategory products) =
  filter (fun p => String.eqb (categoryName (Product.category p)) (categoryName c))
    products /\
  (forall p, In p (JSObject.getOrEmpty (categoryName c) (productsByCategory products))
             <-> In p products /\ Product.category p = c).
Proof.
  assert (E : JSObject.getOrEmpty (categoryName c) (productsByCategory products) =
    filter (fun p => String.eqb (categoryName (Product.category p)) (categoryName c))
      products).
  { unfold productsByCategory.
    rewrite (grouped (fun p => categoryName (Product.category p)) (fun p => p)).
    simpl. rewrite map_id. reflexivity. }
  split; [exact E|].
  intros p. rewrite E, filter_In. split; intros [Hin Hc]; split; try exact Hin.
  - apply String.eqb_eq in Hc.
    destruct (Product.category p), c; simpl in Hc; try reflexivity; discriminate.
  - rewrite Hc. apply String.eqb_refl.
Qed.

Section RoundTrip.

Variables (idSupply : nat -> string) (products : list Product.t).

Let toRoomItem (i : LineItem.t) : RoomItem.t :=
  RoomItem.mk (LineItem.productId i) (LineItem.quantity i).

Let pushItems (roomId : string) (ris : list RoomItem.t) (items : list LineItem.t)
    : list LineItem.t :=
  fold_left (fun items ri =>
    match find (fun p => String.eqb (Product.id p) (RoomItem.productId ri)) products with
    | None => items
    | Some product =>
        items ++
        [LineItem.mk (idSupply (length items)) roomId
           (RoomItem.productId ri) (RoomItem.quantity ri)
           (Product.unitPrice product)
           (RoomItem.quantity ri * Product.unitPrice product)]
    end) ris items.

Lemma pushItems_of_room (k roomId : string) (ris : list RoomItem.t) :
  forall items,
    map toRoomItem (filter (fun i => String.eqb (LineItem.roomId i) k)
                      (pushItems roomId ris items)) =
    map toRoomItem (filter (fun i => String.eqb (LineItem.roomId i) k) items)
    ++ (if String.eqb roomId k then filter (inCatalogue products) ris else []).
Proof.
  unfold pushItems. induction ris as [|ri ris IH]; intros items.
  - simpl. destruct (String.eqb roomId k); rewrite app_nil_r; reflexivity.
  - cbn [fold_left]. rewrite IH. cbn [filter]. unfold inCatalogue at 2.
    destruct (find _ products) as [product|].
    + rewrite filter_app, map_app. cbn [filter LineItem.roomId].
      destruct (String.eqb roomId k).
      * cbn [map]. unfold toRoomItem at 2. cbn [LineItem.productId LineItem.quantity].
        destruct ri as [pid q]. cbn [RoomItem.productId RoomItem.quantity].
        rewrite <- app_assoc. reflexivity.
      * cbn [map]. rewrite !app_nil_r. reflexivity.
    + reflexivity.
Qed.

Lemma none_of_room {B : Type} (f : Room.t -> list B) (k : string) (rooms : list Room.t) :
  ~ In k (map Room.id rooms) ->
  flat_map (fun r => if String.eqb (Room.id r) k then f r else []) rooms = [].
Proof.
  induction rooms as [|r rooms IH]; intros Hk; [reflexivity|].
  simpl in *. destruct (String.eqb_spec (Room.id r) k) as [E|E]; [tauto|].
  apply IH. tauto.
Qed.

Lemma only_that_room {B : Type} (f : Room.t -> list B) (room : Room.t)
    (rooms : list Room.t) :
  NoDup (map Room.id rooms) -> In room rooms ->
  flat_map (fun r => if String.eqb (Room.id r) (Room.id room) then f r else []) rooms
  = f room.
Proof.
  induction rooms as [|r rooms IH]; intros Hnd Hin; [contradiction|].
  simpl in Hnd. inversion Hnd as [|? ? Hnotin Hnd']; subst.
  simpl. destruct Hin as [->|Hin].
  - rewrite String.eqb_refl, none_of_room by exact Hnotin. apply app_nil_r.
  - destruct (String.eqb_spec (Room.id r) (Room.id room)) as [E|E].
    + exfalso. apply Hnotin. rewrite E. apply in_map. exact Hin.
    + apply IH; assumption.
Qed.

Lemma lineItems_of_room (k : string) (st : BuilderState.t) :
  map toRoomItem (filter (fun i => String.eqb (LineItem.roomId i) k)
                    (lineItems idSupply products st)) =
  flat_map (fun r =>
    if String.eqb (Room.id r) k
    then filter (inCatalogue products)
           (JSObject.getOrEmpty (Room.id r) (BuilderState.roomItems st))
    else []) (BuilderState.rooms st).
Proof.
  unfold lineItems.
  assert (G : forall rooms items,
    map toRoomItem (filter (fun i => String.eqb (LineItem.roomId i) k)
      (fold_left (fun items room =>
         pushItems (Room.id room)
           (JSObject.getOrEmpty (Room.id room) (BuilderState.roomItems st)) items)
         rooms items)) =
    map toRoomItem (filter (fun i => String.eqb (LineItem.roomId i) k) items) ++
    flat_map (fun r =>
      if String.eqb (Room.id r) k
      then filter (inCatalogue products)
             (JSObject.getOrEmpty (Room.id r) (BuilderState.roomItems st))
      else []) rooms).
  { induction rooms as [|room rooms IH]; intros items; simpl.
    - rewrite app_nil_r. reflexivity.
    - rewrite IH, pushItems_of_room, <- app_assoc. reflexivity. }
  exact (G (BuilderState.rooms st) []).
Qed.

(** X25. Saving and editing round trip: when the rooms have distinct
    identifiers, rebuilding the selection from the saved line items gives
    each room the items it had, in order and with their quantities, except
    those whose product is not in the catalogue (which produced no line
    item); when every selected product is in the catalogue the room's items
    are restored exactly. *)
Theorem loaded_items_restore_selection (st : BuilderState.t) (room : Room.t) :
  NoDup (map Room.id (BuilderState.rooms st)) ->
  In room (BuilderState.rooms st) ->
  let before := JSObject.getOrEmpty (Room.id room) (BuilderState.roomItems st) in
  let after :=
    JSObject.getOrEmpty (Room.id room)
      (loadedRoomItems (lineItems idSupply products st)) in
  after = filter (inCatalogue products) before /\
  (Forall (fun ri => inCatalogue products ri = true) before -> after = before).
Proof.
  intros Hnd Hin before after.
  assert (E : after = filter (inCatalogue products) before).
  { unfold after, loadedRoomItems.
    rewrite (grouped LineItem.roomId toRoomItem). simpl.
    rewrite lineItems_of_room.
    apply (only_that_room
             (fun r => filter (inCatalogue products)
                         (JSObject.getOrEmpty (Room.id r) (BuilderState.roomItems st)))
             room (BuilderState.rooms st) Hnd Hin). }
  split; [exact E|].
  intros Hall. rewrite E. clear E.
  induction before as [|ri before IH]; [reflexivity|].
  inversion Hall as [|? ? Hri Hall']; subst. simpl. rewrite Hri. f_equal.
  apply IH. exact Hall'.
Qed.

End RoundTrip.

(** X25, an instance with selected items: the first room of
    [sampleSelection] gets back its catalogue item with its quantity, and not
    the item whose product is missing from the catalogue. *)
Lemma loaded_items_restore_selection_witness :
  NoDup (map Room.id (BuilderState.rooms sampleSelection)) /\
  In sampleRoom (BuilderState.rooms sampleSelection) /\
  JSObject.getOrEmpty (Room.id sampleRoom) (BuilderState.roomItems sampleSelection)
    = [RoomItem.mk "p1" 132; RoomItem.mk "p9" 3] /\
  filter (inCatalogue [sampleProduct])
    (JSObject.getOrEmpty (Room.id sampleRoom) (BuilderState.roomItems sampleSelection))
    = [RoomItem.mk "p1" 132] /\
  JSObject.getOrEmpty (Room.id sampleRoom)
    (loadedRoomItems (lineItems (fun _ => "x") [sampleProduct] sampleSelection))
  = filter (inCatalogue [sampleProduct])
      (JSObject.getOrEmpty (Room.id sampleRoom) (BuilderState.roomItems sampleSelection)).
Proof.
  assert (Hnd : NoDup (map Room.id (BuilderState.rooms sampleSelection))).
  { simpl. constructor; [intros [H|[]]; discriminate|].
    constructor; [intros [] | constructor]. }
  assert (Hin : In sampleRoom (BuilderState.rooms sampleSelection))
    by (left; reflexivity).
  split; [exact Hnd|]. split; [exact Hin|].
  split; [reflexivity|]. split; [reflexivity|].
  exact (proj1 (loaded_items_restore_selection (fun _ => "x") [sampleProduct]
                  sampleSelection sampleRoom Hnd Hin)).
Defined.

(** *** Saving *)

Lemma find_client_some_iff (clients : list Client.t) (id : string) :
  (exists c, find (fun c => String.eqb (Client.id c) id) clients = Some c) <->
  (exists c, In c clients /\ Client.id c = id).
Proof.
  split.
  - intros [c Hc]. apply find_some in Hc. destruct Hc as [Hin Heq].
    exists c. split; [exact Hin | apply String.eqb_eq; exact Heq].
  - intros [c [Hin Heq]].
    destruct (find (fun c => String.eqb (Client.id c) id) clients) as [c'|] eqn:E.
    + exists c'. reflexivity.
    + exfalso. apply (find_none _ _ E) in Hin.
      rewrite Heq, String.eqb_refl in Hin. discriminate.
Qed.

Lemma rooms_nonempty (st : BuilderState.t) :
  (length (BuilderState.rooms st) =? 0)%nat = false <-> BuilderState.rooms st <> [].
Proof.
  destruct (BuilderState.rooms st); simpl; split; intros H; congruence.
Qed.

(** The estimate that a save builds. *)
Lemma handleSave_savable (clients : list Client.t) (estimates : list Estimate.t)
    (editId : option string) (onUpdateGiven : bool) (nowDigits nowISO : string)
    (items : list LineItem.t) (amount : R) (st : BuilderState.t) :
  savable clients st ->
  let isEditing := match editId with Some e => nonEmpty e | None => false end in
  let editIdText := match editId with Some e => e | None => "" end in
  let estimate :=
    Estimate.mk
      (if isEditing then editIdText else String.append "EST-" nowDigits)
      (BuilderState.selectedClientId st) NEW (BuilderState.rooms st) items amount
      (if isEditing then
         orElse
           (match find (fun e => String.eqb (Estimate.id e) editIdText) estimates with
            | Some e => Some (Estimate.createdAt e)
            | None => None
            end) nowISO
       else nowISO) in
  handleSave clients estimates editId onUpdateGiven nowDigits nowISO items amount st =
  mkSaveEffects None
    (Some (if isEditing && onUpdateGiven then OnUpdate estimate else OnSave estimate))
    true.
Proof.
  intros (Hid & Hrooms & client & Hclient). cbv zeta.
  unfold handleSave. rewrite Hid. cbn [negb].
  rewrite (proj2 (rooms_nonempty st) Hrooms), Hclient.
  destruct (_ && onUpdateGiven); reflexivity.
Qed.

(** X26. [handleSave] calls [onSave] or [onUpdate], and navigates away,
    exactly when a customer is selected, there is at least one room, and the
    selected customer is in the list; otherwise it calls nothing and stays
    (with an alert unless only the customer is unknown). *)
Theorem handleSave_saves_iff_savable (clients : list Client.t)
    (estimates : list Estimate.t) (editId : option string) (onUpdateGiven : bool)
    (nowDigits nowISO : string) (items : list LineItem.t) (amount : R)
    (st : BuilderState.t) :
  let fx :=
    handleSave clients estimates editId onUpdateGiven nowDigits nowISO items amount st in
  (callback fx <> None <-> savable clients st) /\
  (navigated fx = true <-> savable clients st) /\
  (alert fx <> None -> callback fx = None /\ navigated fx = false).
Proof.
  intros fx.
  destruct (nonEmpty (BuilderState.selectedClientId st)) eqn:Hid.
  2: { assert (E : fx = mkSaveEffects (Some "Please select a Customer for this quote.")
                         None false)
         by (unfold fx, handleSave; rewrite Hid; reflexivity).
       rewrite E. simpl. unfold savable. rewrite Hid.
       repeat split; try tauto; try discriminate; intros [H _]; discriminate. }
  destruct (BuilderState.rooms st) as [|r rs] eqn:Hrooms.
  { assert (E : fx = mkSaveEffects
                       (Some "Please add at least one Zone/Room to the estimate.")
                       None false)
      by (unfold fx, handleSave; rewrite Hid, Hrooms; reflexivity).
    rewrite E. simpl. unfold savable. rewrite Hrooms.
    repeat split; try tauto; try discriminate; intros (_ & H & _); congruence. }
  destruct (find (fun c => String.eqb (Client.id c) (BuilderState.selectedClientId st))
              clients) as [client|] eqn:Hclient.
  - assert (Hs : savable clients st).
    { unfold savable. rewrite Hid, Hrooms.
      repeat split; [discriminate | exists client; exact Hclient]. }
    unfold fx. rewrite (handleSave_savable _ _ _ _ _ _ _ _ _ Hs). simpl.
    split; [split; [intros _; exact Hs | intros _; discriminate]|].
    split; [split; [intros _; exact Hs | reflexivity]|].
    intros Hx. exfalso. apply Hx. reflexivity.
  - assert (E : fx = mkSaveEffects None None false)
      by (unfold fx, handleSave; rewrite Hid, Hrooms, Hclient; reflexivity).
    rewrite E. simpl. unfold savable. rewrite Hclient.
    repeat split; try tauto; try discriminate;
      intros (_ & _ & c & H); discriminate.
Qed.

(** X27. Saving a new estimate (no [editId] in the address, or an empty
    one) from a savable form appends one estimate after the existing ones,
    which are untouched: its identifier is "EST-" followed by the clock
    digits, its status is New, and it carries the form's customer, rooms,
    line items, total and the current date. *)
Theorem save_new_appends (clients : list Client.t) (estimates : list Estimate.t)
    (editId : option string) (onUpdateGiven : bool) (nowDigits nowISO : string)
    (items : list LineItem.t) (amount : R) (st : BuilderState.t) :
  savable clients st ->
  editId = None \/ editId = Some "" ->
  applyCallback
    (callback (handleSave clients estimates editId onUpdateGiven nowDigits nowISO
                 items amount st)) estimates
  = estimates ++
    [Estimate.mk (String.append "EST-" nowDigits) (BuilderState.selectedClientId st)
       NEW (BuilderState.rooms st) items amount nowISO].
Proof.
  intros Hs Hnew. rewrite (handleSave_savable _ _ _ _ _ _ _ _ _ Hs).
  destruct Hnew as [-> | ->]; reflexivity.
Qed.

Lemma sampleBuilder_savable : savable [sampleClient] sampleBuilder.
Proof.
  unfold savable. simpl. repeat split; [discriminate|].
  exists sampleClient. reflexivity.
Qed.

Lemma save_new_appends_witness :
  savable [sampleClient] sampleBuilder /\
  (@None string = None \/ @None string = Some "") /\
  length (applyCallback
            (callback (handleSave [sampleClient] [sampleEstimate] None true
                         "123456" "2024-02-01T00:00:00.000Z" [] 0 sampleBuilder))
            [sampleEstimate]) = 2%nat.
Proof.
  assert (Hn : @None string = None \/ @None string = Some "") by (left; reflexivity).
  split; [exact sampleBuilder_savable|]. split; [exact Hn|].
  rewrite (save_new_appends [sampleClient] [sampleEstimate] None true
             "123456" "2024-02-01T00:00:00.000Z" [] 0 sampleBuilder
             sampleBuilder_savable Hn).
  reflexivity.
Defined.

(** [updateEstimate] keeps the identifiers, in order. *)
Lemma updateEstimate_ids (e : Estimate.t) (estimates : list Estimate.t) :
  map Estimate.id (updateEstimate e estimates) = map Estimate.id estimates.
Proof.
  unfold updateEstimate. rewrite map_map. apply map_ext. intros x.
  destruct (String.eqb_spec (Estimate.id x) (Estimate.id e)) as [E|E];
    [symmetry; exact E | reflexivity].
Qed.

Lemma updateEstimate_absent (e : Estimate.t) (estimates : list Estimate.t) :
  find (fun x => String.eqb (Estimate.id x) (Estimate.id e)) estimates = None ->
  updateEstimate e estimates = estimates.
Proof.
  intros Hnone. unfold updateEstimate.
  rewrite <- (map_id estimates) at 2. apply map_ext_in. intros x Hx.
  rewrite (find_none _ _ Hnone x Hx). reflexivity.
Qed.

Lemma updateEstimate_members (e x : Estimate.t) (estimates : list Estimate.t) :
  In x (updateEstimate e estimates) ->
  (Estimate.id x = Estimate.id e -> x = e) /\
  (Estimate.id x <> Estimate.id e -> In x estimates).
Proof.
  unfold updateEstimate. intros Hx. apply in_map_iff in Hx.
  destruct Hx as [y [Hy Hin]].
  destruct (String.eqb_spec (Estimate.id y) (Estimate.id e)) as [E|E]; subst x.
  - split; [reflexivity | intros H; congruence].
  - split; [intros H; congruence | intros _; exact Hin].
Qed.

(** X28. Saving an edit (a non-empty [editId], with [onUpdate] passed, as
    [App] does) from a savable form replaces the stored estimate in place:
    the list keeps its identifiers in their order; every stored estimate
    with that identifier becomes the new one, which has that identifier, the
    form's customer, rooms, line items and total, and the status New
    whatever the status was; the others are kept; the creation date of the
    edited estimate is kept when it is not empty; and when no stored
    estimate has that identifier the list is unchanged, so the edit is
    lost. *)
Theorem save_edit_replaces_in_place (clients : list Client.t)
    (estimates : list Estimate.t) (editId nowDigits nowISO : string)
    (items : list LineItem.t) (amount : R) (st : BuilderState.t) :
  savable clients st ->
  nonEmpty editId = true ->
  let created :=
    orElse
      (match find (fun e => String.eqb (Estimate.id e) editId) estimates with
       | Some e => Some (Estimate.createdAt e)
       | None => None
       end) nowISO in
  let edited :=
    Estimate.mk editId (BuilderState.selectedClientId st) NEW
      (BuilderState.rooms st) items amount created in
  let estimates' :=
    applyCallback
      (callback (handleSave clients estimates (Some editId) true nowDigits nowISO
                   items amount st)) estimates in
  map Estimate.id estimates' = map Estimate.id estimates /\
  (forall x, In x estimates' -> Estimate.id x = editId -> x = edited) /\
  (forall x, In x estimates' -> Estimate.id x <> editId -> In x estimates) /\
  (forall old,
     find (fun e => String.eqb (Estimate.id e) editId) estimates = Some old ->
     nonEmpty (Estimate.createdAt old) = true ->
     Estimate.createdAt edited = Estimate.createdAt old) /\
  (find (fun e => String.eqb (Estimate.id e) editId) estimates = None ->
   estimates' = estimates).
Proof.
  intros Hs Hedit created edited estimates'.
  assert (E : estimates' = updateEstimate edited estimates).
  { unfold estimates'. rewrite (handleSave_savable _ _ _ _ _ _ _ _ _ Hs).
    cbv zeta. rewrite Hedit. reflexivity. }
  rewrite E. split; [apply updateEstimate_ids|].
  split; [intros x Hx; apply (updateEstimate_members edited x estimates Hx)|].
  split; [intros x Hx; apply (updateEstimate_members edited x estimates Hx)|].
  split.
  - intros old Hold Hne. unfold edited, created. cbn [Estimate.createdAt].
    rewrite Hold. unfold orElse. rewrite Hne. reflexivity.
  - intros Hnone. apply updateEstimate_absent. exact Hnone.
Qed.

Lemma save_edit_replaces_in_place_witness :
  savable [sampleClient] sampleBuilder /\
  nonEmpty "EST-000001" = true /\
  map Estimate.id
    (applyCallback
       (callback (handleSave [sampleClient] [sampleEstimate] (Some "EST-000001") true
                    "123456" "2024-02-01T00:00:00.000Z" [] 0 sampleBuilder))
       [sampleEstimate])
  = map Estimate.id [sampleEstimate].
Proof.
  split; [exact sampleBuilder_savable|]. split; [reflexivity|].
  exact (proj1 (save_edit_replaces_in_place [sampleClient] [sampleEstimate]
                  "EST-000001" "123456" "2024-02-01T00:00:00.000Z" [] 0 sampleBuilder
                  sampleBuilder_savable eq_refl)).
Defined.

End EditSaveFacts.

(** ** The floor-plan preview *)

Module MiniMapFacts.
Import ARMeasurement.
Import MiniMap.

Lemma mathMin_le_start (xs : list R) : forall x, mathMin x xs <= x.
Proof.
  unfold mathMin. induction xs as [|y xs IH]; intros x; simpl; [lra|].
  pose proof (IH (Rmin x y)). pose proof (Rmin_l x y). lra.
Qed.

Lemma mathMin_le_each (xs : list R) : forall x y, In y xs -> mathMin x xs <= y.
Proof.
  unfold mathMin. induction xs as [|z xs IH]; intros x y Hy; [contradiction|].
  simpl. destruct Hy as [->|Hy].
  - pose proof (mathMin_le_start xs (Rmin x y)) as H. unfold mathMin in H.
    pose proof (Rmin_r x y). lra.
  - apply IH. exact Hy.
Qed.

Lemma mathMax_ge_start (xs : list R) : forall x, x <= mathMax x xs.
Proof.
  unfold mathMax. induction xs as [|y xs IH]; intros x; simpl; [lra|].
  pose proof (IH (Rmax x y)). pose proof (Rmax_l x y). lra.
Qed.

Lemma mathMax_ge_each (xs : list R) : forall x y, In y xs -> y <= mathMax x xs.
Proof.
  unfold mathMax. induction xs as [|z xs IH]; intros x y Hy; [contradiction|].
  simpl. destruct Hy as [->|Hy].
  - pose proof (mathMax_ge_start xs (Rmax x y)) as H. unfold mathMax in H.
    pose proof (Rmax_r x y). lra.
  - apply IH. exact Hy.
Qed.

(** One coordinate of [mapPoint]: a value between the extremes lands between
    15 and 85, whatever the extent along the other axis. *)
Lemma mapped_coordinate_in_box (v lo hi other : R) :
  lo <= v <= hi -> 0 < other ->
  let extent := orOne (hi - lo) in
  let scale := 70 / Rmax extent other in
  15 <= (v - lo) * scale + (100 - extent * scale) / 2 <= 85 /\
  15 <= (v - lo) * (70 / Rmax other extent) + (100 - extent * (70 / Rmax other extent)) / 2 <= 85.
Proof.
  intros Hv Hother extent scale.
  assert (Hext : 0 < extent /\ v - lo <= extent).
  { unfold extent, orOne. destruct (Req_dec_T (hi - lo) 0); lra. }
  destruct Hext as [Hext Hle].
  assert (Hmax : 0 < Rmax extent other /\ extent <= Rmax extent other).
  { pose proof (Rmax_l extent other). lra. }
  destruct Hmax as [Hmax Hemax].
  assert (Hinv : 0 < / Rmax extent other) by (apply Rinv_0_lt_compat; exact Hmax).
  assert (Hscale : 0 < scale /\ extent * scale <= 70).
  { unfold scale, Rdiv. split; [nra|].
    assert (extent * / Rmax extent other <= 1).
    { apply (Rmult_le_reg_r (Rmax extent other)); [exact Hmax|].
      rewrite Rmult_assoc, Rinv_l by lra. lra. }
    nra. }
  destruct Hscale as [Hscale Hes].
  assert (H1 : 0 <= (v - lo) * scale) by nra.
  assert (H2 : (v - lo) * scale <= extent * scale) by nra.
  rewrite (Rmax_comm other extent). fold scale.
  split; lra.
Qed.

Lemma orOne_positive (lo hi : R) : lo <= hi -> 0 < orOne (hi - lo).
Proof. intros H. unfold orOne. destruct (Req_dec_T (hi - lo) 0); lra. Qed.

(** X29. The floor-plan preview draws nothing only when there is no point
    to draw; otherwise it draws one mapped point per preview point, and
    every mapped point lies inside the 100 x 100 view box with a margin of
    15 on each side. *)
Theorem miniMap_points_stay_in_box (s : State) (mappedCursor : option Point) :
  (renderMiniMap s mappedCursor = None <-> previewPoints s mappedCursor = []) /\
  (forall mapped, renderMiniMap s mappedCursor = Some mapped ->
     length mapped = length (previewPoints s mappedCursor) /\
     Forall (fun p => 15 <= px p <= 85 /\ 15 <= py p <= 85) mapped).
Proof.
  unfold renderMiniMap.
  destruct (previewPoints s mappedCursor) as [|p0 rest] eqn:Hprev.
  - split; [tauto|]. intros mapped H. discriminate.
  - split; [split; intros H; discriminate|].
    intros mapped H. cbv zeta in H.
    match type of H with Some ?m = _ => assert (E : m = mapped) by congruence end.
    clear H. subst mapped.
    split; [apply length_map|].
    apply Forall_forall. intros q Hq. apply in_map_iff in Hq.
    destruct Hq as [p [<- Hp]]. cbn [px py].
    assert (Hx : mathMin (px p0) (map px rest) <= px p <= mathMax (px p0) (map px rest)).
    { destruct Hp as [->|Hp].
      - split; [apply mathMin_le_start | apply mathMax_ge_start].
      - split; [apply mathMin_le_each | apply mathMax_ge_each];
          apply in_map; exact Hp. }
    assert (Hy : mathMin (py p0) (map py rest) <= py p <= mathMax (py p0) (map py rest)).
    { destruct Hp as [->|Hp].
      - split; [apply mathMin_le_start | apply mathMax_ge_start].
      - split; [apply mathMin_le_each | apply mathMax_ge_each];
          apply in_map; exact Hp. }
    assert (Hw : 0 < orOne (mathMax (px p0) (map px rest) - mathMin (px p0) (map px rest)))
      by (apply orOne_positive; lra).
    assert (Hh : 0 < orOne (mathMax (py p0) (map py rest) - mathMin (py p0) (map py rest)))
      by (apply orOne_positive; lra).
    split.
    + exact (proj1 (mapped_coordinate_in_box _ _ _ _ Hx Hh)).
    + exact (proj2 (mapped_coordinate_in_box _ _ _ _ Hy Hw)).
Qed.

End MiniMapFacts.

(** ** Rounding at completion *)

Module CompletionFacts.
Import ARMeasurement.

(** [toFixed2] gives a whole number of hundredths at most half a hundredth
    away from its argument. *)
Lemma toFixed2_near (v : R) :
  (exists z : Z, toFixed2 v = IZR z / 100) /\ Rabs (toFixed2 v - v) <= 1 / 200.
Proof.
  unfold toFixed2. destruct (Rlt_dec v 0) as [Hneg|Hpos].
  - destruct (base_Int_part (- v * 100 + / 2)) as [Hle Hgt].
    split.
    + exists (- Int_part (- v * 100 + / 2))%Z. rewrite opp_IZR. reflexivity.
    + apply Rabs_le. split; lra.
  - destruct (base_Int_part (v * 100 + / 2)) as [Hle Hgt].
    split.
    + exists (Int_part (v * 100 + / 2)). reflexivity.
    + apply Rabs_le. split; lra.
Qed.

(** X30. The Done button hands a result to [onComplete] only for a closed
    polygon, and the area and perimeter it hands over are whole numbers of
    hundredths, each within 0.005 of the value computed by [stats]. *)
Theorem completeMeasurement_rounds_stats (s : State) :
  (isClosed s = false -> completeMeasurement s = None) /\
  (isClosed s = true ->
   exists a p : R,
     completeMeasurement s = Some (a, p) /\
     (exists z : Z, a = IZR z / 100) /\ (exists z : Z, p = IZR z / 100) /\
     Rabs (a - area (stats s)) <= 1 / 200 /\
     Rabs (p - perimeter (stats s)) <= 1 / 200).
Proof.
  unfold completeMeasurement. split; intros Hcl; rewrite Hcl; [reflexivity|].
  exists (toFixed2 (area (stats s))), (toFixed2 (perimeter (stats s))).
  destruct (toFixed2_near (area (stats s))) as [Ha1 Ha2].
  destruct (toFixed2_near (perimeter (stats s))) as [Hp1 Hp2].
  repeat split; assumption.
Qed.

End CompletionFacts.
